(** * Inventory application: dashboard aggregation, pagination, product actions

    A shallow embedding of the computations of the inventory application:
    - [src/app/dashboard/page.tsx]   the dashboard's stock breakdown,
      percentages, weekly series and recent stock levels;
    - the pagination component       [getPageUrl], [getVisiblePages];
    - the product server actions     [ProductSchema], [deleteProduct],
      [createProduct].

    JavaScript numbers that go through floating-point arithmetic are IEEE 754
    binary64 values ([spec_float] with precision 53); integers that the code
    only compares and counts are [Z].  Time values are milliseconds since the
    epoch, as in ECMAScript's Date, and the local time zone of the host is a
    parameter, as ECMAScript leaves it to the implementation.  Strings are
    byte strings (the UTF-8 encoding of the JavaScript string). *)

From Stdlib Require Import ZArith List String Ascii Bool Lia Permutation.
From Stdlib Require Import SpecFloat DecimalString.
From Stdlib Require Import Sorted.
From Equations Require Import Equations.
Import ListNotations.
Local Open Scope Z_scope.

(* ===================================================================== *)
(** * The JavaScript runtime pieces the code relies on                    *)
(* ===================================================================== *)

Module JS.

(** ** Numbers *)

Definition number := spec_float.
Definition prec : Z := 53.
Definition emax : Z := 1024.

(** The Number with the value of an integer (exact below 2^53). *)
Definition of_Z (z : Z) : number := binary_normalize prec emax z 0 false.

Definition div : number -> number -> number := SFdiv prec emax.
Definition mul : number -> number -> number := SFmul prec emax.
Definition add : number -> number -> number := SFadd prec emax.
Definition sub : number -> number -> number := SFsub prec emax.
Definition leb : number -> number -> bool := SFleb.
Definition ltb : number -> number -> bool := SFltb.

Definition isNaN (x : number) : bool :=
  match x with S754_nan => true | _ => false end.

Definition isFinite (x : number) : bool :=
  match x with S754_zero _ | S754_finite _ _ _ => true | _ => false end.

(** Equality of representations, as a boolean. *)
Definition same (x y : number) : bool :=
  match x, y with
  | S754_zero a, S754_zero b => Bool.eqb a b
  | S754_infinity a, S754_infinity b => Bool.eqb a b
  | S754_nan, S754_nan => true
  | S754_finite a m e, S754_finite b n f =>
      Bool.eqb a b && Pos.eqb m n && Z.eqb e f
  | _, _ => false
  end.

(** The integer a finite Number denotes, when it denotes one. *)
Definition to_Z (x : number) : option Z :=
  match x with
  | S754_zero _ => Some 0
  | S754_finite s m e =>
      let v := if s then Z.neg m else Z.pos m in
      if 0 <=? e then Some (v * 2 ^ e)
      else if Z.pos m mod 2 ^ (- e) =? 0 then Some (v / 2 ^ (- e))
      else None
  | _ => None
  end.

Definition isInteger (x : number) : bool :=
  match to_Z x with Some _ => true | None => false end.

(** [Math.round]: the integer closest to [x], ties towards +infinity;
    a result of zero keeps the sign of [x]. *)
Definition Math_round (x : number) : number :=
  match x with
  | S754_finite s m e =>
      if 0 <=? e then x
      else
        let v := if s then Z.neg m else Z.pos m in
        let r := (2 * v + 2 ^ (- e)) / 2 ^ (1 - e) in
        if r =? 0 then S754_zero s else of_Z r
  | _ => x
  end.

(** [a + b] and [a - b] for Numbers that hold the integers [a] and [b]: the
    integer their sum or difference holds.  The result is exact while it
    stays within 53 bits and is the nearest Number beyond; it is no integer
    only when the operation overflows, which no integer below 2^1023
    does. *)
Definition plus (a b : Z) : Z :=
  match to_Z (add (of_Z a) (of_Z b)) with
  | Some r => r
  | None => a + b
  end.

Definition minus (a b : Z) : Z :=
  match to_Z (sub (of_Z a) (of_Z b)) with
  | Some r => r
  | None => a - b
  end.

(** ** Strings *)

(** [String(n)] for an integer [n]. *)
Definition String_of_Z (n : Z) : string := NilZero.string_of_int (Z.to_int n).

Fixpoint repeat_string (fill : string) (n : nat) : string :=
  match n with
  | O => EmptyString
  | S k => String.append fill (repeat_string fill k)
  end.

(** [s.padStart(targetLength, fill)]. *)
Definition padStart (targetLength : nat) (fill : string) (s : string) : string :=
  let len := String.length s in
  if (targetLength <=? len)%nat then s
  else if (String.length fill =? 0)%nat then s
  else
    let missing := (targetLength - len)%nat in
    String.append (String.substring 0 missing (repeat_string fill missing)) s.

(** ** Dates (ECMAScript time values, in milliseconds since the epoch) *)

Definition msPerDay : Z := 86400000.
Definition msPerHour : Z := 3600000.
Definition msPerMinute : Z := 60000.
Definition msPerSecond : Z := 1000.

Definition Day (t : Z) : Z := t / msPerDay.
Definition TimeWithinDay (t : Z) : Z := t mod msPerDay.

Definition DaysInYear (y : Z) : Z :=
  if negb (y mod 4 =? 0) then 365
  else if negb (y mod 100 =? 0) then 366
  else if negb (y mod 400 =? 0) then 365
  else 366.

Definition DayFromYear (y : Z) : Z :=
  365 * (y - 1970) + (y - 1969) / 4 - (y - 1901) / 100 + (y - 1601) / 400.

Definition TimeFromYear (y : Z) : Z := msPerDay * DayFromYear y.

(** The largest [y] with [TimeFromYear y <= t]: an estimate from the mean
    length of a year, corrected by at most one. *)
Definition YearFromTime (t : Z) : Z :=
  let d := Day t in
  let y0 := 1970 + (400 * d) / 146097 in
  if DayFromYear (y0 + 1) <=? d then y0 + 1
  else if d <? DayFromYear y0 then y0 - 1
  else y0.

Definition InLeapYear (t : Z) : Z :=
  if DaysInYear (YearFromTime t) =? 366 then 1 else 0.

Definition DayWithinYear (t : Z) : Z := Day t - DayFromYear (YearFromTime t).

(** Number of days before the first of month [m] (0 = January) in a year
    whose leap indicator is [leap]. *)
Definition monthStart (m leap : Z) : Z :=
  match m with
  | 0 => 0
  | 1 => 31
  | 2 => 59 + leap
  | 3 => 90 + leap
  | 4 => 120 + leap
  | 5 => 151 + leap
  | 6 => 181 + leap
  | 7 => 212 + leap
  | 8 => 243 + leap
  | 9 => 273 + leap
  | 10 => 304 + leap
  | _ => 334 + leap
  end.

Definition MonthFromTime (t : Z) : Z :=
  let d := DayWithinYear t in
  let leap := InLeapYear t in
  if d <? 31 then 0
  else if d <? 59 + leap then 1
  else if d <? 90 + leap then 2
  else if d <? 120 + leap then 3
  else if d <? 151 + leap then 4
  else if d <? 181 + leap then 5
  else if d <? 212 + leap then 6
  else if d <? 243 + leap then 7
  else if d <? 273 + leap then 8
  else if d <? 304 + leap then 9
  else if d <? 334 + leap then 10
  else 11.

Definition DateFromTime (t : Z) : Z :=
  DayWithinYear t - monthStart (MonthFromTime t) (InLeapYear t) + 1.

Definition MakeTime (hour min sec ms : Z) : Z :=
  hour * msPerHour + min * msPerMinute + sec * msPerSecond + ms.

(** The day number of the first of month [mn] of year [ym], plus
    [date - 1]. *)
Definition MakeDay (year month date : Z) : Z :=
  let ym := year + month / 12 in
  let mn := month mod 12 in
  let leap := if DaysInYear ym =? 366 then 1 else 0 in
  DayFromYear ym + monthStart mn leap + date - 1.

Definition MakeDate (day time : Z) : Z := day * msPerDay + time.

Section LocalTime.
    (** The local time zone adjustment of the host, in milliseconds, which
        ECMAScript leaves to the implementation: [LocalTZA t true] is the
        offset of local time from UTC at the instant [t], and
        [LocalTZA t false] the offset at the local time [t], where a local
        time that a change of offset skips or repeats is read with the
        offset before the change. *)
Variable LocalTZA : Z -> bool -> Z.

Definition LocalTime (t : Z) : Z := t + LocalTZA t true.
Definition UTC (t : Z) : Z := t - LocalTZA t false.

Definition getDate (tv : Z) : Z := DateFromTime (LocalTime tv).
Definition getMonth (tv : Z) : Z := MonthFromTime (LocalTime tv).

(** [d.setDate(date)]: the new time value of [d]. *)
Definition setDate (tv : Z) (date : Z) : Z :=
  let t := LocalTime tv in
  let newDate :=
    MakeDate (MakeDay (YearFromTime t) (MonthFromTime t) date) (TimeWithinDay t) in
  UTC newDate.

(** [d.setHours(hour, min, sec, ms)]: the new time value of [d]. *)
Definition setHours (tv : Z) (hour min sec ms : Z) : Z :=
  let t := LocalTime tv in
  let date := MakeDate (Day t) (MakeTime hour min sec ms) in
  UTC date.
End LocalTime.

(** A zone at a fixed offset from UTC. *)
Definition fixed_offset (tza : Z) : Z -> bool -> Z := fun _ _ => tza.

(** A zone given by the table of its changes of offset, as a time zone
    database has it: the offset before the first change, and for each change
    its instant and the offset from then on, in order of time. *)
Record TimeZone : Type := mkZone {
  initial_offset : Z;
  changes : list (Z * Z)
}.

(** The offset in force at the instant [t]. *)
Fixpoint offset_at (o : Z) (cs : list (Z * Z)) (t : Z) : Z :=
  match cs with
  | [] => o
  | (change, o') :: rest =>
      if t <? change then o else offset_at o' rest t
  end.

(** The offset to read the local time [t] with: the one before the first
    change that [t] does not lie past, so that a local time the change skips
    or repeats is read with the offset before it. *)
Fixpoint offset_of_local (o : Z) (cs : list (Z * Z)) (t : Z) : Z :=
  match cs with
  | [] => o
  | (change, o') :: rest =>
      if t <? change + Z.max o o' then o else offset_of_local o' rest t
  end.

Definition zone_LocalTZA (z : TimeZone) : Z -> bool -> Z :=
  fun t isUTC =>
    if isUTC then offset_at (initial_offset z) (changes z) t
    else offset_of_local (initial_offset z) (changes z) t.

(** The changes of offset of a zone leave the calendar day alone: a local
    time read as an instant and shown again as local time is a time of the
    same day (a skipped hour moves on within its day), and local times of
    different days are read as instants in the same order. *)
Definition keeps_days (LocalTZA : Z -> bool -> Z) : Prop :=
  (forall t, Day (LocalTime LocalTZA (UTC LocalTZA t)) = Day t)
  /\ (forall t u, Day t < Day u -> UTC LocalTZA t < UTC LocalTZA u).

(** The same for the local times from [lo] up to [hi] only. *)
Definition keeps_days_between (LocalTZA : Z -> bool -> Z) (lo hi : Z) : Prop :=
  (forall t, lo <= t < hi -> Day (LocalTime LocalTZA (UTC LocalTZA t)) = Day t)
  /\ (forall t u, lo <= t -> u < hi -> Day t < Day u ->
                  UTC LocalTZA t < UTC LocalTZA u).

(** A check on a table of changes that is enough for that: the local times
    a forward change skips, and the times they are moved to, lie within one
    day, and the next change comes after them. *)
Fixpoint calendar_safe (o : Z) (cs : list (Z * Z)) : bool :=
  match cs with
  | [] => true
  | (change, o') :: rest =>
      ((o' <=? o) || (Day (change + o) =? Day (change + 2 * o' - o - 1)))
      && match rest with
         | [] => true
         | (next, _) :: _ => change + Z.max 0 (o' - o) <=? next
         end
      && calendar_safe o' rest
  end.

End JS.

(* ===================================================================== *)
(** * Product records and the persistence layer's queries                 *)
(* ===================================================================== *)

Record Product : Type := mkProduct {
  id : string;
  userId : string;
  name : string;
  sku : option string;
  price : JS.number;
  quantity : Z;
  lowStockAt : option Z;
  createdAt : Z
}.

Module Prisma.

Definition table := list Product.

(** [prisma.product.count({ where })]. *)
Definition count (where_ : Product -> bool) (db : table) : Z :=
  Z.of_nat (List.length (filter where_ db)).

(** [prisma.product.findMany({ where })]. *)
Definition findMany (where_ : Product -> bool) (db : table) : list Product :=
  filter where_ db.

(** Insertion of a row in a list ordered by [createdAt], newest first; rows
    with equal [createdAt] keep their relative order. *)
Fixpoint insert_desc (p : Product) (l : list Product) : list Product :=
  match l with
  | [] => [p]
  | q :: l' =>
      if createdAt q <? createdAt p then p :: l
      else q :: insert_desc p l'
  end.

(** [orderBy: { createdAt: "desc" }]. *)
Definition orderBy_createdAt_desc (l : list Product) : list Product :=
  fold_right insert_desc [] l.

(** [prisma.product.deleteMany({ where })]: the number of rows deleted and
    the table that remains. *)
Fixpoint deleteMany (where_ : Product -> bool) (db : table) : Z * table :=
  match db with
  | [] => (0, [])
  | p :: rest =>
      let '(n, rest') := deleteMany where_ rest in
      if where_ p then (n + 1, rest') else (n, p :: rest')
  end.

End Prisma.

(* ===================================================================== *)
(** * The dashboard page                                                  *)
(* ===================================================================== *)

Module Dashboard.

Record WeekEntry : Type := mkWeek { week : string; products : nat }.

Section DashboardPage.
    (** The local time zone adjustment of the host. *)
Variable LocalTZA : Z -> bool -> Z.
Variable db : Prisma.table.
    (** [user.id] of the current user. *)
Variable user_id : string.
    (** The time value of [new Date()]. *)
Variable now : Z.

Definition owned (p : Product) : bool := String.eqb (userId p) user_id.

Definition totalProducts : Z := Prisma.count owned db.

Definition lowStock : Z :=
  Prisma.count
    (fun p => owned p
              && match lowStockAt p with Some _ => true | None => false end
              && (quantity p <=? 5))
    db.

Definition allProducts : list Product := Prisma.findMany owned db.

(** Stock level breakdown. *)
Definition inStockCount : nat :=
  List.length (filter (fun p => quantity p >? 5) allProducts).

Definition lowStockCount : nat :=
  List.length (filter (fun p => (quantity p <=? 5) && (quantity p >=? 1)) allProducts).

Definition outOfStockCount : nat :=
  List.length (filter (fun p => quantity p =? 0) allProducts).

(** [totalProducts > 0 ? Math.round((count / totalProducts) * 100) : 0]. *)
Definition percentage (count : nat) : JS.number :=
  if totalProducts >? 0
  then JS.Math_round
         (JS.mul (JS.div (JS.of_Z (Z.of_nat count)) (JS.of_Z totalProducts))
                 (JS.of_Z 100))
  else JS.of_Z 0.

Definition inStockPercentage : JS.number := percentage inStockCount.
Definition lowStockPercentage : JS.number := percentage lowStockCount.
Definition outOfStockPercentage : JS.number := percentage outOfStockCount.

(** Weekly products data: the body of the loop for a given [i]. *)
Definition weekStart (i : Z) : Z :=
  let weekStart0 := now in
  let weekStart1 :=
    JS.setDate LocalTZA weekStart0 (JS.getDate LocalTZA weekStart0 - i * 7) in
  JS.setHours LocalTZA weekStart1 0 0 0 0.

Definition weekEnd (i : Z) : Z :=
  let weekEnd0 := weekStart i in
  let weekEnd1 :=
    JS.setDate LocalTZA weekEnd0 (JS.getDate LocalTZA weekEnd0 + 6) in
  JS.setHours LocalTZA weekEnd1 23 59 59 999.

Definition weekLabel (i : Z) : string :=
  String.append
    (JS.padStart 2 "0" (JS.String_of_Z (JS.getMonth LocalTZA (weekStart i) + 1)))
    (String.append "/"
       (JS.padStart 2 "0" (JS.String_of_Z (JS.getDate LocalTZA (weekStart i))))).

Definition weekProducts (i : Z) : list Product :=
  filter
    (fun product =>
       let productDate := createdAt product in
       (productDate >=? weekStart i) && (productDate <=? weekEnd i))
    allProducts.

Definition weekEntry (i : Z) : WeekEntry :=
  {| week := weekLabel i; products := List.length (weekProducts i) |}.

(** [for (let i = n; i >= 0; i--) weeklyProductsData.push(...)]. *)
Fixpoint weeks_down_from (n : nat) : list WeekEntry :=
  weekEntry (Z.of_nat n)
    :: match n with
       | O => []
       | S k => weeks_down_from k
       end.

Definition weeklyProductsData : list WeekEntry := weeks_down_from 11.

(** The five most recently created products. *)
Definition recent : list Product :=
  firstn 5 (Prisma.orderBy_createdAt_desc (Prisma.findMany owned db)).
End DashboardPage.

(** [product.lowStockAt || 5]: a missing threshold and a threshold of zero
    both give 5. *)
Definition threshold (product : Product) : Z :=
  match lowStockAt product with
  | Some t => if t =? 0 then 5 else t
  | None => 5
  end.

(** 0 = out of stock, 1 = low stock, 2 = in stock. *)
Definition stockLevel (product : Product) : Z :=
  if quantity product =? 0 then 0
  else if quantity product <=? threshold product then 1
  else 2.

(** The stock levels shown in the recent list. *)
Definition recentStockLevels (db : Prisma.table) (user_id : string) : list Z :=
  map stockLevel (recent db user_id).

End Dashboard.


(* ===================================================================== *)
(** * URL query strings (application/x-www-form-urlencoded)               *)
(* ===================================================================== *)

Module URL.

(** A [Record<string, string>] as the list of its own properties in
    enumeration order, and the entry list of a [URLSearchParams]. *)
Definition params := list (string * string).

(** [{ ...o, [k]: v }]: an existing property keeps its place and takes the
    new value, a new property is added last. *)
Fixpoint obj_set (o : params) (k v : string) : params :=
  match o with
  | [] => [(k, v)]
  | (k', v') :: rest =>
      if String.eqb k' k then (k', v) :: rest
      else (k', v') :: obj_set rest k v
  end.

(** [URLSearchParams.prototype.get]: the value of the first entry named [k]. *)
Fixpoint get (k : string) (ps : params) : option string :=
  match ps with
  | [] => None
  | (k', v) :: rest => if String.eqb k' k then Some v else get k rest
  end.

Definition hex_digit (n : N) : ascii :=
  if (n <? 10)%N then ascii_of_N (48 + n) else ascii_of_N (55 + n).

(** Bytes the serializer leaves as they are: ASCII alphanumerics and
    [*], [-], [.], [_]. *)
Definition unreserved (c : ascii) : bool :=
  let n := N_of_ascii c in
  ((48 <=? n) && (n <=? 57) || (65 <=? n) && (n <=? 90)
   || (97 <=? n) && (n <=? 122)
   || (n =? 42) || (n =? 45) || (n =? 46) || (n =? 95))%N.

(** The serialization of one byte: a space becomes [+], an unreserved byte
    stays, any other byte is percent-encoded. *)
Definition encode_byte (c : ascii) : string :=
  if Ascii.eqb c " " then String "+" EmptyString
  else if unreserved c then String c EmptyString
  else
    let n := N_of_ascii c in
    String "%" (String (hex_digit (n / 16))
                       (String (hex_digit (n mod 16)) EmptyString)).

Fixpoint encode (s : string) : string :=
  match s with
  | EmptyString => EmptyString
  | String c rest => String.append (encode_byte c) (encode rest)
  end.

(** One name-value pair of the serialization. *)
Definition serialize_pair (k v : string) : string :=
  String.append (encode k) (String "=" (encode v)).

(** [URLSearchParams.prototype.toString]. *)
Fixpoint serialize (ps : params) : string :=
  match ps with
  | [] => EmptyString
  | [(k, v)] => serialize_pair k v
  | (k, v) :: rest =>
      String.append (serialize_pair k v) (String "&" (serialize rest))
  end.

(** The parser of a query string, used to read a URL back. *)

Definition hex_value (c : ascii) : option N :=
  let n := N_of_ascii c in
  if ((48 <=? n) && (n <=? 57))%N then Some (n - 48)%N
  else if ((65 <=? n) && (n <=? 70))%N then Some (n - 55)%N
  else if ((97 <=? n) && (n <=? 102))%N then Some (n - 87)%N
  else None.

Fixpoint percent_decode (s : string) : string :=
  match s with
  | String "%" (String h (String l rest as tl2) as tl1) =>
      match hex_value h, hex_value l with
      | Some a, Some b => String (ascii_of_N (16 * a + b)) (percent_decode rest)
      | _, _ => String "%" (percent_decode tl1)
      end
  | String c rest => String c (percent_decode rest)
  | EmptyString => EmptyString
  end.

Fixpoint plus_to_space (s : string) : string :=
  match s with
  | EmptyString => EmptyString
  | String c rest =>
      String (if Ascii.eqb c "+" then " "%char else c) (plus_to_space rest)
  end.

Definition decode (s : string) : string := percent_decode (plus_to_space s).

(** Whether the byte [c] occurs in [s]. *)
Fixpoint contains (c : ascii) (s : string) : bool :=
  match s with
  | EmptyString => false
  | String c' rest => Ascii.eqb c' c || contains c rest
  end.

(** Split at every occurrence of [sep]. *)
Fixpoint split_on (sep : ascii) (s : string) : list string :=
  match s with
  | EmptyString => [EmptyString]
  | String c rest =>
      if Ascii.eqb c sep then EmptyString :: split_on sep rest
      else
        match split_on sep rest with
        | [] => [String c EmptyString]
        | w :: ws => String c w :: ws
        end
  end.

(** Split at the first occurrence of [sep], if any. *)
Fixpoint split_first (sep : ascii) (s : string) : string * option string :=
  match s with
  | EmptyString => (EmptyString, None)
  | String c rest =>
      if Ascii.eqb c sep then (EmptyString, Some rest)
      else let '(a, b) := split_first sep rest in (String c a, b)
  end.

Definition parse_pair (piece : string) : string * string :=
  match split_first "=" piece with
  | (k, Some v) => (decode k, decode v)
  | (k, None) => (decode k, EmptyString)
  end.

Definition parse (query : string) : params :=
  map parse_pair
      (filter (fun piece => negb (String.eqb piece EmptyString))
              (split_on "&" query)).

(** The query of a URL: what follows the first [?], up to a [#]. *)
Definition query_of (url : string) : string :=
  match split_first "?" (fst (split_first "#" url)) with
  | (_, Some q) => q
  | (_, None) => EmptyString
  end.

Definition searchParams_of (url : string) : params := parse (query_of url).

End URL.

(* ===================================================================== *)
(** * The pagination component                                            *)
(* ===================================================================== *)

Module Pagination.

Inductive token : Type :=
| PageNo (n : Z)
| Dots.

(** The [for] loop that fills [range]: [i] runs from its start while
    [i <= stop]. *)
Unset Equations With Funext.
Equations? range_loop (i stop : Z) : list Z by wf (Z.to_nat (stop + 1 - i)) lt :=
  range_loop i stop with Z_le_gt_dec i stop => {
    | left _ := i :: range_loop (i + 1) stop;
    | right _ := [] }.
Proof. lia. Qed.

Section Component.
Variable currentPage totalPages : Z.
Variable baseUrl : string.
Variable searchParams : URL.params.

Definition getPageUrl (page : Z) : string :=
  let params := URL.obj_set searchParams "page" (JS.String_of_Z page) in
  String.append baseUrl (String "?" (URL.serialize params)).

Definition getVisiblePages : list token :=
  let delta := 2 in
  let range :=
    range_loop (Z.max 2 (currentPage - delta))
               (Z.min (totalPages - 1) (currentPage + delta)) in
  let rangeWithDots1 :=
    if currentPage - delta >? 2 then [PageNo 1; Dots] else [PageNo 1] in
  let rangeWithDots2 := rangeWithDots1 ++ map PageNo range in
  if currentPage + delta <? totalPages - 1
  then rangeWithDots2 ++ [Dots; PageNo totalPages]
  else rangeWithDots2 ++ [PageNo totalPages].

(** What the component renders. *)
Inductive item : Type :=
| Ellipsis
| PageLink (href : string) (pageNumber : Z) (isCurrentPage : bool).

Record nav : Type := mkNav {
  previous_href : string;
  previous_disabled : bool;
  items : list item;
  next_href : string;
  next_disabled : bool
}.

Definition render_token (page : token) : item :=
  match page with
  | Dots => Ellipsis
  | PageNo pageNumber =>
      PageLink (getPageUrl pageNumber) pageNumber (pageNumber =? currentPage)
  end.

(** [None] is the component's [return null].  The neighbours of the current
    page are computed on Numbers ([currentPage - 1], [currentPage + 1]). *)
Definition Pagination : option nav :=
  if totalPages <=? 1 then None
  else
    let visiblePages := getVisiblePages in
    Some {| previous_href := getPageUrl (JS.minus currentPage 1);
            previous_disabled := currentPage <=? 1;
            items := map render_token visiblePages;
            next_href := getPageUrl (JS.plus currentPage 1);
            next_disabled := currentPage >=? totalPages |}.
End Component.

End Pagination.


(* ===================================================================== *)
(** * The product server actions                                          *)
(* ===================================================================== *)

Module Actions.

(** The values that reach the schema: what [formData.get] returns (a string,
    a file or [null]) and [undefined]. *)
Inductive jsval : Type :=
| VUndefined
| VNull
| VString (s : string)
| VFile.

Inductive entry : Type :=
| Text (s : string)
| File.

Definition FormData := list (string * entry).

(** [formData.get(name)]: the first value under [name], or [null]. *)
Fixpoint formData_get (formData : FormData) (name : string) : jsval :=
  match formData with
  | [] => VNull
  | (k, e) :: rest =>
      if String.eqb k name
      then match e with Text s => VString s | File => VFile end
      else formData_get rest name
  end.

Definition truthy (v : jsval) : bool :=
  match v with
  | VUndefined | VNull => false
  | VString s => negb (String.eqb s EmptyString)
  | VFile => true
  end.

(** [a || b]. *)
Definition or_else (a b : jsval) : jsval := if truthy a then a else b.

(** [String(v)]. *)
Definition ToString (v : jsval) : string :=
  match v with
  | VUndefined => "undefined"
  | VNull => "null"
  | VString s => s
  | VFile => "[object File]"
  end.

(** Completion of a statement: normal, or an exception thrown. *)
Inductive exn : Type :=
| Error (message : string)
| NEXT_REDIRECT (url : string)
| PrismaClientError.

Inductive completion : Type :=
| Normal
| Throw (e : exn).

(** [redirect(url)] of next/navigation signals the redirect by throwing. *)
Definition redirect (url : string) : completion := Throw (NEXT_REDIRECT url).

(** ** The schema *)

Inductive result (A : Type) : Type :=
| OK (a : A)
| Invalid (issue : string).
Arguments OK {A} a.
Arguments Invalid {A} issue.

Definition schema (A : Type) : Type := jsval -> result A.

Definition refine {A : Type} (check : A -> bool) (issue : string)
    (s : schema A) : schema A :=
  fun v =>
    match s v with
    | OK a => if check a then OK a else Invalid issue
    | Invalid i => Invalid i
    end.

Definition z_string : schema string :=
  fun v => match v with VString s => OK s | _ => Invalid "Expected string" end.

Definition str_min (n : nat) (issue : string) : schema string -> schema string :=
  refine (fun s => (n <=? String.length s)%nat) issue.

Definition optional {A : Type} (s : schema A) : schema (option A) :=
  fun v =>
    match v with
    | VUndefined => OK None
    | _ => match s v with OK a => OK (Some a) | Invalid i => Invalid i end
    end.

Record ProductData : Type := mkData {
  data_name : string;
  data_price : JS.number;
  data_quantity : JS.number;
  data_sku : option string;
  data_lowStockAt : option JS.number
}.

(** An object literal: its properties; a property that is not there reads
    as [undefined]. *)
Definition object := list (string * jsval).

Fixpoint prop (o : object) (k : string) : jsval :=
  match o with
  | [] => VUndefined
  | (k', v) :: rest => if String.eqb k' k then v else prop rest k
  end.

Record PrismaEnv : Type := mkEnv {
  new_id : string;        (** the identifier the store gives the new row *)
  new_createdAt : Z;      (** its creation time *)
  write_succeeds : bool   (** whether the store accepts the write *)
}.

Section Actions.
(** [Number(s)] on strings, as the runtime computes it. *)
Variable StringToNumber : string -> JS.number.
(** Whether the schema library is zod 4, which also rejects infinite numbers
    and integers outside the safe range; zod 3 accepts them. *)
Variable zod4 : bool.
(** [user.id] of the current user, from [getCurrentUser()]. *)
Variable user_id : string.

(** [Number(v)]. *)
Definition ToNumber (v : jsval) : JS.number :=
  match v with
  | VUndefined => S754_nan
  | VNull => S754_zero false
  | VString s => StringToNumber s
  | VFile => S754_nan
  end.

Definition z_coerce_number : schema JS.number :=
  fun v =>
    let n := ToNumber v in
    if JS.isNaN n then Invalid "Expected number, received nan"
    else if zod4 && negb (JS.isFinite n) then Invalid "Expected number, received Infinity"
    else OK n.

Definition nonnegative (issue : string) : schema JS.number -> schema JS.number :=
  refine (fun n => JS.leb (JS.of_Z 0) n) issue.

Definition safe_integer (n : JS.number) : bool :=
  match JS.to_Z n with
  | Some k => Z.abs k <=? 2 ^ 53 - 1
  | None => false
  end.

Definition int : schema JS.number -> schema JS.number :=
  refine (fun n => JS.isInteger n && (negb zod4 || safe_integer n))
         "Expected integer".

Definition num_min (k : Z) (issue : string) : schema JS.number -> schema JS.number :=
  refine (fun n => JS.leb (JS.of_Z k) n) issue.

Definition schema_name : schema string := str_min 1 "Name is requird" z_string.
Definition schema_price : schema JS.number :=
  nonnegative "Price must be non-negative" z_coerce_number.
Definition schema_quantity : schema JS.number :=
  num_min 0 "Quantity must be non-negative" (int z_coerce_number).
Definition schema_sku : schema (option string) := optional z_string.
Definition schema_lowStockAt : schema (option JS.number) :=
  optional (num_min 0 "Too small" (int z_coerce_number)).

(** [ProductSchema.safeParse(o)]. *)
Definition ProductSchema_safeParse (o : object) : result ProductData :=
  match schema_name (prop o "name"),
        schema_price (prop o "price"),
        schema_quantity (prop o "quantity"),
        schema_sku (prop o "sku"),
        schema_lowStockAt (prop o "lowStockAt") with
  | OK n, OK p, OK q, OK s, OK l => OK (mkData n p q s l)
  | Invalid i, _, _, _, _ => Invalid i
  | _, Invalid i, _, _, _ => Invalid i
  | _, _, Invalid i, _, _ => Invalid i
  | _, _, _, Invalid i, _ => Invalid i
  | _, _, _, _, Invalid i => Invalid i
  end.

(** [prisma.product.create({ data: { ...data, userId } })]: the integer
    columns take integers only. *)
Definition prisma_create (env : PrismaEnv) (data : ProductData) (db : Prisma.table)
  : completion * Prisma.table :=
  let low :=
    match data_lowStockAt data with
    | None => Some None
    | Some n => match JS.to_Z n with Some k => Some (Some k) | None => None end
    end in
  match write_succeeds env, JS.to_Z (data_quantity data), low with
  | true, Some q, Some l =>
      (Normal,
       db ++ [ {| id := new_id env;
                  userId := user_id;
                  name := data_name data;
                  sku := data_sku data;
                  price := data_price data;
                  quantity := q;
                  lowStockAt := l;
                  createdAt := new_createdAt env |} ])
  | _, _, _ => (Throw PrismaClientError, db)
  end.

(** [String(formData.get("id") || "")]. *)
Definition submitted_id (formData : FormData) : string :=
  ToString (or_else (formData_get formData "id") (VString "")).

Definition deleteProduct (formData : FormData) (db : Prisma.table)
  : completion * Prisma.table :=
  let id_ := submitted_id formData in
  let '(_, db') :=
    Prisma.deleteMany
      (fun p => String.eqb (id p) id_ && String.eqb (userId p) user_id) db in
  (Normal, db').

Definition createProduct (env : PrismaEnv) (formData : FormData) (db : Prisma.table)
  : completion * Prisma.table :=
  let parsed :=
    ProductSchema_safeParse
      [ ("name", formData_get formData "name");
        ("price", formData_get formData "price");
        ("quantity", formData_get formData "quantity");
        ("sku", or_else (formData_get formData "sku") VUndefined) ]%string in
  match parsed with
  | Invalid _ => (Throw (Error "Validation failed"), db)
  | OK data =>
      (* try *)
      let '(c1, db') := prisma_create env data db in
      let c2 := match c1 with Normal => redirect "/inventory" | Throw e => Throw e end in
      (* catch (error) *)
      match c2 with
      | Normal => (Normal, db')
      | Throw _ => (Throw (Error "Failed to create product"), db')
      end
  end.
End Actions.

(** A reader of unsigned decimal integers, standing for [Number(s)] on such
    strings in examples. *)
Fixpoint digits_value (s : string) (acc : Z) : option Z :=
  match s with
  | EmptyString => Some acc
  | String c rest =>
      let n := Z.of_N (N_of_ascii c) in
      if (48 <=? n) && (n <=? 57) then digits_value rest (10 * acc + (n - 48))
      else None
  end.

Definition decimal_StringToNumber (s : string) : JS.number :=
  match s with
  | EmptyString => S754_zero false
  | _ => match digits_value s 0 with
         | Some k => JS.of_Z k
         | None => S754_nan
         end
  end.

End Actions.


(* ===================================================================== *)
(** * The specification's own definitions, to compare the code with       *)
(* ===================================================================== *)

Module Spec.

(** ** Stock classification *)

Inductive StockClassification : Type :=
| OutOfStock
| LowStock
| InStock.

(** The effective threshold: [lowStockAt] if set, else 5. *)
Definition effective_threshold (p : Product) : Z :=
  match lowStockAt p with
  | Some t => t
  | None => 5
  end.

(** OutOfStock: quantity = 0.  LowStock: 0 < quantity <= threshold.
    InStock: quantity > threshold. *)
Definition in_class (c : StockClassification) (p : Product) : bool :=
  match c with
  | OutOfStock => quantity p =? 0
  | LowStock => (0 <? quantity p) && (quantity p <=? effective_threshold p)
  | InStock => quantity p >? effective_threshold p
  end.

(** The level the page shows for a class. *)
Definition level_of (c : StockClassification) : Z :=
  match c with
  | OutOfStock => 0
  | LowStock => 1
  | InStock => 2
  end.

(** The effective threshold as amended: [lowStockAt] if set and not zero,
    else 5. *)
Definition shown_threshold (p : Product) : Z :=
  match lowStockAt p with
  | Some t => if t =? 0 then 5 else t
  | None => 5
  end.

(** The classification with the amended threshold. *)
Definition shown_class (c : StockClassification) (p : Product) : bool :=
  match c with
  | OutOfStock => quantity p =? 0
  | LowStock => (0 <? quantity p) && (quantity p <=? shown_threshold p)
  | InStock => quantity p >? shown_threshold p
  end.

(** A record as the data model has it: a non-negative quantity and, when
    set, a non-negative threshold. *)
Definition well_formed (p : Product) : Prop :=
  0 <= quantity p /\
  match lowStockAt p with Some t => 0 <= t | None => True end.

(** The record with its threshold left unset. *)
Definition without_threshold (p : Product) : Product :=
  {| id := id p; userId := userId p; name := name p; sku := sku p;
     price := price p; quantity := quantity p; lowStockAt := None;
     createdAt := createdAt p |}.

(** ** Percentages *)

(** [round(count / total * 100)], half up, on the exact fraction. *)
Definition round_half_up (count total : Z) : Z :=
  (200 * count + total) / (2 * total).

(** The exact value [count / total * 100] lies half way between two
    integers. *)
Definition is_tie (count total : Z) : bool :=
  (200 * count + total) mod (2 * total) =? 0.

(** What holds of a percentage computed in double precision: it is the
    half-up rounding of the exact fraction unless the exact value is a tie,
    where it is that rounding or one less. *)
Definition rounds_half_up_off_ties (pct : JS.number) (count total : Z) : Prop :=
  (is_tie count total = false -> pct = JS.of_Z (round_half_up count total))
  /\ (pct = JS.of_Z (round_half_up count total)
      \/ pct = JS.of_Z (round_half_up count total - 1)).

(** How far the exact value [count / total * 100] lies above the nearest
    half-way value below or at it, in units of [1 / (2 * total)]; the next
    half-way value is [2 * total] units above that one. *)
Definition above_half_way (count total : Z) : Z :=
  (200 * count + total) mod (2 * total).

(** What holds of it whatever the total: it is the half-up rounding of the
    exact fraction when the exact value is at least 2^-45 away from every
    half-way value; it is that rounding or one less when the exact value is
    a half-way value or less than 2^-45 above one, and that rounding or one
    more when it is less than 2^-45 below one. *)
Definition rounds_half_up_nearly (pct : JS.number) (count total : Z) : Prop :=
  let R := round_half_up count total in
  let rho := above_half_way count total in
  (total <= rho * 2 ^ 44 -> total <= (2 * total - rho) * 2 ^ 44 ->
   pct = JS.of_Z R)
  /\ (rho * 2 ^ 44 < total -> pct = JS.of_Z R \/ pct = JS.of_Z (R - 1))
  /\ ((2 * total - rho) * 2 ^ 44 < total ->
      pct = JS.of_Z R \/ pct = JS.of_Z (R + 1)).

(** ** Weekly windows *)

(** The local time [time] of the local day [day], as an instant. *)
Definition local_instant (LocalTZA : Z -> bool -> Z) (day time : Z) : Z :=
  JS.UTC LocalTZA (day * JS.msPerDay + time).

(** The local day of an instant. *)
Definition local_day (LocalTZA : Z -> bool -> Z) (t : Z) : Z :=
  JS.Day (JS.LocalTime LocalTZA t).

(** 23:59:59.999, the last millisecond of a day. *)
Definition end_of_day : Z :=
  23 * JS.msPerHour + 59 * JS.msPerMinute + 59 * JS.msPerSecond + 999.

(** An instant shifted by [k] days: the same local time of day [k] days on,
    read as an instant. *)
Definition shift_days (LocalTZA : Z -> bool -> Z) (t k : Z) : Z :=
  JS.UTC LocalTZA (JS.LocalTime LocalTZA t + k * JS.msPerDay).

(** An instant truncated to the start of its day, 00:00:00.000 local time,
    and to the end of its day, 23:59:59.999 local time. *)
Definition day_start (LocalTZA : Z -> bool -> Z) (t : Z) : Z :=
  local_instant LocalTZA (local_day LocalTZA t) 0.

Definition day_end (LocalTZA : Z -> bool -> Z) (t : Z) : Z :=
  local_instant LocalTZA (local_day LocalTZA t) end_of_day.

(** [now] shifted back [i * 7] days, truncated to the start of that day. *)
Definition windowStart (LocalTZA : Z -> bool -> Z) (now i : Z) : Z :=
  day_start LocalTZA (shift_days LocalTZA now (- (i * 7))).

(** Window start + 6 days, truncated to the end of that day. *)
Definition windowEnd (LocalTZA : Z -> bool -> Z) (now i : Z) : Z :=
  day_end LocalTZA (shift_days LocalTZA (windowStart LocalTZA now i) 6).

(** The calendar of the host is regular around [now]: among the local times
    from 77 days before the local day of [now] to 6 days after it, which are
    the days the twelve windows lie in, no change of offset moves a local
    time to another day or puts local times of different days out of
    order. *)
Definition span_keeps_days (LocalTZA : Z -> bool -> Z) (now : Z) : Prop :=
  JS.keeps_days_between LocalTZA
    ((local_day LocalTZA now - 77) * JS.msPerDay)
    ((local_day LocalTZA now + 7) * JS.msPerDay).

Definition in_window (LocalTZA : Z -> bool -> Z) (now i : Z) (p : Product)
  : bool :=
  (windowStart LocalTZA now i <=? createdAt p)
  && (createdAt p <=? windowEnd LocalTZA now i).

Definition digit (n : Z) : ascii := ascii_of_N (48 + Z.to_N n).

Definition two_digits (n : Z) : string :=
  String (digit (n / 10)) (String (digit (n mod 10)) EmptyString).

(** The zero-padded month/day of a time value, in local time. *)
Definition label (LocalTZA : Z -> bool -> Z) (t : Z) : string :=
  String.append
    (two_digits (JS.MonthFromTime (JS.LocalTime LocalTZA t) + 1))
    (String "/" (two_digits (JS.DateFromTime (JS.LocalTime LocalTZA t)))).

(** The values of [i] the loop of the weekly series visits, in order. *)
Definition loop_indices : list Z := [11; 10; 9; 8; 7; 6; 5; 4; 3; 2; 1; 0].

(** ** Page window *)

(** The contiguous increasing range from [lo] to [hi], empty when
    [hi < lo]. *)
Definition contiguous (lo hi : Z) : list Z :=
  map (fun k => lo + Z.of_nat k) (seq 0 (Z.to_nat (hi + 1 - lo))).

Definition computeWindow (currentPage totalPages radius : Z) : list Pagination.token :=
  [Pagination.PageNo 1]
  ++ (if currentPage - radius >? 2 then [Pagination.Dots] else [])
  ++ map Pagination.PageNo
         (contiguous (Z.max 2 (currentPage - radius))
                     (Z.min (totalPages - 1) (currentPage + radius)))
  ++ (if currentPage + radius <? totalPages - 1 then [Pagination.Dots] else [])
  ++ [Pagination.PageNo totalPages].

End Spec.

(** Records used in examples. *)
Definition sample (q : Z) (low : option Z) (created : Z) : Product :=
  {| id := "p"; userId := "u"; name := "item"; sku := None;
     price := JS.of_Z 1; quantity := q; lowStockAt := low;
     createdAt := created |}.

(** [lowStockAt = 10] and [quantity = 10]. *)
Definition boundary_product : Product := sample 10 (Some 10) 0.

(** Forty records of one user: 23 with six units, 17 with none. *)
Definition forty_products : Prisma.table :=
  repeat (sample 6 None 0) 23 ++ repeat (sample 0 None 0) 17.

(** Seven records with quantities 0, 3, 3, 6, 6, 6, 10 and no threshold. *)
Definition seven_products : Prisma.table :=
  map (fun q => sample q None 0) [0; 3; 3; 6; 6; 6; 10].


(** A form that supplies every field of a product but the SKU. *)
Definition widget_form : Actions.FormData :=
  [ ("name", Actions.Text "Widget"); ("price", Actions.Text "12");
    ("quantity", Actions.Text "3"); ("lowStockAt", Actions.Text "10") ]%string.

(** Two records of one user: one created on 2024-03-15 at 00:00 UTC, one on
    2023-12-01. *)
Definition march_records : Prisma.table :=
  [sample 1 None 1710460800000; sample 2 None 1701388800000].

(** America/New_York around 2024: five hours behind UTC, four from
    2024-03-10 07:00 UTC to 2024-11-03 06:00 UTC. *)
Definition new_york_2024 : JS.TimeZone :=
  {| JS.initial_offset := -18000000;
     JS.changes := [(1710054000000, -14400000); (1730613600000, -18000000)] |}.

(** Pacific/Apia from late 2011 on: eleven hours behind UTC, ten from
    2011-09-24 14:00 UTC; at 2011-12-30 10:00 UTC, the local midnight that
    ended December 29, the zone moved across the date line to fourteen
    hours ahead of UTC, so that December 31 followed December 29; thirteen
    hours ahead from 2012-03-31 14:00 UTC. *)
Definition apia_2011 : JS.TimeZone :=
  {| JS.initial_offset := -39600000;
     JS.changes := [(1316872800000, -36000000); (1325239200000, 50400000);
                    (1333202400000, 46800000)] |}.

(** A record created on 2012-01-05 at 18:00 UTC, which is 08:00 of January 6
    in Apia. *)
Definition apia_records : Prisma.table := [sample 1 None 1325786400000].

(** A record with a given id and owner. *)
Definition record_of (id_ user : string) : Product :=
  {| id := id_; userId := user; name := "item"; sku := None;
     price := JS.of_Z 1; quantity := 1; lowStockAt := None; createdAt := 0 |}.

(** Three records: "a" and "b" of user "u1", and another "a" of user
    "u2". *)
Definition three_records : Prisma.table :=
  [record_of "a" "u1"; record_of "a" "u2"; record_of "b" "u1"].


(* ===================================================================== *)
(** * More of the runtime: subtraction, [Math.max], [Math.ceil]           *)
(* ===================================================================== *)

Module JSMath.

Definition sub : JS.number -> JS.number -> JS.number := SFsub JS.prec JS.emax.

(** [Math.max(a, b)]: NaN if either is NaN, else the larger; of two zeros,
    the positive one. *)
Definition Math_max (a b : JS.number) : JS.number :=
  if JS.isNaN a || JS.isNaN b then S754_nan
  else if JS.ltb a b then b
  else if JS.ltb b a then a
  else match a with S754_zero true => b | _ => a end.

(** [Math.ceil]: the smallest integer not below [x]; a result of zero keeps
    the sign of [x]. *)
Definition Math_ceil (x : JS.number) : JS.number :=
  match x with
  | S754_finite s m e =>
      if 0 <=? e then x
      else
        let v := if s then Z.neg m else Z.pos m in
        let r := - ((- v) / 2 ^ (- e)) in
        if r =? 0 then S754_zero s else JS.of_Z r
  | _ => x
  end.

End JSMath.

(* ===================================================================== *)
(** * Reading the records of the rounding procedure                       *)
(* ===================================================================== *)

Module Float.

(** A record of the right-shift procedure locates the real number [N / D]:
    it lies between [m] and [m + 1], the latter excluded; the round bit says
    whether it is in the upper half of that interval, and the sticky bit
    whether it is neither [m] nor the middle. *)
Definition located (N D : Z) (mrs : shr_record) : Prop :=
  0 <= shr_m mrs
  /\ shr_m mrs * D <= N < (shr_m mrs + 1) * D
  /\ (shr_r mrs = true <-> (2 * shr_m mrs + 1) * D <= 2 * N)
  /\ (shr_s mrs = true <->
      N <> shr_m mrs * D /\ 2 * N <> (2 * shr_m mrs + 1) * D).

End Float.

(* ===================================================================== *)
(** * The inventory page                                                  *)
(* ===================================================================== *)

Module Inventory.

Record view : Type := mkView {
  items : list Product;
  totalPages : JS.number;
  pagination : option Pagination.nav
}.

(** [findMany({ where, orderBy: { createdAt: "desc" }, skip, take })] for
    integer [skip] and [take]. *)
Definition findMany_page (where_ : Product -> bool) (skip take : Z)
    (db : Prisma.table) : list Product :=
  firstn (Z.to_nat take)
         (skipn (Z.to_nat skip)
                (Prisma.orderBy_createdAt_desc (Prisma.findMany where_ db))).

Section InventoryPage.
(** [Number(s)] on strings, as the runtime computes it. *)
Variable StringToNumber : string -> JS.number.
(** [String.prototype.trim]. *)
Variable trim : string -> string.
(** The store's [{ contains: q, mode: "insensitive" }] on a name:
    [contains_insensitive q name]. *)
Variable contains_insensitive : string -> string -> bool.
(** [user.id] of the current user. *)
Variable user_id : string.
Variable db : Prisma.table.
(** [params.q] and [params.page]; [None] is [undefined]. *)
Variable params_q params_page : option string.

Definition q : string :=
  trim (match params_q with Some s => s | None => EmptyString end).

Definition page : JS.number :=
  JSMath.Math_max (JS.of_Z 1)
    (match params_page with Some s => StringToNumber s | None => JS.of_Z 1 end).

Definition pageSize : Z := 5.

Definition where_ (p : Product) : bool :=
  String.eqb (userId p) user_id
  && (if negb (String.eqb q EmptyString) then contains_insensitive q (name p)
      else true).

Definition totalCount : Z := Prisma.count where_ db.

Definition skip : JS.number :=
  JS.mul (JSMath.sub page (JS.of_Z 1)) (JS.of_Z pageSize).

Definition totalPages_ : JS.number :=
  JSMath.Math_max (JS.of_Z 1)
    (JSMath.Math_ceil (JS.div (JS.of_Z totalCount) (JS.of_Z pageSize))).

(** What the page shows.  [None]: the page number is not an integer, and the
    query the page then sends is outside this model. *)
Definition InventoryPage : option view :=
  match JS.to_Z page, JS.to_Z skip with
  | Some currentPage, Some k =>
      Some {| items := findMany_page where_ k pageSize db;
              totalPages := totalPages_;
              pagination :=
                if JS.ltb (JS.of_Z 1) totalPages_
                then match JS.to_Z totalPages_ with
                     | Some n =>
                         Pagination.Pagination currentPage n "/inventory"
                           [ ("q", q); ("pageSize", JS.String_of_Z pageSize) ]%string
                     | None => None
                     end
                else None |}
  | _, _ => None
  end.
End InventoryPage.

(** The address asks for page [n]: its page parameter reads as the integer
    [n], or it has no page parameter and [n] is 1. *)
Definition asks_for_page (StringToNumber : string -> JS.number)
    (params_page : option string) (n : Z) : Prop :=
  match params_page with
  | Some s => StringToNumber s = JS.of_Z n
  | None => n = 1
  end.

(** The products that match the request, newest first: what the pages of
    the listing are cut from. *)
Definition listing (trim : string -> string)
    (contains_insensitive : string -> string -> bool)
    (user_id : string) (db : Prisma.table) (params_q : option string)
  : list Product :=
  Prisma.orderBy_createdAt_desc
    (Prisma.findMany (where_ trim contains_insensitive user_id params_q) db).

(** The rows shown on page [n] of the listing, none when the page does not
    render. *)
Definition items_on_page (StringToNumber : string -> JS.number)
    (trim : string -> string) (contains_insensitive : string -> string -> bool)
    (user_id : string) (db : Prisma.table) (params_q : option string)
    (n : Z) : list Product :=
  match InventoryPage StringToNumber trim contains_insensitive user_id db
          params_q (Some (JS.String_of_Z n)) with
  | Some v => items v
  | None => []
  end.

(** The checks of the page arithmetic on integers: page [n] gives the skip
    [5 * (max 1 n - 1)], and a count [c] gives [max 1 (ceil (c / 5))]
    pages, more than one exactly when [c > 5]. *)
Definition page_check (n : Z) : bool :=
  let page := JSMath.Math_max (JS.of_Z 1) (JS.of_Z n) in
  JS.same page (JS.of_Z (Z.max 1 n))
  && match JS.to_Z page,
           JS.to_Z (JS.mul (JSMath.sub page (JS.of_Z 1)) (JS.of_Z 5)) with
     | Some p, Some k => (p =? Z.max 1 n) && (k =? 5 * (Z.max 1 n - 1))
     | _, _ => false
     end.

Definition count_check (c : Z) : bool :=
  let pages :=
    JSMath.Math_max (JS.of_Z 1)
      (JSMath.Math_ceil (JS.div (JS.of_Z c) (JS.of_Z 5))) in
  JS.same pages (JS.of_Z (Z.max 1 ((c + 4) / 5)))
  && match JS.to_Z pages with
     | Some n => n =? Z.max 1 ((c + 4) / 5)
     | None => false
     end
  && Bool.eqb (JS.ltb (JS.of_Z 1) pages) (5 <? c).

Definition checks_upto (pages counts : nat) : bool :=
  forallb (fun k => page_check (Z.of_nat k) && page_check (- Z.of_nat k))
          (seq 0 (S pages))
  && forallb (fun k => count_check (Z.of_nat k)) (seq 0 (S counts)).

End Inventory.

(* ===================================================================== *)
(** * Reading a page window and a rendered navigation                     *)
(* ===================================================================== *)

Module PageWindow.

(** The page numbers of a token sequence, in order. *)
Definition page_numbers (l : list Pagination.token) : list Z :=
  flat_map (fun t => match t with
                     | Pagination.PageNo n => [n]
                     | Pagination.Dots => []
                     end) l.

(** Neighbouring numbers are consecutive, and an ellipsis stands between two
    numbers with at least one page between them. *)
Fixpoint gaps_marked (l : list Pagination.token) : bool :=
  match l with
  | [] => true
  | Pagination.Dots :: _ => false
  | Pagination.PageNo a :: rest =>
      match rest with
      | [] => true
      | Pagination.PageNo b :: _ => (b =? a + 1) && gaps_marked rest
      | Pagination.Dots :: rest' =>
          match rest' with
          | Pagination.PageNo b :: _ => (a + 1 <? b) && gaps_marked rest'
          | _ => false
          end
      end
  end.

Definition is_current (i : Pagination.item) : bool :=
  match i with
  | Pagination.PageLink _ _ c => c
  | Pagination.Ellipsis => false
  end.

End PageWindow.

(* ===================================================================== *)
(** * Reading the dashboard                                               *)
(* ===================================================================== *)

Module Shown.

(** [a] was created no earlier than [b]. *)
Definition not_older (a b : Product) : Prop := createdAt b <= createdAt a.

(** Whether a record was created between the start of the oldest weekly
    window and the end of the newest one. *)
Definition in_series_span (LocalTZA : Z -> bool -> Z) (now : Z) (p : Product)
  : bool :=
  (Dashboard.weekStart LocalTZA now 11 <=? createdAt p)
  && (createdAt p <=? Dashboard.weekEnd LocalTZA now 0).

End Shown.

(* ===================================================================== *)
(** * Sequences of requests to the server actions                         *)
(* ===================================================================== *)

Module Requests.

(** A call of one of the two server actions, by a user. *)
Inductive request : Type :=
| Create (user_id : string) (env : Actions.PrismaEnv) (formData : Actions.FormData)
| Delete (user_id : string) (formData : Actions.FormData).

Section Run.
Variable StringToNumber : string -> JS.number.
Variable zod4 : bool.

(** The product table after a request. *)
Definition handle (db : Prisma.table) (r : request) : Prisma.table :=
  match r with
  | Create user_id env formData =>
      snd (Actions.createProduct StringToNumber zod4 user_id env formData db)
  | Delete user_id formData =>
      snd (Actions.deleteProduct user_id formData db)
  end.

(** The product table after a sequence of requests on an empty table. *)
Definition run (requests : list request) : Prisma.table :=
  fold_left handle requests [].
End Run.

(** The SKU a form asks for: none when the field is missing or empty. *)
Definition sku_of (formData : Actions.FormData) : option string :=
  match Actions.formData_get formData "sku" with
  | Actions.VString s => if String.eqb s EmptyString then None else Some s
  | _ => None
  end.

End Requests.


(* ===================================================================== *)
(** * Stock classification and breakdown                                  *)
(* ===================================================================== *)

Ltac zbool :=
  repeat match goal with
  | H : (_ && _) = true |- _ => apply andb_true_iff in H; destruct H
  | H : (_ && _) = false |- _ => apply andb_false_iff in H
  | H : (_ || _) = true |- _ => apply orb_true_iff in H
  | H : negb _ = true |- _ => apply negb_true_iff in H
  | H : negb _ = false |- _ => apply negb_false_iff in H
  | H : (_ =? _) = true |- _ => apply Z.eqb_eq in H
  | H : (_ =? _) = false |- _ => apply Z.eqb_neq in H
  | H : (_ <=? _) = true |- _ => apply Z.leb_le in H
  | H : (_ <=? _) = false |- _ => apply Z.leb_gt in H
  | H : (_ <? _) = true |- _ => apply Z.ltb_lt in H
  | H : (_ <? _) = false |- _ => apply Z.ltb_ge in H
  | H : (_ >? _) = true |- _ => rewrite Z.gtb_ltb in H
  | H : (_ >? _) = false |- _ => rewrite Z.gtb_ltb in H
  | H : (_ >=? _) = true |- _ => rewrite Z.geb_leb in H
  | H : (_ >=? _) = false |- _ => rewrite Z.geb_leb in H
  end.

Lemma stockLevel_cases (p : Product) :
  0 <= quantity p ->
  (quantity p = 0 /\ Dashboard.stockLevel p = 0)
  \/ (0 < quantity p <= Spec.shown_threshold p /\ Dashboard.stockLevel p = 1)
  \/ (Spec.shown_threshold p < quantity p /\ 0 < quantity p
      /\ Dashboard.stockLevel p = 2).
Proof.
  intros Hq.
  unfold Dashboard.stockLevel, Dashboard.threshold, Spec.shown_threshold.
  destruct (lowStockAt p) as [t|].
  - destruct (t =? 0) eqn:Et; zbool.
    + destruct (quantity p =? 0) eqn:E0; zbool; [left; lia|].
      destruct (quantity p <=? 5) eqn:E1; zbool; [right; left|right; right]; lia.
    + destruct (quantity p =? 0) eqn:E0; zbool; [left; lia|].
      destruct (quantity p <=? t) eqn:E1; zbool; [right; left|right; right]; lia.
  - destruct (quantity p =? 0) eqn:E0; zbool; [left; lia|].
    destruct (quantity p <=? 5) eqn:E1; zbool; [right; left|right; right]; lia.
Qed.

Lemma shown_threshold_nonneg (p : Product) :
  Spec.well_formed p -> 0 <= Spec.shown_threshold p.
Proof.
  intros [_ Hl]. unfold Spec.shown_threshold.
  destruct (lowStockAt p) as [t|]; [|lia].
  destruct (t =? 0); lia.
Qed.

Lemma shown_class_stockLevel (p : Product) (c : Spec.StockClassification) :
  Spec.well_formed p ->
  Spec.shown_class c p = true <-> Dashboard.stockLevel p = Spec.level_of c.
Proof.
  intros Hw. pose proof (shown_threshold_nonneg p Hw) as Ht.
  destruct Hw as [Hq _].
  destruct (stockLevel_cases p Hq) as [[Hq0 Hs]|[[Hq1 Hs]|[Hq2 [Hq3 Hs]]]];
    rewrite Hs; destruct c; simpl; split; intros H; try reflexivity;
    try discriminate; zbool; try lia.
  all: try (apply Z.eqb_eq; lia).
  all: try (apply andb_true_iff; split; [apply Z.ltb_lt|apply Z.leb_le]; lia).
  all: try (rewrite Z.gtb_ltb; apply Z.ltb_lt; lia).
Qed.

(** Apart from a threshold of zero, the amended threshold is the one the
    classification was stated with. *)
Lemma shown_class_in_class (p : Product) (c : Spec.StockClassification) :
  lowStockAt p <> Some 0 -> Spec.shown_class c p = Spec.in_class c p.
Proof.
  intros Hz.
  assert (E : Spec.shown_threshold p = Spec.effective_threshold p).
  { unfold Spec.shown_threshold, Spec.effective_threshold.
    destruct (lowStockAt p) as [t|]; [|reflexivity].
    destruct (Z.eqb_spec t 0) as [->|]; [congruence|reflexivity]. }
  destruct c; simpl; rewrite ?E; reflexivity.
Qed.

Lemma length_filter_ext_in {A : Type} (f g : A -> bool) (l : list A) :
  (forall a, In a l -> f a = g a) ->
  List.length (filter f l) = List.length (filter g l).
Proof. intros H. rewrite (filter_ext_in f g l H). reflexivity. Qed.

Lemma breakdown_uses_five (db : Prisma.table) (user_id : string)
    (c : Spec.StockClassification) :
  (forall p, In p (Dashboard.allProducts db user_id) -> 0 <= quantity p) ->
  match c with
  | Spec.OutOfStock => Dashboard.outOfStockCount db user_id
  | Spec.LowStock => Dashboard.lowStockCount db user_id
  | Spec.InStock => Dashboard.inStockCount db user_id
  end
  = List.length
      (filter (fun p => Spec.in_class c (Spec.without_threshold p))
              (Dashboard.allProducts db user_id)).
Proof.
  intros Hq.
  destruct c; unfold Dashboard.outOfStockCount, Dashboard.lowStockCount,
    Dashboard.inStockCount; apply length_filter_ext_in; intros p Hp;
    specialize (Hq p Hp); simpl; unfold Spec.effective_threshold; simpl.
  - reflexivity.
  - destruct (quantity p <=? 5) eqn:E1, (quantity p >=? 1) eqn:E2,
      (0 <? quantity p) eqn:E3; simpl; try reflexivity; zbool; lia.
  - reflexivity.
Qed.

Lemma partition_three (l : list Product) :
  (forall p, In p l -> 0 <= quantity p) ->
  (List.length (filter (fun p => (quantity p >? 5)%Z) l)
   + List.length (filter (fun p => ((quantity p <=? 5) && (quantity p >=? 1))%Z) l)
   + List.length (filter (fun p => (quantity p =? 0)%Z) l))%nat
  = List.length l.
Proof.
  induction l as [|p l IH]; intros Hq; [reflexivity|].
  assert (Hp : 0 <= quantity p) by (apply Hq; left; reflexivity).
  assert (IH' := IH (fun q Hin => Hq q (or_intror Hin))).
  simpl.
  destruct (quantity p >? 5) eqn:E1, (quantity p <=? 5) eqn:E2,
    (quantity p >=? 1) eqn:E3, (quantity p =? 0) eqn:E4; simpl;
    zbool; try lia.
Qed.

(** C1 (amended).  For every record as the data model has it (a
    non-negative quantity and, when set, a non-negative lowStockAt) the
    recent stock-levels list classifies with the effective threshold
    [lowStockAt] when set and not zero, else 5 (a threshold of zero counts as
    unset): level 0 (out of stock) exactly when quantity = 0, level 1 (low
    stock) exactly when 0 < quantity <= threshold, level 2 (in stock) exactly
    when quantity > threshold; unless lowStockAt is 0 this is the
    classification with the threshold [lowStockAt] if set, else 5; a record
    with lowStockAt = 10 and quantity = 10 is shown as low stock.  The
    dashboard's inStockCount / lowStockCount / outOfStockCount use the fixed
    threshold 5 for every record, whatever its lowStockAt: they count the
    classes of the records with the threshold left unset. *)
Theorem stock_classification_by_view (db : Prisma.table) (user_id : string)
    (p : Product) (c : Spec.StockClassification) :
  Spec.well_formed p ->
  (forall q, In q (Dashboard.allProducts db user_id) -> 0 <= quantity q) ->
  (Spec.shown_class c p = true <-> Dashboard.stockLevel p = Spec.level_of c)
  /\ (lowStockAt p <> Some 0 -> Spec.shown_class c p = Spec.in_class c p)
  /\ Dashboard.stockLevel boundary_product = Spec.level_of Spec.LowStock
  /\ match c with
     | Spec.OutOfStock => Dashboard.outOfStockCount db user_id
     | Spec.LowStock => Dashboard.lowStockCount db user_id
     | Spec.InStock => Dashboard.inStockCount db user_id
     end
     = List.length
         (filter (fun q => Spec.in_class c (Spec.without_threshold q))
                 (Dashboard.allProducts db user_id)).
Proof.
  intros Hw Hq. split; [|split; [|split]].
  - apply shown_class_stockLevel, Hw.
  - apply shown_class_in_class.
  - reflexivity.
  - apply breakdown_uses_five, Hq.
Qed.

Lemma stock_classification_by_view_witness :
  (Spec.in_class Spec.LowStock boundary_product = true
   <-> Dashboard.stockLevel boundary_product = 1)
  /\ (Spec.shown_class Spec.LowStock (sample 3 (Some 0) 0) = true
      <-> Dashboard.stockLevel (sample 3 (Some 0) 0) = 1)
  /\ Dashboard.lowStockCount seven_products "u" = 2%nat.
Proof.
  assert (Hw : Spec.well_formed boundary_product) by (split; simpl; lia).
  assert (Hw0 : Spec.well_formed (sample 3 (Some 0) 0)) by (split; simpl; lia).
  assert (Hq : forall q, In q (Dashboard.allProducts seven_products "u") ->
                         0 <= quantity q).
  { intros q Hin. simpl in Hin.
    repeat (destruct Hin as [<-|Hin]; [simpl; lia|]). destruct Hin. }
  destruct (stock_classification_by_view seven_products "u" boundary_product
              Spec.LowStock Hw Hq) as (H1 & H2 & _ & H3).
  destruct (stock_classification_by_view seven_products "u"
              (sample 3 (Some 0) 0) Spec.LowStock Hw0 Hq) as (H4 & _).
  split; [|split; [exact H4|rewrite H3; reflexivity]].
  rewrite <- H2 by (simpl; congruence). exact H1.
Defined.

(** A threshold of zero is read as no threshold: three units with
    lowStockAt = 0 are in stock by the classification as stated, and the
    recent list shows them as low stock. *)
Lemma zero_threshold_reads_as_five :
  Spec.in_class Spec.InStock (sample 3 (Some 0) 0) = true
  /\ Dashboard.stockLevel (sample 3 (Some 0) 0) = 1.
Proof. split; reflexivity. Qed.

(** C1 (as stated, refuted).  The record with lowStockAt = 10 and
    quantity = 10 is LowStock by the classification, and the recent list
    shows it so, but the dashboard breakdown counts it in inStockCount and
    not in lowStockCount. *)
Lemma breakdown_ignores_lowStockAt :
  Spec.in_class Spec.LowStock boundary_product = true
  /\ Dashboard.stockLevel boundary_product = 1
  /\ Dashboard.lowStockCount [boundary_product] "u" = 0%nat
  /\ Dashboard.inStockCount [boundary_product] "u" = 1%nat.
Proof. repeat split. Qed.

(** C4.  The three stock counts partition the user's records: for every
    record set (empty included) whose quantities are non-negative, as the
    data model has them, inStockCount + lowStockCount + outOfStockCount is
    the number of input records, which is also totalProducts. *)
Theorem stock_counts_partition (db : Prisma.table) (user_id : string) :
  (forall p, In p (Dashboard.allProducts db user_id) -> 0 <= quantity p) ->
  (Dashboard.inStockCount db user_id + Dashboard.lowStockCount db user_id
   + Dashboard.outOfStockCount db user_id)%nat
  = List.length (Dashboard.allProducts db user_id)
  /\ Z.of_nat (Dashboard.inStockCount db user_id
               + Dashboard.lowStockCount db user_id
               + Dashboard.outOfStockCount db user_id)
     = Dashboard.totalProducts db user_id.
Proof.
  intros Hq.
  assert (H := partition_three (Dashboard.allProducts db user_id) Hq).
  split; [exact H|].
  unfold Dashboard.inStockCount, Dashboard.lowStockCount,
    Dashboard.outOfStockCount. rewrite H. reflexivity.
Qed.

Lemma stock_counts_partition_witness :
  (Dashboard.inStockCount seven_products "u"
   + Dashboard.lowStockCount seven_products "u"
   + Dashboard.outOfStockCount seven_products "u")%nat = 7%nat
  /\ (Dashboard.inStockCount [] "u" + Dashboard.lowStockCount [] "u"
      + Dashboard.outOfStockCount [] "u")%nat = 0%nat.
Proof.
  split.
  - refine (proj1 (stock_counts_partition seven_products "u" _)).
    intros q Hin. simpl in Hin.
    repeat (destruct Hin as [<-|Hin]; [simpl; lia|]). destruct Hin.
  - refine (proj1 (stock_counts_partition [] "u" _)).
    intros q Hin. destruct Hin.
Defined.


(* ===================================================================== *)
(** * The page window                                                     *)
(* ===================================================================== *)

Lemma range_loop_done (i stop : Z) :
  stop < i -> Pagination.range_loop i stop = [].
Proof.
  intros H. rewrite Pagination.range_loop_equation_1.
  destruct (Z_le_gt_dec i stop); [lia|reflexivity].
Qed.

Lemma range_loop_step (i stop : Z) :
  i <= stop -> Pagination.range_loop i stop = i :: Pagination.range_loop (i + 1) stop.
Proof.
  intros H. rewrite Pagination.range_loop_equation_1.
  destruct (Z_le_gt_dec i stop); [reflexivity|lia].
Qed.

Lemma contiguous_empty (lo hi : Z) : hi < lo -> Spec.contiguous lo hi = [].
Proof.
  intros H. unfold Spec.contiguous.
  replace (Z.to_nat (hi + 1 - lo)) with 0%nat by lia. reflexivity.
Qed.

Lemma contiguous_step (lo hi : Z) :
  lo <= hi -> Spec.contiguous lo hi = lo :: Spec.contiguous (lo + 1) hi.
Proof.
  intros H. unfold Spec.contiguous.
  replace (Z.to_nat (hi + 1 - lo)) with (S (Z.to_nat (hi + 1 - (lo + 1)))) by lia.
  simpl. f_equal; [lia|].
  rewrite <- seq_shift, map_map. apply map_ext. intros k. lia.
Qed.

(** The loop produces the contiguous range, whatever its bounds. *)
Lemma range_loop_contiguous (n : nat) (i stop : Z) :
  Z.to_nat (stop + 1 - i) = n ->
  Pagination.range_loop i stop = Spec.contiguous i stop.
Proof.
  revert i. induction n as [|n IH]; intros i Hn.
  - rewrite range_loop_done, contiguous_empty by lia. reflexivity.
  - rewrite range_loop_step, contiguous_step by lia.
    f_equal. apply IH. lia.
Qed.

Lemma getVisiblePages_computeWindow (currentPage totalPages : Z) :
  Pagination.getVisiblePages currentPage totalPages
  = Spec.computeWindow currentPage totalPages 2.
Proof.
  unfold Pagination.getVisiblePages, Spec.computeWindow.
  rewrite (range_loop_contiguous _ _ _ eq_refl).
  destruct (currentPage - 2 >? 2), (currentPage + 2 <? totalPages - 1);
    simpl; rewrite <- ?app_assoc; reflexivity.
Qed.

(** C3.  For 1 <= currentPage <= totalPages and totalPages >= 2 (radius 2),
    the token sequence is: 1; an ellipsis exactly when currentPage - 2 > 2;
    the contiguous increasing range from max(2, currentPage - 2) to
    min(totalPages - 1, currentPage + 2), possibly empty; an ellipsis exactly
    when currentPage + 2 < totalPages - 1; totalPages.  For page 5 of 10 it
    is 1, ..., 3, 4, 5, 6, 7, ..., 10. *)
Theorem page_window_shape (currentPage totalPages : Z) :
  1 <= currentPage <= totalPages -> 2 <= totalPages ->
  Pagination.getVisiblePages currentPage totalPages
  = Spec.computeWindow currentPage totalPages 2
  /\ Pagination.getVisiblePages 5 10
     = [Pagination.PageNo 1; Pagination.Dots; Pagination.PageNo 3;
        Pagination.PageNo 4; Pagination.PageNo 5; Pagination.PageNo 6;
        Pagination.PageNo 7; Pagination.Dots; Pagination.PageNo 10].
Proof.
  intros _ _. split.
  - apply getVisiblePages_computeWindow.
  - rewrite getVisiblePages_computeWindow. reflexivity.
Qed.

Lemma page_window_shape_witness :
  Pagination.getVisiblePages 1 3 = Spec.computeWindow 1 3 2.
Proof.
  refine (proj1 (page_window_shape 1 3 _ _)); lia.
Defined.

(** C2 (amended).  For every currentPage, whenever totalPages <= 1 the
    component returns nothing, before any page window is computed: no
    navigation control is rendered, in particular for currentPage = 1 and
    totalPages = 1. *)
Theorem pagination_hidden_for_one_page (currentPage totalPages : Z)
    (baseUrl : string) (searchParams : URL.params) :
  totalPages <= 1 ->
  Pagination.Pagination currentPage totalPages baseUrl searchParams = None.
Proof.
  intros H. unfold Pagination.Pagination.
  destruct (totalPages <=? 1) eqn:E; [reflexivity|].
  apply Z.leb_gt in E. lia.
Qed.

Lemma pagination_hidden_for_one_page_witness :
  Pagination.Pagination 1 1 "/inventory" [("q", ""); ("pageSize", "5")]%string
  = None.
Proof.
  apply pagination_hidden_for_one_page. lia.
Defined.

(** C2 (as stated, refuted).  Evaluated at currentPage = 1 and
    totalPages = 1, the page-window computation gives the two tokens 1, 1 and
    not the single token 1. *)
Lemma window_of_single_page_has_two_tokens :
  Pagination.getVisiblePages 1 1 = [Pagination.PageNo 1; Pagination.PageNo 1]
  /\ Pagination.getVisiblePages 1 1 <> [Pagination.PageNo 1].
Proof.
  assert (H : Pagination.getVisiblePages 1 1
              = [Pagination.PageNo 1; Pagination.PageNo 1]).
  { rewrite getVisiblePages_computeWindow. reflexivity. }
  split; [exact H|]. rewrite H. discriminate.
Qed.


(* ===================================================================== *)
(** * Calendar arithmetic                                                 *)
(* ===================================================================== *)

Lemma DayFromYear_succ (y : Z) :
  JS.DayFromYear (y + 1) = JS.DayFromYear y + JS.DaysInYear y.
Proof.
  unfold JS.DayFromYear, JS.DaysInYear.
  destruct (Z.eqb_spec (y mod 4) 0) as [E4|E4],
    (Z.eqb_spec (y mod 100) 0) as [E100|E100],
    (Z.eqb_spec (y mod 400) 0) as [E400|E400]; cbn [negb];
    Z.div_mod_to_equations; lia.
Qed.

Lemma YearFromTime_bounds (t : Z) :
  JS.DayFromYear (JS.YearFromTime t) <= JS.Day t
  < JS.DayFromYear (JS.YearFromTime t + 1).
Proof.
  unfold JS.YearFromTime.
  generalize (JS.Day t). intros d. unfold JS.DayFromYear.
  repeat match goal with
         | |- context [if ?b then _ else _] => destruct b eqn:?
         end; zbool; Z.div_mod_to_equations; lia.
Qed.

Lemma InLeapYear_cases (t : Z) :
  (JS.InLeapYear t = 0 /\ JS.DaysInYear (JS.YearFromTime t) = 365)
  \/ (JS.InLeapYear t = 1 /\ JS.DaysInYear (JS.YearFromTime t) = 366).
Proof.
  unfold JS.InLeapYear.
  destruct (JS.DaysInYear (JS.YearFromTime t) =? 366) eqn:E; zbool.
  - right. split; [reflexivity|assumption].
  - left. split; [reflexivity|].
    revert E. unfold JS.DaysInYear.
    repeat match goal with
           | |- context [if ?b then _ else _] => destruct b
           end; intros; try reflexivity; congruence.
Qed.

Lemma DayWithinYear_range (t : Z) :
  0 <= JS.DayWithinYear t < 365 + JS.InLeapYear t.
Proof.
  unfold JS.DayWithinYear.
  pose proof (YearFromTime_bounds t) as Hb.
  rewrite DayFromYear_succ in Hb.
  destruct (InLeapYear_cases t) as [[-> Hd]|[-> Hd]]; lia.
Qed.

(** The calendar on a few dates: 1970-01-01, 2000-02-29, 2023-12-31,
    2024-03-01, and 1969-12-31 (the day before the epoch). *)
Example calendar_examples :
  map (fun t => (JS.YearFromTime t, JS.MonthFromTime t + 1, JS.DateFromTime t))
      [0; 951782400000; 1703980800000; 1709251200000; -1]
  = [(1970, 1, 1); (2000, 2, 29); (2023, 12, 31); (2024, 3, 1); (1969, 12, 31)].
Proof. vm_compute. reflexivity. Qed.

Lemma MonthFromTime_range (t : Z) : 0 <= JS.MonthFromTime t <= 11.
Proof.
  unfold JS.MonthFromTime.
  repeat match goal with
         | |- context [if ?b then _ else _] => destruct b
         end; lia.
Qed.

Lemma DateFromTime_range (t : Z) : 1 <= JS.DateFromTime t <= 31.
Proof.
  unfold JS.DateFromTime, JS.MonthFromTime.
  pose proof (DayWithinYear_range t) as Hd.
  destruct (InLeapYear_cases t) as [[Hl _]|[Hl _]]; rewrite Hl in *;
  repeat match goal with
         | |- context [if ?b then _ else _] => destruct b eqn:?
         end; unfold JS.monthStart; zbool; lia.
Qed.

(** Setting the day of the month to the current one plus [k] moves the
    date by [k] days. *)
Lemma MakeDay_shift (t k : Z) :
  JS.MakeDay (JS.YearFromTime t) (JS.MonthFromTime t) (JS.DateFromTime t + k)
  = JS.Day t + k.
Proof.
  unfold JS.MakeDay. cbv zeta.
  pose proof (MonthFromTime_range t) as Hm.
  rewrite (Z.div_small (JS.MonthFromTime t) 12), (Z.mod_small (JS.MonthFromTime t) 12) by lia.
  rewrite Z.add_0_r.
  change (if JS.DaysInYear (JS.YearFromTime t) =? 366 then 1 else 0)
    with (JS.InLeapYear t).
  unfold JS.DateFromTime, JS.DayWithinYear. lia.
Qed.

Lemma setDate_shift (LocalTZA : Z -> bool -> Z) (tv k : Z) :
  JS.setDate LocalTZA tv (JS.getDate LocalTZA tv + k)
  = JS.UTC LocalTZA (JS.LocalTime LocalTZA tv + k * JS.msPerDay).
Proof.
  unfold JS.setDate, JS.getDate, JS.MakeDate. cbv zeta.
  rewrite MakeDay_shift. f_equal.
  unfold JS.Day, JS.TimeWithinDay, JS.msPerDay.
  Z.div_mod_to_equations. lia.
Qed.

Lemma Day_shift (t k : Z) : JS.Day (t + k * JS.msPerDay) = JS.Day t + k.
Proof.
  unfold JS.Day. apply Z.div_add. unfold JS.msPerDay. lia.
Qed.

Lemma Day_of_day (day time : Z) :
  0 <= time < JS.msPerDay -> JS.Day (day * JS.msPerDay + time) = day.
Proof.
  intros H. unfold JS.Day, JS.msPerDay in *.
  Z.div_mod_to_equations. lia.
Qed.

Lemma Day_lt (t u : Z) : JS.Day t < JS.Day u -> t < u.
Proof.
  unfold JS.Day, JS.msPerDay. intros H.
  Z.div_mod_to_equations. lia.
Qed.

Lemma Day_le (t u : Z) : t <= u -> JS.Day t <= JS.Day u.
Proof.
  unfold JS.Day, JS.msPerDay. intros H.
  Z.div_mod_to_equations. lia.
Qed.


(* ===================================================================== *)
(** * Time zones that keep the calendar day                               *)
(* ===================================================================== *)

Lemma fixed_offset_keeps_days (tza : Z) : JS.keeps_days (JS.fixed_offset tza).
Proof.
  split; unfold JS.LocalTime, JS.UTC, JS.fixed_offset.
  - intros t. f_equal. lia.
  - intros t u H. apply Day_lt in H. lia.
Qed.

(** An instant read off a local time that lies past a change lies past the
    change. *)
Lemma offset_of_local_past (cs : list (Z * Z)) :
  forall o from t,
    JS.calendar_safe o cs = true ->
    match cs with [] => True | (next, _) :: _ => from <= next end ->
    from + o <= t ->
    from <= t - JS.offset_of_local o cs t.
Proof.
  induction cs as [|[change o'] rest IH]; intros o from t Hsafe Hnext Ht;
    cbn [JS.offset_of_local]; [lia|].
  cbn [JS.calendar_safe] in Hsafe.
  apply andb_true_iff in Hsafe. destruct Hsafe as [Hsafe Hrest].
  apply andb_true_iff in Hsafe. destruct Hsafe as [_ Hord].
  destruct (t <? change + Z.max o o') eqn:E; zbool; [lia|].
  assert (change <= t - JS.offset_of_local o' rest t); [|lia].
  apply IH; [exact Hrest| |lia].
  destruct rest as [|[next o''] rest']; [exact I|]. zbool. lia.
Qed.

Lemma offset_at_before (cs : list (Z * Z)) (o t : Z) :
  match cs with [] => True | (next, _) :: _ => t < next end ->
  JS.offset_at o cs t = o.
Proof.
  destruct cs as [|[next o'] rest]; [reflexivity|]. intros H.
  cbn [JS.offset_at]. destruct (t <? next) eqn:E; zbool; [reflexivity|lia].
Qed.

(** A skipped local time and the time it is moved to are on one day. *)
Lemma skipped_same_day (change o o' t : Z) :
  JS.Day (change + o) = JS.Day (change + 2 * o' - o - 1) ->
  change + o <= t < change + o' ->
  JS.Day (t + (o' - o)) = JS.Day t.
Proof.
  intros Hd Ht.
  pose proof (Day_le (change + o) t ltac:(lia)).
  pose proof (Day_le t (t + (o' - o)) ltac:(lia)).
  pose proof (Day_le (t + (o' - o)) (change + 2 * o' - o - 1) ltac:(lia)).
  lia.
Qed.

Lemma table_day_kept (cs : list (Z * Z)) :
  forall o t,
    JS.calendar_safe o cs = true ->
    JS.Day (t - JS.offset_of_local o cs t
            + JS.offset_at o cs (t - JS.offset_of_local o cs t))
    = JS.Day t.
Proof.
  induction cs as [|[change o'] rest IH]; intros o t Hsafe.
  - cbn [JS.offset_of_local JS.offset_at]. f_equal. lia.
  - pose proof Hsafe as Hall.
    cbn [JS.calendar_safe] in Hsafe.
    apply andb_true_iff in Hsafe. destruct Hsafe as [Hsafe Hrest].
    apply andb_true_iff in Hsafe. destruct Hsafe as [Hgap Hord].
    cbn [JS.offset_of_local].
    destruct (t <? change + Z.max o o') eqn:E; zbool.
    + cbn [JS.offset_at].
      destruct (t - o <? change) eqn:E1; zbool; [f_equal; lia|].
      (* a skipped local time *)
      assert (Ho : o < o') by lia.
      rewrite offset_at_before.
      * replace (t - o + o') with (t + (o' - o)) by lia.
        apply (skipped_same_day change); [|lia].
        destruct Hgap as [Hgap|Hgap]; zbool; [lia|exact Hgap].
      * destruct rest as [|[next o''] rest']; [exact I|]. zbool. lia.
    + assert (Hpast : change <= t - JS.offset_of_local o' rest t).
      { apply offset_of_local_past; [exact Hrest| |lia].
        destruct rest as [|[next o''] rest']; [exact I|]. zbool. lia. }
      cbn [JS.offset_at].
      destruct (t - JS.offset_of_local o' rest t <? change) eqn:E1; zbool;
        [lia|].
      apply IH, Hrest.
Qed.

Lemma table_days_in_order (cs : list (Z * Z)) :
  forall o t u,
    JS.calendar_safe o cs = true ->
    JS.Day t < JS.Day u ->
    t - JS.offset_of_local o cs t < u - JS.offset_of_local o cs u.
Proof.
  induction cs as [|[change o'] rest IH]; intros o t u Hsafe Hd.
  - cbn [JS.offset_of_local]. apply Day_lt in Hd. lia.
  - pose proof (Day_lt t u Hd) as Hlt.
    cbn [JS.calendar_safe] in Hsafe.
    apply andb_true_iff in Hsafe. destruct Hsafe as [Hsafe Hrest].
    apply andb_true_iff in Hsafe. destruct Hsafe as [Hgap Hord].
    cbn [JS.offset_of_local].
    destruct (t <? change + Z.max o o') eqn:Et,
             (u <? change + Z.max o o') eqn:Eu; zbool; try lia.
    + (* [t] before the change or skipped by it, [u] past it *)
      destruct (Z_lt_le_dec (t - o) change) as [Hbefore|Hskipped].
      * assert (change <= u - JS.offset_of_local o' rest u); [|lia].
        apply offset_of_local_past; [exact Hrest| |lia].
        destruct rest as [|[next o''] rest']; [exact I|]. zbool. lia.
      * assert (Ho : o < o') by lia.
        assert (Hsame : JS.Day (t + (o' - o)) = JS.Day t).
        { apply (skipped_same_day change); [|lia].
          destruct Hgap as [Hgap|Hgap]; zbool; [lia|exact Hgap]. }
        assert (Hu : t + (o' - o) < u) by (apply Day_lt; lia).
        destruct rest as [|[next o''] rest']; cbn [JS.offset_of_local]; [lia|].
        destruct (u <? next + Z.max o' o'') eqn:Eu'; zbool; [lia|].
        cbn [JS.calendar_safe] in Hrest.
        apply andb_true_iff in Hrest. destruct Hrest as [Hrest Hrest'].
        apply andb_true_iff in Hrest. destruct Hrest as [_ Hord'].
        assert (next <= u - JS.offset_of_local o'' rest' u); [|lia].
        apply offset_of_local_past; [exact Hrest'| |lia].
        destruct rest' as [|[next' o3] rest'']; [exact I|]. zbool. lia.
    + apply IH; assumption.
Qed.

(** A zone whose table of changes passes the check keeps the calendar
    day. *)
Lemma table_zone_keeps_days (z : JS.TimeZone) :
  JS.calendar_safe (JS.initial_offset z) (JS.changes z) = true ->
  JS.keeps_days (JS.zone_LocalTZA z).
Proof.
  intros Hsafe. split; unfold JS.LocalTime, JS.UTC, JS.zone_LocalTZA.
  - intros t. apply table_day_kept, Hsafe.
  - intros t u. apply table_days_in_order, Hsafe.
Qed.

Lemma new_york_keeps_days : JS.keeps_days (JS.zone_LocalTZA new_york_2024).
Proof. apply table_zone_keeps_days. reflexivity. Qed.

(** The local day and the local time of day in New York on both sides of
    the change of 2024-03-10: 01:59:59.999 is followed by 03:00, and the
    skipped 02:30 is read as 03:30. *)
Example new_york_spring_forward :
  JS.LocalTime (JS.zone_LocalTZA new_york_2024) 1710053999999
  = 1710028800000 + 2 * JS.msPerHour - 1
  /\ JS.LocalTime (JS.zone_LocalTZA new_york_2024) 1710054000000
     = 1710028800000 + 3 * JS.msPerHour
  /\ JS.LocalTime (JS.zone_LocalTZA new_york_2024)
       (JS.UTC (JS.zone_LocalTZA new_york_2024)
          (1710028800000 + 2 * JS.msPerHour + 30 * JS.msPerMinute))
     = 1710028800000 + 3 * JS.msPerHour + 30 * JS.msPerMinute.
Proof. repeat split. Qed.

(* ===================================================================== *)
(** * The weekly windows                                                  *)
(* ===================================================================== *)

(** The two setters of the page shift an instant by days and truncate it to
    its day, whatever the zone of the host. *)
Lemma weekStart_windowStart (LocalTZA : Z -> bool -> Z) (now i : Z) :
  Dashboard.weekStart LocalTZA now i = Spec.windowStart LocalTZA now i.
Proof.
  unfold Dashboard.weekStart, Spec.windowStart, Spec.day_start,
    Spec.shift_days. cbv zeta.
  replace (JS.getDate LocalTZA now - i * 7)
    with (JS.getDate LocalTZA now + (- (i * 7))) by lia.
  rewrite setDate_shift.
  unfold JS.setHours, JS.MakeDate, JS.MakeTime, Spec.local_instant,
    Spec.local_day. cbv zeta.
  f_equal; unfold JS.msPerHour, JS.msPerMinute, JS.msPerSecond; lia.
Qed.

Lemma weekEnd_windowEnd (LocalTZA : Z -> bool -> Z) (now i : Z) :
  Dashboard.weekEnd LocalTZA now i = Spec.windowEnd LocalTZA now i.
Proof.
  unfold Dashboard.weekEnd, Spec.windowEnd, Spec.day_end, Spec.shift_days.
  cbv zeta.
  rewrite setDate_shift, weekStart_windowStart.
  unfold JS.setHours, JS.MakeDate, JS.MakeTime, Spec.local_instant,
    Spec.local_day, Spec.end_of_day. cbv zeta. reflexivity.
Qed.

Lemma end_of_day_range : 0 <= Spec.end_of_day < JS.msPerDay.
Proof. vm_compute. split; [discriminate|reflexivity]. Qed.

Lemma start_of_day_range : 0 <= 0 < JS.msPerDay.
Proof. vm_compute. split; [discriminate|reflexivity]. Qed.

(** A zone that keeps the calendar day does so around every instant. *)
Lemma keeps_days_span (LocalTZA : Z -> bool -> Z) (now : Z) :
  JS.keeps_days LocalTZA -> Spec.span_keeps_days LocalTZA now.
Proof.
  intros [Hday Hord]. split.
  - intros t _. apply Hday.
  - intros t u _ _. apply Hord.
Qed.

(** The local times of the days from 77 days before a day to 6 days after
    it. *)
Lemma day_in_span (d t : Z) :
  d - 77 <= JS.Day t <= d + 6 ->
  (d - 77) * JS.msPerDay <= t < (d + 7) * JS.msPerDay.
Proof.
  unfold JS.Day, JS.msPerDay. intros H. Z.div_mod_to_equations. lia.
Qed.

Lemma span_day_kept (LocalTZA : Z -> bool -> Z) (now t : Z) :
  Spec.span_keeps_days LocalTZA now ->
  Spec.local_day LocalTZA now - 77 <= JS.Day t
  <= Spec.local_day LocalTZA now + 6 ->
  Spec.local_day LocalTZA (JS.UTC LocalTZA t) = JS.Day t.
Proof.
  intros [Hday _] Ht. apply Hday, day_in_span, Ht.
Qed.

(** Times of local days in order are instants in order. *)
Lemma local_instant_lt (LocalTZA : Z -> bool -> Z) (now d d' time time' : Z) :
  Spec.span_keeps_days LocalTZA now ->
  0 <= time < JS.msPerDay -> 0 <= time' < JS.msPerDay ->
  Spec.local_day LocalTZA now - 77 <= d ->
  d' <= Spec.local_day LocalTZA now + 6 ->
  d < d' ->
  Spec.local_instant LocalTZA d time < Spec.local_instant LocalTZA d' time'.
Proof.
  intros [_ Hord] Ht Ht' Hd Hd' Hlt. unfold Spec.local_instant.
  apply Hord.
  - apply (day_in_span (Spec.local_day LocalTZA now)).
    rewrite Day_of_day by assumption. lia.
  - apply (day_in_span (Spec.local_day LocalTZA now)).
    rewrite Day_of_day by assumption. lia.
  - rewrite !Day_of_day by assumption. exact Hlt.
Qed.

(** Shifting the time of the request by days within the span moves its
    local day by as many days. *)
Lemma shift_days_day (LocalTZA : Z -> bool -> Z) (now k : Z) :
  Spec.span_keeps_days LocalTZA now ->
  -77 <= k <= 6 ->
  Spec.local_day LocalTZA (Spec.shift_days LocalTZA now k)
  = Spec.local_day LocalTZA now + k.
Proof.
  intros Hs Hk. unfold Spec.shift_days.
  rewrite (span_day_kept _ now) by
    (try exact Hs; rewrite Day_shift; unfold Spec.local_day; lia).
  apply Day_shift.
Qed.

(** The window of [i] starts at 00:00 of the local day [i * 7] days before
    the day of the request. *)
Lemma windowStart_day (LocalTZA : Z -> bool -> Z) (now i : Z) :
  Spec.span_keeps_days LocalTZA now ->
  0 <= i <= 11 ->
  Spec.windowStart LocalTZA now i
  = Spec.local_instant LocalTZA (Spec.local_day LocalTZA now - i * 7) 0.
Proof.
  intros Hs Hi. unfold Spec.windowStart, Spec.day_start.
  rewrite (shift_days_day _ _ _ Hs) by lia. reflexivity.
Qed.

Lemma local_day_windowStart (LocalTZA : Z -> bool -> Z) (now i : Z) :
  Spec.span_keeps_days LocalTZA now ->
  0 <= i <= 11 ->
  Spec.local_day LocalTZA (Spec.windowStart LocalTZA now i)
  = Spec.local_day LocalTZA now - i * 7.
Proof.
  intros Hs Hi. rewrite (windowStart_day _ _ _ Hs Hi).
  unfold Spec.local_instant.
  rewrite (span_day_kept _ now) by
    (try exact Hs; rewrite Day_of_day by exact start_of_day_range; lia).
  apply Day_of_day, start_of_day_range.
Qed.

(** The window ends at 23:59:59.999 of the sixth day after the one it
    starts on. *)
Lemma windowEnd_day (LocalTZA : Z -> bool -> Z) (now i : Z) :
  Spec.span_keeps_days LocalTZA now ->
  0 <= i <= 11 ->
  Spec.windowEnd LocalTZA now i
  = Spec.local_instant LocalTZA (Spec.local_day LocalTZA now - i * 7 + 6)
      Spec.end_of_day.
Proof.
  intros Hs Hi. unfold Spec.windowEnd, Spec.day_end, Spec.shift_days.
  pose proof (local_day_windowStart _ _ _ Hs Hi) as Hd.
  unfold Spec.local_day at 1 in Hd.
  rewrite (span_day_kept _ now) by
    (try exact Hs; rewrite Day_shift, Hd; lia).
  rewrite Day_shift, Hd. reflexivity.
Qed.

Lemma windowStart_lt_end (LocalTZA : Z -> bool -> Z) (now i : Z) :
  Spec.span_keeps_days LocalTZA now ->
  0 <= i <= 11 ->
  Spec.windowStart LocalTZA now i < Spec.windowEnd LocalTZA now i.
Proof.
  intros Hs Hi.
  rewrite (windowEnd_day _ _ _ Hs Hi), (windowStart_day _ _ _ Hs Hi).
  apply (local_instant_lt _ now);
    [exact Hs|exact start_of_day_range|exact end_of_day_range|lia..].
Qed.

(** A window ends before the next one starts. *)
Lemma windowEnd_lt_next (LocalTZA : Z -> bool -> Z) (now i : Z) :
  Spec.span_keeps_days LocalTZA now ->
  0 <= i < 11 ->
  Spec.windowEnd LocalTZA now (i + 1) < Spec.windowStart LocalTZA now i.
Proof.
  intros Hs Hi.
  rewrite (windowEnd_day _ _ _ Hs) by lia.
  rewrite (windowStart_day _ _ _ Hs) by lia.
  apply (local_instant_lt _ now);
    [exact Hs|exact end_of_day_range|exact start_of_day_range|lia..].
Qed.

Lemma windowStart_lt (LocalTZA : Z -> bool -> Z) (now i j : Z) :
  Spec.span_keeps_days LocalTZA now ->
  0 <= i -> i < j -> j <= 11 ->
  Spec.windowStart LocalTZA now j < Spec.windowStart LocalTZA now i.
Proof.
  intros Hs Hi Hij Hj.
  rewrite !(windowStart_day _ _ _ Hs) by lia.
  apply (local_instant_lt _ now);
    [exact Hs|exact start_of_day_range|exact start_of_day_range|lia..].
Qed.

Lemma windowStart_le (LocalTZA : Z -> bool -> Z) (now i j : Z) :
  Spec.span_keeps_days LocalTZA now ->
  0 <= i -> i <= j -> j <= 11 ->
  Spec.windowStart LocalTZA now j <= Spec.windowStart LocalTZA now i.
Proof.
  intros Hs Hi Hij Hj. destruct (Z.eq_dec i j) as [->|Hne]; [lia|].
  pose proof (windowStart_lt LocalTZA now i j Hs Hi ltac:(lia) Hj). lia.
Qed.

(** Different windows are apart: the later one of the loop ends before the
    earlier one starts. *)
Lemma windowEnd_lt_start (LocalTZA : Z -> bool -> Z) (now i j : Z) :
  Spec.span_keeps_days LocalTZA now ->
  0 <= i -> i < j -> j <= 11 ->
  Spec.windowEnd LocalTZA now j < Spec.windowStart LocalTZA now i.
Proof.
  intros Hs Hi Hij Hj.
  pose proof (windowEnd_lt_next LocalTZA now (j - 1) Hs ltac:(lia)) as He.
  replace (j - 1 + 1) with j in He by lia.
  pose proof (windowStart_le LocalTZA now i (j - 1) Hs Hi ltac:(lia)
                ltac:(lia)).
  lia.
Qed.

(** With the zone at a fixed offset the windows are at fixed distances. *)
Lemma windowStart_fixed (tza now i : Z) :
  Spec.windowStart (JS.fixed_offset tza) now i
  = (JS.Day (now + tza) - i * 7) * JS.msPerDay - tza.
Proof.
  unfold Spec.windowStart, Spec.day_start, Spec.shift_days,
    Spec.local_instant, Spec.local_day, JS.UTC, JS.LocalTime, JS.fixed_offset.
  replace (now + tza + - (i * 7) * JS.msPerDay - tza + tza)
    with (now + tza + - (i * 7) * JS.msPerDay) by lia.
  rewrite Day_shift. lia.
Qed.

Lemma windowEnd_fixed (tza now i : Z) :
  Spec.windowEnd (JS.fixed_offset tza) now i
  = (JS.Day (now + tza) - i * 7) * JS.msPerDay - tza + 6 * JS.msPerDay
    + (23 * JS.msPerHour + 59 * JS.msPerMinute + 59 * JS.msPerSecond + 999).
Proof.
  unfold Spec.windowEnd, Spec.day_end, Spec.shift_days.
  rewrite windowStart_fixed.
  unfold Spec.local_instant, Spec.local_day, Spec.end_of_day, JS.UTC,
    JS.LocalTime, JS.fixed_offset.
  replace ((JS.Day (now + tza) - i * 7) * JS.msPerDay - tza + tza
           + 6 * JS.msPerDay - tza + tza)
    with (0 + (JS.Day (now + tza) - i * 7 + 6) * JS.msPerDay) by lia.
  rewrite Day_shift. unfold JS.Day at 1, JS.msPerDay at 1.
  rewrite Z.div_0_l by lia. lia.
Qed.


(* ===================================================================== *)
(** * The weekly series                                                   *)
(* ===================================================================== *)

Lemma padStart_two_digits (n : Z) :
  0 <= n < 100 ->
  JS.padStart 2 "0" (JS.String_of_Z n) = Spec.two_digits n.
Proof.
  intros Hn.
  assert (Hall : forallb
            (fun k => String.eqb (JS.padStart 2 "0" (JS.String_of_Z (Z.of_nat k)))
                                 (Spec.two_digits (Z.of_nat k)))
            (seq 0 100) = true) by (vm_compute; reflexivity).
  rewrite forallb_forall in Hall.
  specialize (Hall (Z.to_nat n)).
  rewrite Z2Nat.id in Hall by lia.
  apply String.eqb_eq, Hall, in_seq. lia.
Qed.

Lemma weekLabel_label (LocalTZA : Z -> bool -> Z) (now i : Z) :
  Dashboard.weekLabel LocalTZA now i
  = Spec.label LocalTZA (Spec.windowStart LocalTZA now i).
Proof.
  unfold Dashboard.weekLabel, Spec.label, JS.getMonth, JS.getDate.
  rewrite weekStart_windowStart.
  pose proof (MonthFromTime_range
                (JS.LocalTime LocalTZA (Spec.windowStart LocalTZA now i))).
  pose proof (DateFromTime_range
                (JS.LocalTime LocalTZA (Spec.windowStart LocalTZA now i))).
  rewrite !padStart_two_digits by lia. reflexivity.
Qed.

Lemma weekProducts_in_window (LocalTZA : Z -> bool -> Z) (db : Prisma.table)
    (user_id : string) (now i : Z) :
  Dashboard.weekProducts LocalTZA db user_id now i
  = filter (Spec.in_window LocalTZA now i) (Dashboard.allProducts db user_id).
Proof.
  unfold Dashboard.weekProducts. apply filter_ext. intros p.
  unfold Spec.in_window.
  rewrite weekStart_windowStart, weekEnd_windowEnd, Z.geb_leb. reflexivity.
Qed.

Lemma weekEntry_bucket (LocalTZA : Z -> bool -> Z) (db : Prisma.table)
    (user_id : string) (now i : Z) :
  Dashboard.weekEntry LocalTZA db user_id now i
  = {| Dashboard.week := Spec.label LocalTZA (Spec.windowStart LocalTZA now i);
       Dashboard.products :=
         List.length (filter (Spec.in_window LocalTZA now i)
                             (Dashboard.allProducts db user_id)) |}.
Proof.
  unfold Dashboard.weekEntry.
  rewrite weekLabel_label, weekProducts_in_window. reflexivity.
Qed.

Lemma weeklyProductsData_unfold (LocalTZA : Z -> bool -> Z) (db : Prisma.table)
    (user_id : string) (now : Z) :
  Dashboard.weeklyProductsData LocalTZA db user_id now
  = map (Dashboard.weekEntry LocalTZA db user_id now) Spec.loop_indices.
Proof. reflexivity. Qed.


Lemma loop_indices_range (i : Z) : In i Spec.loop_indices -> 0 <= i <= 11.
Proof.
  unfold Spec.loop_indices. simpl. intros Hi.
  repeat (destruct Hi as [<-|Hi]; [lia|]). destruct Hi.
Qed.







(** The series of the page itself in New York on 2024-03-15 at 06:30 local
    time: the window of two weeks before starts on 2024-03-01 at 00:00
    Eastern Standard Time, which is 05:00 UTC, before the change to daylight
    saving time. *)
Example new_york_weekStart :
  Dashboard.weekStart (JS.zone_LocalTZA new_york_2024) 1710498600000 2
  = 1709269200000
  /\ Dashboard.weekStart (JS.zone_LocalTZA new_york_2024) 1710498600000 0
     = 1710475200000
  /\ Dashboard.weekEnd (JS.zone_LocalTZA new_york_2024) 1710498600000 2
     = 1709873999999.
Proof. vm_compute. repeat split. Qed.

(** In Apia on 2012-01-06 at 12:00 local time, the time seven days back is
    12:00 of December 30, a local time the zone skipped: it is read as an
    instant with the offset before the change, 22:00 UTC of December 30,
    which is 12:00 of December 31 in Apia.  The window of i = 1 is the one
    of that day; the window of i = 2 starts on December 23. *)
Example apia_skipped_day :
  Spec.shift_days (JS.zone_LocalTZA apia_2011) 1325800800000 (-7)
  = 1325282400000
  /\ Dashboard.weekLabel (JS.zone_LocalTZA apia_2011) 1325800800000 1
     = "12/31"%string
  /\ Dashboard.weekLabel (JS.zone_LocalTZA apia_2011) 1325800800000 2
     = "12/23"%string
  /\ Dashboard.weekLabel (JS.zone_LocalTZA apia_2011) 1325800800000 0
     = "01/06"%string.
Proof. vm_compute. repeat split. Qed.


(* ===================================================================== *)
(** * The weekly windows are disjoint                                     *)
(* ===================================================================== *)

Lemma in_window_unique (LocalTZA : Z -> bool -> Z) (now i j : Z) (p : Product) :
  Spec.span_keeps_days LocalTZA now ->
  0 <= i <= 11 -> 0 <= j <= 11 ->
  Spec.in_window LocalTZA now i p = true ->
  Spec.in_window LocalTZA now j p = true ->
  i = j.
Proof.
  intros Hs Hir Hjr. unfold Spec.in_window. intros Hi Hj. zbool.
  destruct (Z.lt_trichotomy i j) as [Hlt|[Heq|Hgt]]; [exfalso|exact Heq|exfalso].
  - pose proof (windowEnd_lt_start LocalTZA now i j Hs ltac:(lia) Hlt
                  ltac:(lia)). lia.
  - pose proof (windowEnd_lt_start LocalTZA now j i Hs ltac:(lia) Hgt
                  ltac:(lia)). lia.
Qed.

(** Among indices of the loop that are pairwise different, at most one
    window holds a given record. *)
Lemma window_hits_at_most_one (LocalTZA : Z -> bool -> Z) (now : Z)
    (p : Product) (indices : list Z) :
  Spec.span_keeps_days LocalTZA now ->
  (forall i, In i indices -> 0 <= i <= 11) ->
  NoDup indices ->
  (list_sum (map (fun i => if Spec.in_window LocalTZA now i p then 1 else 0)
                 indices) <= 1)%nat.
Proof.
  intros Hs Hr Hnd. revert Hr.
  induction Hnd as [|i l Hnotin Hnd IH]; intros Hr; simpl; [lia|].
  destruct (Spec.in_window LocalTZA now i p) eqn:Ei;
    [|apply IH; intros j Hj; apply Hr; right; exact Hj].
  assert (Hz : list_sum (map (fun j => if Spec.in_window LocalTZA now j p
                                       then 1%nat else 0%nat) l)
               = 0%nat).
  { clear IH Hnd. induction l as [|j l IHl]; [reflexivity|]. simpl.
    destruct (Spec.in_window LocalTZA now j p) eqn:Ej.
    - exfalso. apply Hnotin. left. symmetry.
      apply (in_window_unique LocalTZA now i j p Hs); try assumption.
      + apply Hr. left. reflexivity.
      + apply Hr. right. left. reflexivity.
    - apply IHl.
      + intros Hin. apply Hnotin. right. exact Hin.
      + intros k [<-|Hk]; apply Hr; [left; reflexivity|right; right; exact Hk]. }
  rewrite Hz. lia.
Qed.

Lemma bucket_counts_bounded (LocalTZA : Z -> bool -> Z) (now : Z)
    (indices : list Z) (l : list Product) :
  Spec.span_keeps_days LocalTZA now ->
  (forall i, In i indices -> 0 <= i <= 11) ->
  NoDup indices ->
  (list_sum (map (fun i => List.length (filter (Spec.in_window LocalTZA now i) l))
                 indices) <= List.length l)%nat.
Proof.
  intros Hs Hr Hnd. induction l as [|p l IH].
  - simpl. clear. induction indices; simpl; [lia|assumption].
  - pose proof (window_hits_at_most_one LocalTZA now p indices Hs Hr Hnd) as Hp.
    assert (Hsplit :
      list_sum (map (fun i => List.length
                                (filter (Spec.in_window LocalTZA now i) (p :: l)))
                    indices)
      = (list_sum (map (fun i => if Spec.in_window LocalTZA now i p then 1 else 0)
                       indices)
         + list_sum (map (fun i => List.length
                                     (filter (Spec.in_window LocalTZA now i) l))
                         indices))%nat).
    { clear. induction indices as [|i indices IHi]; simpl; [reflexivity|].
      simpl in IHi. rewrite IHi.
      destruct (Spec.in_window LocalTZA now i p); simpl; lia. }
    rewrite Hsplit. simpl. lia.
Qed.

Lemma loop_indices_NoDup : NoDup Spec.loop_indices.
Proof.
  unfold Spec.loop_indices.
  repeat (constructor; [simpl; intros H;
    repeat (destruct H as [H|H]; [discriminate H|]); exact H|]).
  constructor.
Qed.

(** The windows on a host in Apia on 2012-01-06 at 12:00 local time.  Seven
    days back is December 30, the day the zone skipped: the host reads that
    local time as December 31, so the window of i = 1 starts on December 31
    and reaches to the end of January 6, the day the window of i = 0 starts
    on.  The two windows overlap, a record of the morning of January 6 is in
    both, and the bucket counts add up to 2 for 1 record. *)
Lemma windows_overlap_after_skipped_day :
  Dashboard.weekStart (JS.zone_LocalTZA apia_2011) 1325800800000 1
  = 1325239200000
  /\ Dashboard.weekEnd (JS.zone_LocalTZA apia_2011) 1325800800000 1
     = 1325843999999
  /\ Dashboard.weekStart (JS.zone_LocalTZA apia_2011) 1325800800000 0
     = 1325757600000
  /\ ~ (Dashboard.weekEnd (JS.zone_LocalTZA apia_2011) 1325800800000 1
        < Dashboard.weekStart (JS.zone_LocalTZA apia_2011) 1325800800000 0)
  /\ In (sample 1 None 1325786400000)
        (Dashboard.weekProducts (JS.zone_LocalTZA apia_2011) apia_records "u"
           1325800800000 1)
  /\ In (sample 1 None 1325786400000)
        (Dashboard.weekProducts (JS.zone_LocalTZA apia_2011) apia_records "u"
           1325800800000 0)
  /\ list_sum (map Dashboard.products
                   (Dashboard.weeklyProductsData (JS.zone_LocalTZA apia_2011)
                      apia_records "u" 1325800800000))
     = 2%nat
  /\ List.length (Dashboard.allProducts apia_records "u") = 1%nat.
Proof.
  vm_compute.
  repeat split; try (left; reflexivity). intros H. discriminate H.
Qed.

(** C10.  For every anchor time around which the calendar of the host is
    regular (no change of its offset from UTC, among the local times from 77
    days before the local day of [now] to 6 days after it, moves a local
    time to another day or puts local times of different days out of order:
    so with any fixed offset and any zone whose daylight saving changes stay
    within a day), the 12 weekly windows of the aggregation are pairwise
    disjoint in time: each window ends before the next one starts; so a
    record is counted in at most one bucket, and the 12 bucket counts add up
    to at most the number of input records. *)
Theorem weekly_windows_disjoint (LocalTZA : Z -> bool -> Z) (db : Prisma.table)
    (user_id : string) (now : Z) :
  Spec.span_keeps_days LocalTZA now ->
  (forall i, 0 <= i <= 11 ->
     Dashboard.weekStart LocalTZA now i < Dashboard.weekEnd LocalTZA now i)
  /\ (forall i, 0 <= i < 11 ->
        Dashboard.weekEnd LocalTZA now (i + 1)
        < Dashboard.weekStart LocalTZA now i)
  /\ (forall i j, 0 <= i -> i < j -> j <= 11 ->
        Dashboard.weekEnd LocalTZA now j < Dashboard.weekStart LocalTZA now i)
  /\ (forall p i j, 0 <= i <= 11 -> 0 <= j <= 11 ->
        In p (Dashboard.weekProducts LocalTZA db user_id now i) ->
        In p (Dashboard.weekProducts LocalTZA db user_id now j) ->
        i = j)
  /\ (list_sum (map Dashboard.products
                    (Dashboard.weeklyProductsData LocalTZA db user_id now))
      <= List.length (Dashboard.allProducts db user_id))%nat.
Proof.
  intros Hs. split; [|split; [|split; [|split]]].
  - intros i Hi. rewrite weekStart_windowStart, weekEnd_windowEnd.
    apply windowStart_lt_end; assumption.
  - intros i Hi. rewrite weekStart_windowStart, weekEnd_windowEnd.
    apply windowEnd_lt_next; assumption.
  - intros i j Hi Hij Hj. rewrite weekStart_windowStart, weekEnd_windowEnd.
    apply windowEnd_lt_start; assumption.
  - intros p i j Hir Hjr. rewrite !weekProducts_in_window, !filter_In.
    intros [_ Hi] [_ Hj].
    exact (in_window_unique LocalTZA now i j p Hs Hir Hjr Hi Hj).
  - rewrite weeklyProductsData_unfold, map_map.
    erewrite map_ext;
      [apply bucket_counts_bounded;
         [exact Hs|exact loop_indices_range|exact loop_indices_NoDup]|].
    intros i. rewrite weekEntry_bucket. reflexivity.
Qed.

Lemma weekly_windows_disjoint_witness :
  In (sample 1 None 1710460800000)
     (Dashboard.weekProducts (JS.zone_LocalTZA new_york_2024) march_records "u"
        1710498600000 1)
  /\ ~ In (sample 1 None 1710460800000)
          (Dashboard.weekProducts (JS.zone_LocalTZA new_york_2024)
             march_records "u" 1710498600000 0)
  /\ (list_sum (map Dashboard.products
                    (Dashboard.weeklyProductsData
                       (JS.zone_LocalTZA new_york_2024) march_records "u"
                       1710498600000))
      <= 2)%nat.
Proof.
  destruct (weekly_windows_disjoint (JS.zone_LocalTZA new_york_2024)
              march_records "u" 1710498600000
              (keeps_days_span _ _ new_york_keeps_days))
    as (_ & _ & _ & Hone & Hsum).
  assert (H1 : In (sample 1 None 1710460800000)
                  (Dashboard.weekProducts (JS.zone_LocalTZA new_york_2024)
                     march_records "u" 1710498600000 1))
    by (vm_compute; left; reflexivity).
  split; [exact H1|]. split; [|exact Hsum].
  intros H0.
  discriminate (Hone _ 0 1 ltac:(lia) ltac:(lia) H0 H1).
Defined.


(* ===================================================================== *)
(** * Binary64 arithmetic: rounding to nearest                            *)
(* ===================================================================== *)

(** Powers of two and the number of binary digits. *)
Lemma pow2_pos (e : Z) : 0 <= e -> 0 < 2 ^ e.
Proof. intros H. apply Z.pow_pos_nonneg; lia. Qed.

Lemma digits2_pos_bounds (p : positive) :
  2 ^ (Z.pos (digits2_pos p) - 1) <= Z.pos p < 2 ^ Z.pos (digits2_pos p).
Proof.
  induction p as [p IH|p IH|]; cbn [digits2_pos].
  - rewrite Pos2Z.inj_succ.
    replace (Z.succ (Z.pos (digits2_pos p)) - 1) with (Z.succ (Z.pos (digits2_pos p) - 1)) by lia.
    rewrite !Z.pow_succ_r by lia. lia.
  - rewrite Pos2Z.inj_succ.
    replace (Z.succ (Z.pos (digits2_pos p)) - 1) with (Z.succ (Z.pos (digits2_pos p) - 1)) by lia.
    rewrite !Z.pow_succ_r by lia. lia.
  - simpl. lia.
Qed.

Lemma digits2_pos_unique (p : positive) (d : Z) :
  2 ^ (d - 1) <= Z.pos p < 2 ^ d -> Z.pos (digits2_pos p) = d.
Proof.
  intros [Hlo Hhi]. pose proof (digits2_pos_bounds p) as [Blo Bhi].
  assert (Hd : 0 < d).
  { destruct (Z_lt_le_dec 0 d) as [H|H]; [exact H|].
    destruct (Z.eq_dec d 0) as [->|Hn]; [simpl in Hhi; lia|].
    rewrite Z.pow_neg_r in Hhi by lia. lia. }
  destruct (Z_lt_le_dec (Z.pos (digits2_pos p)) d) as [H1|H1].
  - assert (2 ^ Z.pos (digits2_pos p) <= 2 ^ (d - 1))
      by (apply Z.pow_le_mono_r; lia). lia.
  - destruct (Z_lt_le_dec d (Z.pos (digits2_pos p))) as [H2|H2]; [|lia].
    assert (2 ^ d <= 2 ^ (Z.pos (digits2_pos p) - 1))
      by (apply Z.pow_le_mono_r; lia). lia.
Qed.

(** A shift by one bit halves the unit the record counts in. *)
Lemma shr_1_located (N D : Z) (mrs : shr_record) :
  0 < D -> Float.located N D mrs -> Float.located N (2 * D) (shr_1 mrs).
Proof.
  intros HD. destruct mrs as [m r s]. unfold Float.located. cbn [shr_m shr_r shr_s].
  intros (Hm & Hb & Hr & Hs).
  destruct m as [|p|p]; [| |lia].
  - cbn [shr_1 shr_m shr_r shr_s orb].
    destruct r, s; cbn [orb]; repeat split; try lia; try discriminate;
      intuition (try lia; try discriminate).
  - destruct p as [p|p|]; cbn [shr_1 shr_m shr_r shr_s].
    + rewrite Pos2Z.inj_xI in *. set (M := Z.pos p) in *.
      assert (0 < M) by (unfold M; lia).
      destruct r, s; cbn [orb]; repeat split; try nia; try discriminate;
        intuition (try nia; try discriminate).
    + rewrite Pos2Z.inj_xO in *. set (M := Z.pos p) in *.
      assert (0 < M) by (unfold M; lia).
      destruct r, s; cbn [orb]; repeat split; try nia; try discriminate;
        intuition (try nia; try discriminate).
    + destruct r, s; cbn [orb]; repeat split; try lia; try discriminate;
        intuition (try lia; try discriminate).
Qed.

Lemma iter_pos_located (N : Z) (n : positive) :
  forall D mrs, 0 < D -> Float.located N D mrs ->
  Float.located N (2 ^ Z.pos n * D) (iter_pos shr_1 n mrs).
Proof.
  induction n as [n IH|n IH|]; intros D mrs HD H; cbn [iter_pos].
  - replace (2 ^ Z.pos n~1 * D)
      with (2 ^ Z.pos n * (2 ^ Z.pos n * (2 * D))).
    + pose proof (pow2_pos (Z.pos n) ltac:(lia)).
      apply IH; [nia|]. apply IH; [lia|]. apply shr_1_located; assumption.
    + replace (Z.pos n~1) with (Z.pos n + Z.pos n + 1) by lia.
      rewrite !Z.pow_add_r, Z.pow_1_r by lia. ring.
  - replace (2 ^ Z.pos n~0 * D) with (2 ^ Z.pos n * (2 ^ Z.pos n * D)).
    + pose proof (pow2_pos (Z.pos n) ltac:(lia)).
      apply IH; [nia|]. apply IH; assumption.
    + replace (Z.pos n~0) with (Z.pos n + Z.pos n) by lia.
      rewrite Z.pow_add_r by lia. ring.
  - change (2 ^ 1) with 2. apply shr_1_located; assumption.
Qed.

Lemma shr_located (N D : Z) (mrs : shr_record) (e n : Z) :
  0 < D -> 0 <= n -> Float.located N D mrs ->
  Float.located N (2 ^ n * D) (fst (shr mrs e n)) /\ snd (shr mrs e n) = e + n.
Proof.
  intros HD Hn H. destruct n as [|p|p]; [| |lia]; cbn [shr fst snd].
  - split; [|lia]. change (2 ^ 0) with 1. rewrite Z.mul_1_l. exact H.
  - split; [|reflexivity]. apply iter_pos_located; assumption.
Qed.

(** Rounding to nearest moves by at most half a unit. *)
Lemma round_nearest_even_located (N D : Z) (mrs : shr_record) :
  0 < D -> Float.located N D mrs ->
  let m := round_nearest_even (shr_m mrs) (loc_of_shr_record mrs) in
  (m = shr_m mrs \/ m = shr_m mrs + 1)
  /\ - D <= 2 * (m * D - N) <= D.
Proof.
  intros HD. destruct mrs as [m r s]. unfold Float.located. cbn [shr_m shr_r shr_s].
  intros (Hm & Hb & Hr & Hs).
  destruct r, s; cbn [loc_of_shr_record round_nearest_even].
  - assert ((2 * m + 1) * D <= 2 * N) by (apply Hr; reflexivity).
    split; [right; reflexivity|]. lia.
  - assert ((2 * m + 1) * D <= 2 * N) by (apply Hr; reflexivity).
    destruct (Z.even m); [split; [left; reflexivity|]|split; [right; reflexivity|]].
    + assert (~ (N <> m * D /\ 2 * N <> (2 * m + 1) * D))
        by (intros Hc; apply Hs in Hc; discriminate). lia.
    + lia.
  - assert (~ (2 * m + 1) * D <= 2 * N) by (intros Hc; apply Hr in Hc; discriminate).
    split; [left; reflexivity|]. lia.
  - assert (~ (2 * m + 1) * D <= 2 * N) by (intros Hc; apply Hr in Hc; discriminate).
    split; [left; reflexivity|]. lia.
Qed.

Lemma located_exact (m : Z) :
  0 <= m -> Float.located m 1 (shr_record_of_loc m loc_Exact).
Proof.
  intros H. unfold Float.located. cbn [shr_record_of_loc shr_m shr_r shr_s].
  repeat split; try lia; try discriminate.
Qed.

(** The mantissa after a shift by [n] bits. *)
Lemma located_mantissa (N D : Z) (m : Z) (l : location) (n : Z)
    (mrs : shr_record) :
  0 < D -> 0 <= n ->
  Float.located N D (shr_record_of_loc m l) ->
  Float.located N (2 ^ n * D) mrs ->
  shr_m mrs = m / 2 ^ n.
Proof.
  intros HD Hn (Hm & Hb & _) (Hm' & Hb' & _).
  assert (Hms : shr_m (shr_record_of_loc m l) = m)
    by (destruct l as [|[]]; reflexivity).
  rewrite Hms in *. pose proof (pow2_pos n Hn) as HP.
  set (P := 2 ^ n) in *. set (k := shr_m mrs) in *.
  apply Z.div_unique with (r := m - k * P); [|lia].
  left. split.
  - (* k * P <= m *)
    assert (k * P * D < (m + 1) * D) by nia.
    assert (k * P < m + 1) by nia. lia.
  - assert (m * D < (k + 1) * P * D) by nia.
    assert (m < (k + 1) * P) by nia. lia.
Qed.

Lemma fexp_normal (e : Z) : -1074 <= e - 53 -> fexp 53 1024 e = e - 53.
Proof. intros H. unfold fexp, emin. lia. Qed.

Lemma div_pow2_digits (mx d : Z) :
  53 <= d -> 2 ^ (d - 1) <= mx < 2 ^ d ->
  2 ^ 52 <= mx / 2 ^ (d - 53) < 2 ^ 53.
Proof.
  intros Hd [Hlo Hhi].
  pose proof (pow2_pos (d - 53) ltac:(lia)) as HP.
  assert (E1 : 2 ^ (d - 1) = 2 ^ 52 * 2 ^ (d - 53)).
  { rewrite <- Z.pow_add_r by lia. f_equal. lia. }
  assert (E2 : 2 ^ d = 2 ^ 53 * 2 ^ (d - 53)).
  { rewrite <- Z.pow_add_r by lia. f_equal. lia. }
  split.
  - apply Z.div_le_lower_bound; [exact HP|]. lia.
  - apply Z.div_lt_upper_bound; [exact HP|]. lia.
Qed.

(** Rounding a located positive value with at least 53 digits, in the normal
    range: the result is a 53-bit mantissa within half a unit of its last
    place of the value. *)
Lemma binary_round_aux_near (s : bool) (mx : positive) (ex : Z) (lx : location)
    (N D : Z) :
  0 < D ->
  Float.located N D (shr_record_of_loc (Z.pos mx) lx) ->
  53 <= Z.pos (digits2_pos mx) ->
  -1074 <= Z.pos (digits2_pos mx) + ex - 53 ->
  Z.pos (digits2_pos mx) + ex - 52 <= 971 ->
  exists m e,
    binary_round_aux 53 1024 s (Z.pos mx) ex lx = S754_finite s m e
    /\ 2 ^ 52 <= Z.pos m < 2 ^ 53
    /\ Z.pos (digits2_pos mx) + ex - 53 <= e <= Z.pos (digits2_pos mx) + ex - 52
    /\ - (2 ^ (Z.pos (digits2_pos mx) - 53) * D)
       <= 2 * (Z.pos m * 2 ^ (e - ex) * D - N)
       <= 2 ^ (Z.pos (digits2_pos mx) - 53) * D.
Proof.
  intros HD Hrep Hd Hlo Hhi.
  set (d := Z.pos (digits2_pos mx)) in *.
  pose proof (digits2_pos_bounds mx) as Hdig. fold d in Hdig.
  unfold binary_round_aux, shr_fexp.
  cbn [Zdigits2]. fold d.
  rewrite (fexp_normal (d + ex)) by lia.
  replace (d + ex - 53 - ex) with (d - 53) by lia.
  destruct (shr_located N D (shr_record_of_loc (Z.pos mx) lx) ex (d - 53) HD
              ltac:(lia) Hrep) as [Hrep' He'].
  destruct (shr (shr_record_of_loc (Z.pos mx) lx) ex (d - 53)) as [mrs' e'].
  cbn [fst snd] in Hrep', He'. subst e'.
  pose proof (pow2_pos (d - 53) ltac:(lia)) as HP.
  assert (HD' : 0 < 2 ^ (d - 53) * D) by nia.
  pose proof (located_mantissa N D (Z.pos mx) lx (d - 53) mrs' HD ltac:(lia)
                Hrep Hrep') as Hm'.
  pose proof (div_pow2_digits (Z.pos mx) d Hd Hdig) as Hrange.
  rewrite <- Hm' in Hrange.
  destruct (round_nearest_even_located N (2 ^ (d - 53) * D) mrs' HD' Hrep')
    as [Hcase Hnear].
  set (m1 := round_nearest_even (shr_m mrs') (loc_of_shr_record mrs')) in *.
  assert (Hm1 : 2 ^ 52 <= m1 <= 2 ^ 53) by lia.
  destruct (Z.eq_dec m1 (2 ^ 53)) as [Ecarry|Ecarry].
  - (* the mantissa rounds up to the next power of two *)
    rewrite Ecarry.
    change (Zdigits2 (2 ^ 53)) with 54.
    rewrite (fexp_normal (54 + (ex + (d - 53)))) by lia.
    replace (54 + (ex + (d - 53)) - 53 - (ex + (d - 53))) with 1 by lia.
    cbn [shr_record_of_loc shr iter_pos]. 
    change (shr_m (shr_1 {| shr_m := 2 ^ 53; shr_r := false; shr_s := false |}))
      with (Z.pos (2 ^ 52)%positive).
    cbv iota beta.
    replace (ex + (d - 53) + 1 <=? 1024 - 53) with true
      by (symmetry; apply Z.leb_le; lia).
    exists (2 ^ 52)%positive, (ex + (d - 53) + 1).
    split; [reflexivity|]. split; [split; [reflexivity|reflexivity]|].
    split; [lia|].
    replace (ex + (d - 53) + 1 - ex) with (d - 53 + 1) by lia.
    rewrite Z.pow_add_r, Z.pow_1_r by lia.
    change (Z.pos (2 ^ 52)%positive) with (2 ^ 52).
    rewrite Ecarry in Hnear. change (2 ^ 53) with (2 ^ 52 * 2) in Hnear.
    nia.
  - assert (Hlt : 2 ^ 52 <= m1 < 2 ^ 53) by lia.
    destruct m1 as [|p1|p1] eqn:Em1; [simpl in Hlt; lia| |lia].
    pose proof (digits2_pos_unique p1 53 Hlt) as Hd1.
    cbn [Zdigits2]. rewrite Hd1.
    rewrite (fexp_normal (53 + (ex + (d - 53)))) by lia.
    replace (53 + (ex + (d - 53)) - 53 - (ex + (d - 53))) with 0 by lia.
    cbn [shr_record_of_loc shr shr_m].
    replace (ex + (d - 53) <=? 1024 - 53) with true
      by (symmetry; apply Z.leb_le; lia).
    exists p1, (ex + (d - 53)).
    split; [reflexivity|]. split; [exact Hlt|]. split; [lia|].
    replace (ex + (d - 53) - ex) with (d - 53) by lia.
    lia.
Qed.

Lemma Pos_iter_xO (p d : positive) :
  Z.pos (Pos.iter xO p d) = Z.pos p * 2 ^ Z.pos d.
Proof.
  induction d as [|d IH] using Pos.peano_ind.
  - change (2 ^ 1) with 2. cbn [Pos.iter]. lia.
  - rewrite Pos.iter_succ, Pos2Z.inj_succ, Z.pow_succ_r by lia.
    rewrite Pos2Z.inj_xO, IH. ring.
Qed.

(** A 53-bit mantissa with an exponent in range is its own rounding. *)
Lemma binary_round_aux_canonical (s : bool) (m : positive) (e : Z) :
  Z.pos (digits2_pos m) = 53 -> -1074 <= e <= 971 ->
  binary_round_aux 53 1024 s (Z.pos m) e loc_Exact = S754_finite s m e.
Proof.
  intros Hd He. unfold binary_round_aux, shr_fexp. cbn [Zdigits2].
  rewrite Hd, (fexp_normal (53 + e)) by lia.
  replace (53 + e - 53 - e) with 0 by lia.
  cbn [shr_record_of_loc shr shr_m loc_of_shr_record round_nearest_even Zdigits2].
  rewrite Hd, (fexp_normal (53 + e)) by lia.
  replace (53 + e - 53 - e) with 0 by lia.
  cbn [shr shr_m].
  replace (e <=? 1024 - 53) with true by (symmetry; apply Z.leb_le; lia).
  reflexivity.
Qed.

(** An integer below 2^53 is held exactly, with a 53-bit mantissa. *)
Lemma binary_round_small (s : bool) (p : positive) :
  Z.pos p < 2 ^ 53 ->
  exists m e,
    binary_round 53 1024 s p 0 = S754_finite s m e
    /\ 2 ^ 52 <= Z.pos m < 2 ^ 53
    /\ -52 <= e <= 0
    /\ Z.pos m = Z.pos p * 2 ^ (- e).
Proof.
  intros Hp. pose proof (digits2_pos_bounds p) as Hdig.
  set (d := Z.pos (digits2_pos p)) in *.
  assert (Hd : 1 <= d <= 53).
  { split; [unfold d; lia|].
    destruct (Z_lt_le_dec 53 d) as [H|H]; [|exact H].
    assert (2 ^ 53 <= 2 ^ (d - 1)) by (apply Z.pow_le_mono_r; lia). lia. }
  unfold binary_round. fold d.
  rewrite (fexp_normal (d + 0)) by lia.
  unfold shl_align.
  destruct (d + 0 - 53 - 0) as [|k|k] eqn:Ek; [|lia|].
  - assert (Ed : d = 53) by lia.
    rewrite binary_round_aux_canonical by (fold d; lia).
    exists p, 0. split; [reflexivity|]. rewrite Ed in Hdig.
    split; [exact Hdig|]. split; [lia|]. simpl. lia.
  - assert (Hk : Z.pos k = 53 - d) by lia.
    assert (Hv : Z.pos (Pos.iter xO p k) = Z.pos p * 2 ^ (53 - d))
      by (rewrite Pos_iter_xO, Hk; reflexivity).
    assert (Hr : 2 ^ 52 <= Z.pos (Pos.iter xO p k) < 2 ^ 53).
    { rewrite Hv.
      pose proof (pow2_pos (53 - d) ltac:(lia)) as HP.
      replace (2 ^ 52) with (2 ^ (d - 1) * 2 ^ (53 - d))
        by (rewrite <- Z.pow_add_r by lia; f_equal; lia).
      replace (2 ^ 53) with (2 ^ d * 2 ^ (53 - d))
        by (rewrite <- Z.pow_add_r by lia; f_equal; lia).
      nia. }
    rewrite binary_round_aux_canonical
      by (try apply digits2_pos_unique; try exact Hr; lia).
    exists (Pos.iter xO p k), (d + 0 - 53).
    split; [reflexivity|]. split; [exact Hr|]. split; [lia|].
    rewrite Hv. f_equal. f_equal. lia.
Qed.

(** The location the division gives its quotient. *)
Lemma new_location_located (N D q r : Z) :
  0 < D -> N = D * q + r -> 0 <= r < D -> 0 <= q ->
  Float.located N D (shr_record_of_loc q (new_location D r)).
Proof.
  intros HD HN Hr Hq. unfold new_location.
  destruct (Z.even D) eqn:Ev.
  - unfold new_location_even.
    destruct (Z.eqb_spec r 0) as [E0|E0].
    + unfold Float.located. cbn [shr_record_of_loc shr_m shr_r shr_s].
      repeat split; try lia; try discriminate.
    + destruct (Z.compare_spec (2 * r) D) as [E|E|E]; unfold Float.located;
        cbn [shr_record_of_loc shr_m shr_r shr_s];
        repeat split; try lia; try discriminate.
  - unfold new_location_odd.
    assert (Hodd : Z.odd D = true) by (rewrite <- Z.negb_even, Ev; reflexivity).
    apply Z.odd_spec in Hodd. destruct Hodd as [h Hh].
    destruct (Z.eqb_spec r 0) as [E0|E0].
    + unfold Float.located. cbn [shr_record_of_loc shr_m shr_r shr_s].
      repeat split; try lia; try discriminate.
    + destruct (Z.compare_spec (2 * r + 1) D) as [E|E|E]; unfold Float.located;
        cbn [shr_record_of_loc shr_m shr_r shr_s];
        repeat split; try lia; try discriminate.
Qed.

Lemma of_Z_pos (n : Z) :
  0 < n < 2 ^ 53 ->
  exists m e,
    JS.of_Z n = S754_finite false m e
    /\ 2 ^ 52 <= Z.pos m < 2 ^ 53
    /\ -52 <= e <= 0
    /\ Z.pos m = n * 2 ^ (- e).
Proof.
  intros Hn. destruct n as [|p|p]; try lia.
  unfold JS.of_Z, JS.prec, JS.emax. cbn [binary_normalize].
  apply binary_round_small. lia.
Qed.

Lemma pow2_le_exponent (a b : Z) :
  0 <= a -> 0 <= b -> 2 ^ a <= 2 ^ b -> a <= b.
Proof.
  intros Ha Hb H. destruct (Z_lt_le_dec b a) as [Hlt|Hle]; [|exact Hle].
  assert (2 ^ b < 2 ^ a) by (apply Z.pow_lt_mono_r; lia). lia.
Qed.

Lemma pow2_lt_exponent (a b : Z) :
  0 <= a -> 0 <= b -> 2 ^ a < 2 ^ b -> a < b.
Proof.
  intros Ha Hb H. destruct (Z_lt_le_dec a b) as [Hlt|Hle]; [exact Hlt|].
  assert (2 ^ b <= 2 ^ a) by (apply Z.pow_le_mono_r; lia). lia.
Qed.

(** The quotient of two integers below 2^53, the first not above the
    second: a 53-bit mantissa within half a unit of its last place of the
    exact quotient. *)
Lemma div_near (c t : Z) :
  0 < c <= t -> t < 2 ^ 53 ->
  exists m e,
    JS.div (JS.of_Z c) (JS.of_Z t) = S754_finite false m e
    /\ 2 ^ 52 <= Z.pos m < 2 ^ 53
    /\ -105 <= e <= -52
    /\ - t <= 2 * (Z.pos m * t - c * 2 ^ (- e)) <= t.
Proof.
  intros Hc Ht.
  destruct (of_Z_pos c) as (mc & ec & Ec & Hmc & Hec & Vc); [lia|].
  destruct (of_Z_pos t) as (mt & et & Et & Hmt & Het & Vt); [lia|].
  rewrite Ec, Et. unfold JS.div, JS.prec, JS.emax. cbn [SFdiv xorb].
  unfold SFdiv_core_binary. cbn [Zdigits2].
  rewrite (digits2_pos_unique mc 53 Hmc), (digits2_pos_unique mt 53 Hmt).
  rewrite fexp_normal by lia.
  replace (53 + ec - (53 + et) - 53) with (ec - et - 53) by lia.
  rewrite Z.min_l by lia.
  replace (ec - et - (ec - et - 53)) with 53 by lia.
  cbv iota.
  rewrite Z.shiftl_mul_pow2 by lia.
  pose proof (Z_div_mod (Z.pos mc * 2 ^ 53) (Z.pos mt) ltac:(lia)) as Hdm.
  destruct (Z.div_eucl (Z.pos mc * 2 ^ 53) (Z.pos mt)) as [q r].
  destruct Hdm as [Hdm Hr].
  set (Mc := Z.pos mc) in *. set (Mt := Z.pos mt) in *.
  assert (Hq : 2 ^ 52 <= q < 2 ^ 54) by nia.
  destruct q as [|qp|qp]; [lia| |lia].
  pose proof (digits2_pos_bounds qp) as Hdq.
  set (d := Z.pos (digits2_pos qp)) in *.
  assert (Hd : 53 <= d <= 54).
  { split.
    - assert (52 < d); [|lia]. apply pow2_lt_exponent; lia.
    - assert (d - 1 < 54); [|lia]. apply pow2_lt_exponent; lia. }
  assert (Hle : ec <= et).
  { destruct (Z_lt_le_dec et ec) as [Hlt|H]; [|exact H]. exfalso.
    assert (E : 2 ^ (- et) = 2 ^ (- ec) * 2 ^ (ec - et))
      by (rewrite <- Z.pow_add_r by lia; f_equal; lia).
    assert (2 <= 2 ^ (ec - et))
      by (change 2 with (2 ^ 1) at 1; apply Z.pow_le_mono_r; lia).
    pose proof (pow2_pos (- ec) ltac:(lia)).
    pose proof Vt as Vt'. rewrite E in Vt'.
    assert (c * 2 ^ (- ec) <= t * 2 ^ (- ec))
      by (apply Z.mul_le_mono_nonneg_r; lia).
    assert (t * 2 ^ (- ec) * 2 <= t * 2 ^ (- ec) * 2 ^ (ec - et)).
    { apply Z.mul_le_mono_nonneg_l; [|lia].
      apply Z.mul_nonneg_nonneg; lia. }
    lia. }
  destruct (binary_round_aux_near false qp (ec - et - 53)
              (new_location Mt r) (Mc * 2 ^ 53) Mt)
    as (m & e & Hres & Hm & He & Hnear).
  { unfold Mt; lia. }
  { apply new_location_located; unfold Mt; lia. }
  { fold d. lia. }
  { fold d. lia. }
  { fold d. lia. }
  fold d in He, Hnear.
  exists m, e. split; [exact Hres|]. split; [exact Hm|].
  (* the bound, with every power written out *)
  set (M := Z.pos m) in *.
  pose proof (pow2_pos (- e) ltac:(lia)) as HP.
  pose proof (pow2_pos (- et) ltac:(lia)) as HT.
  pose proof (pow2_pos (- ec) ltac:(lia)) as HC.
  pose proof (pow2_pos (e - (ec - et - 53)) ltac:(lia)) as HK.
  pose proof (pow2_pos (d - 53) ltac:(lia)) as Hn.
  assert (HnK : 2 ^ (d - 53) <= 2 ^ (e - (ec - et - 53)))
    by (apply Z.pow_le_mono_r; lia).
  assert (Hprod : 2 ^ (- ec) * 2 ^ 53
                  = 2 ^ (- e) * 2 ^ (e - (ec - et - 53)) * 2 ^ (- et)).
  { rewrite <- !Z.pow_add_r by lia. f_equal. lia. }
  set (P := 2 ^ (- e)) in *. set (T := 2 ^ (- et)) in *.
  set (C := 2 ^ (- ec)) in *. set (K := 2 ^ (e - (ec - et - 53))) in *.
  set (B := 2 ^ (d - 53)) in *.
  assert (Hfact : M * K * Mt - Mc * 2 ^ 53 = K * T * (M * t - c * P)).
  { rewrite Vc, Vt. fold C T.
    replace (c * C * 2 ^ 53) with (c * (C * 2 ^ 53)) by ring.
    rewrite Hprod. ring. }
  assert (Hbound : - t <= 2 * (M * t - c * P) <= t).
  { assert (HKT : 0 < K * T) by (apply Z.mul_pos_pos; lia).
    assert (H1 : - (K * T * t) <= 2 * (K * T * (M * t - c * P)) <= K * T * t).
    { rewrite <- Hfact. rewrite Vt in Hnear. fold T in Hnear.
      assert (B * (t * T) <= K * T * t).
      { replace (K * T * t) with (K * (t * T)) by ring.
        apply Z.mul_le_mono_nonneg_r; [|lia].
        apply Z.mul_nonneg_nonneg; lia. }
      lia. }
    split.
    - apply Z.mul_le_mono_pos_l with (p := K * T); [exact HKT|]. lia.
    - apply Z.mul_le_mono_pos_l with (p := K * T); [exact HKT|]. lia. }
  split; [|exact Hbound].
  (* the exponent: the mantissa is not above the scale *)
  assert (HMP : M <= P).
  { assert (c * P <= t * P) by (apply Z.mul_le_mono_nonneg_r; lia).
    assert (H2 : 2 * M * t <= (2 * P + 1) * t) by lia.
    apply Z.mul_le_mono_pos_r in H2; lia. }
  assert (52 <= - e); [|lia].
  apply pow2_le_exponent; [lia|lia|]. fold P. lia.
Qed.

Lemma of_Z_100 : JS.of_Z 100 = S754_finite false 7036874417766400 (-46).
Proof. vm_compute. reflexivity. Qed.

(** The product of a 53-bit mantissa and 100: within half a unit of its
    last place of the exact product. *)
Lemma mul_100_near (m1 : positive) (e1 : Z) :
  2 ^ 52 <= Z.pos m1 < 2 ^ 53 -> -900 <= e1 <= -52 ->
  exists m e,
    JS.mul (S754_finite false m1 e1) (JS.of_Z 100) = S754_finite false m e
    /\ 2 ^ 52 <= Z.pos m < 2 ^ 53
    /\ e <= -44
    /\ - 2 ^ (- e1)
       <= 2 * (Z.pos m * 2 ^ (- e1) - 100 * Z.pos m1 * 2 ^ (- e))
       <= 2 ^ (- e1).
Proof.
  intros Hm1 He1. rewrite of_Z_100.
  unfold JS.mul, JS.prec, JS.emax. cbn [SFmul xorb].
  set (N := (m1 * 7036874417766400)%positive).
  assert (HN : Z.pos N = Z.pos m1 * (100 * 2 ^ 46)) by (unfold N; lia).
  pose proof (digits2_pos_bounds N) as Hdq.
  set (d := Z.pos (digits2_pos N)) in *.
  assert (Hd : 105 <= d <= 106).
  { assert (2 ^ 104 <= Z.pos N < 2 ^ 106) by lia. split.
    - assert (104 < d); [|lia]. apply pow2_lt_exponent; lia.
    - assert (d - 1 < 106); [|lia]. apply pow2_lt_exponent; lia. }
  destruct (binary_round_aux_near false N (e1 + -46) loc_Exact (Z.pos N) 1)
    as (m & e & Hres & Hm & He & Hnear).
  { lia. }
  { apply located_exact. lia. }
  { fold d. lia. }
  { fold d. lia. }
  { fold d. lia. }
  fold d in He, Hnear.
  exists m, e. split; [exact Hres|]. split; [exact Hm|]. split; [lia|].
  set (M := Z.pos m) in *. set (M1 := Z.pos m1) in *.
  pose proof (pow2_pos (- e) ltac:(lia)) as HP.
  pose proof (pow2_pos (- e1) ltac:(lia)) as HP1.
  pose proof (pow2_pos (e - (e1 + -46)) ltac:(lia)) as HK.
  pose proof (pow2_pos (d - 53) ltac:(lia)) as Hn.
  assert (HnK : 2 ^ (d - 53) <= 2 ^ (e - (e1 + -46)))
    by (apply Z.pow_le_mono_r; lia).
  assert (Hprod : 2 ^ (e - (e1 + -46)) * 2 ^ (- e) = 2 ^ 46 * 2 ^ (- e1)).
  { rewrite <- !Z.pow_add_r by lia. f_equal. lia. }
  set (P := 2 ^ (- e)) in *. set (P1 := 2 ^ (- e1)) in *.
  set (K := 2 ^ (e - (e1 + -46))) in *. set (B := 2 ^ (d - 53)) in *.
  assert (Hfact : (M * K * 1 - Z.pos N) * P
                  = 2 ^ 46 * (M * P1 - 100 * M1 * P)).
  { rewrite HN.
    replace ((M * K * 1 - M1 * (100 * 2 ^ 46)) * P)
      with (M * (K * P) - 100 * M1 * 2 ^ 46 * P) by ring.
    rewrite Hprod. ring. }
  assert (H1 : - (2 ^ 46 * P1) <= 2 * (2 ^ 46 * (M * P1 - 100 * M1 * P))
               <= 2 ^ 46 * P1).
  { rewrite <- Hfact, <- Hprod.
    assert (B * P <= K * P) by (apply Z.mul_le_mono_nonneg_r; lia).
    assert (- (B * 1 * P) <= 2 * (M * K * 1 - Z.pos N) * P <= B * 1 * P).
    { split.
      - replace (- (B * 1 * P)) with ((- (B * 1)) * P) by ring.
        apply Z.mul_le_mono_nonneg_r; lia.
      - apply Z.mul_le_mono_nonneg_r; lia. }
    lia. }
  lia.
Qed.

Lemma of_Z_nonzero (n : Z) :
  n <> 0 -> Z.abs n < 2 ^ 53 ->
  exists m e,
    JS.of_Z n = S754_finite (n <? 0) m e
    /\ -52 <= e <= 0
    /\ Z.pos m = Z.abs n * 2 ^ (- e).
Proof.
  intros Hn Hb. destruct n as [|p|p]; [lia| |].
  - destruct (binary_round_small false p) as (m & e & H & _ & He & Hv); [lia|].
    exists m, e. split; [exact H|]. split; [exact He|exact Hv].
  - destruct (binary_round_small true p) as (m & e & H & _ & He & Hv); [lia|].
    exists m, e. split; [exact H|]. split; [exact He|exact Hv].
Qed.

(** The mantissa of a Number with exponent [e >= -52], aligned to the
    exponent -52. *)
Lemma shl_align_52 (m : positive) (e : Z) :
  -52 <= e <= 0 ->
  Z.pos (fst (shl_align m e (-52))) = Z.pos m * 2 ^ (e + 52).
Proof.
  intros He. unfold shl_align.
  destruct (-52 - e) as [|d|d] eqn:E; cbn [fst].
  - replace (e + 52) with 0 by lia. simpl. lia.
  - lia.
  - rewrite Pos_iter_xO. f_equal. f_equal. lia.
Qed.

(** The integer a Number holds, from its mantissa scaled by 2^52. *)
Lemma to_Z_scaled (s : bool) (m : positive) (e v : Z) :
  -52 <= e -> 0 < v ->
  Z.pos m * 2 ^ (e + 52) = v * 2 ^ 52 ->
  JS.to_Z (S754_finite s m e) = Some (if s then - v else v).
Proof.
  intros He Hv H. unfold JS.to_Z.
  destruct (0 <=? e) eqn:E0.
  - apply Z.leb_le in E0.
    rewrite Z.pow_add_r in H by lia.
    assert (Hm : Z.pos m * 2 ^ e = v).
    { apply Z.mul_cancel_r with (p := 2 ^ 52); [lia|]. lia. }
    destruct s; f_equal; lia.
  - apply Z.leb_gt in E0.
    pose proof (pow2_pos (- e) ltac:(lia)) as HP.
    assert (E52 : 2 ^ 52 = 2 ^ (e + 52) * 2 ^ (- e))
      by (rewrite <- Z.pow_add_r by lia; f_equal; lia).
    pose proof (pow2_pos (e + 52) ltac:(lia)) as HK.
    assert (Hm : Z.pos m = v * 2 ^ (- e)).
    { apply Z.mul_cancel_r with (p := 2 ^ (e + 52)); [lia|].
      rewrite H, E52. ring. }
    rewrite Hm, Z.mod_mul by lia. cbn [Z.eqb].
    destruct s; f_equal.
    + replace (Z.neg m) with (- v * 2 ^ (- e)) by lia.
      apply Z.div_mul. lia.
    + apply Z.div_mul. lia.
Qed.

(** An integer of at most 54 bits given with 52 more bits after the point
    normalizes to the Number that holds it. *)
Lemma normalize_exact (M v : Z) :
  M = v * 2 ^ 52 -> Z.abs v <= 2 ^ 53 ->
  JS.to_Z (binary_normalize 53 1024 M (-52) false) = Some v.
Proof.
  intros HM Hv.
  assert (Hgen : forall (s : bool) (p : positive) (w : Z),
            0 < w <= 2 ^ 53 -> Z.pos p = w * 2 ^ 52 ->
            JS.to_Z (binary_round 53 1024 s p (-52))
            = Some (if s then - w else w)).
  { clear. intros s p w Hw Hp.
    pose proof (digits2_pos_bounds p) as Hdig.
    set (d := Z.pos (digits2_pos p)) in *.
    assert (Hd : 53 <= d <= 106).
    { split.
      - assert (52 < d); [|lia]. apply pow2_lt_exponent; lia.
      - assert (d - 1 < 106); [|lia]. apply pow2_lt_exponent; lia. }
    unfold binary_round. fold d.
    rewrite (fexp_normal (d + -52)) by lia.
    unfold shl_align.
    destruct (d + -52 - 53 - -52) as [|k|k] eqn:Ek; [| |lia].
    - destruct (binary_round_aux_near s p (-52) loc_Exact (Z.pos p) 1)
        as (m & e & Hres & Hm & He & Hnear);
        [lia|apply located_exact; lia|fold d; lia|fold d; lia|fold d; lia|].
      fold d in He, Hnear. rewrite Hres.
      apply to_Z_scaled; [lia|lia|].
      replace (d - 53) with 0 in Hnear by lia.
      replace (e - -52) with (e + 52) in Hnear by lia.
      change (2 ^ 0) with 1 in Hnear. lia.
    - destruct (binary_round_aux_near s p (-52) loc_Exact (Z.pos p) 1)
        as (m & e & Hres & Hm & He & Hnear);
        [lia|apply located_exact; lia|fold d; lia|fold d; lia|fold d; lia|].
      fold d in He, Hnear. rewrite Hres.
      apply to_Z_scaled; [lia|lia|].
      replace (e - -52) with (e + 52) in Hnear by lia.
      rewrite <- Hp.
      (* both sides are multiples of 2^(d-53) *)
      pose proof (pow2_pos (d - 53) ltac:(lia)) as HB.
      assert (HK : 2 ^ (e + 52) = 2 ^ (d - 53) * 2 ^ (e + 52 - (d - 53)))
        by (rewrite <- Z.pow_add_r by lia; f_equal; lia).
      assert (Hdiv : exists u, Z.pos p = 2 ^ (d - 53) * u).
      { destruct (Z_le_gt_dec (d - 53) 52) as [Hle|Hgt].
        - exists (w * 2 ^ (52 - (d - 53))). rewrite Hp.
          replace (2 ^ 52) with (2 ^ (d - 53) * 2 ^ (52 - (d - 53)))
            by (rewrite <- Z.pow_add_r by lia; f_equal; lia).
          ring.
        - assert (Ed : d = 106) by lia.
          assert (w = 2 ^ 53).
          { rewrite Ed in Hdig. change (2 ^ (106 - 1)) with (2 ^ 53 * 2 ^ 52) in Hdig.
            lia. }
          subst w. exists (2 ^ 52). rewrite Hp, Ed. reflexivity. }
      destruct Hdiv as [u Hu].
      set (B := 2 ^ (d - 53)) in *. set (K' := 2 ^ (e + 52 - (d - 53))) in *.
      rewrite HK in Hnear |- *. rewrite Hu in Hnear |- *.
      assert (Hz : Z.pos m * K' - u = 0).
      { assert (H1 : - B <= B * (2 * (Z.pos m * K' - u)) <= B) by lia.
        assert (- 1 <= 2 * (Z.pos m * K' - u) <= 1).
        { split; apply Z.mul_le_mono_pos_l with (p := B); lia. }
        lia. }
      replace (Z.pos m * (B * K')) with (B * (Z.pos m * K')) by ring.
      f_equal. lia. }
  destruct M as [|p|p]; cbn [binary_normalize].
  - assert (v = 0) by lia. subst v. reflexivity.
  - rewrite (Hgen false p v); [reflexivity|lia|lia].
  - rewrite (Hgen true p (- v)); [f_equal; lia|lia|lia].
Qed.

Lemma of_Z_1 : JS.of_Z 1 = S754_finite false 4503599627370496 (-52).
Proof. vm_compute. reflexivity. Qed.

(** Adding or subtracting one is exact on the integers within 53 bits. *)
Lemma add_one_exact (n : Z) :
  - 2 ^ 53 < n < 2 ^ 53 ->
  JS.to_Z (JS.add (JS.of_Z n) (JS.of_Z 1)) = Some (n + 1).
Proof.
  intros Hn. destruct (Z.eq_dec n 0) as [->|Hn0]; [vm_compute; reflexivity|].
  destruct (of_Z_nonzero n Hn0 ltac:(lia)) as (m & e & E & He & Hv).
  rewrite E, of_Z_1. unfold JS.add, JS.prec, JS.emax. cbn [SFadd].
  rewrite Z.min_r by lia.
  apply normalize_exact; [|lia].
  pose proof (shl_align_52 m e He) as H1.
  pose proof (shl_align_52 4503599627370496 (-52) ltac:(lia)) as H2.
  change (Z.pos 4503599627370496 * 2 ^ (-52 + 52)) with (2 ^ 52) in H2.
  assert (Hm : Z.pos (fst (shl_align m e (-52))) = Z.abs n * 2 ^ 52).
  { rewrite H1, Hv, <- Z.mul_assoc, <- Z.pow_add_r by lia.
    f_equal. f_equal. lia. }
  unfold cond_Zopp at 2. rewrite H2, Hm.
  unfold cond_Zopp. destruct (Z.ltb_spec n 0); lia.
Qed.

Lemma sub_one_exact (n : Z) :
  - 2 ^ 53 < n < 2 ^ 53 ->
  JS.to_Z (JS.sub (JS.of_Z n) (JS.of_Z 1)) = Some (n - 1).
Proof.
  intros Hn. destruct (Z.eq_dec n 0) as [->|Hn0]; [vm_compute; reflexivity|].
  destruct (of_Z_nonzero n Hn0 ltac:(lia)) as (m & e & E & He & Hv).
  rewrite E, of_Z_1. unfold JS.sub, JS.prec, JS.emax. cbn [SFsub].
  rewrite Z.min_r by lia.
  apply normalize_exact; [|lia].
  pose proof (shl_align_52 m e He) as H1.
  pose proof (shl_align_52 4503599627370496 (-52) ltac:(lia)) as H2.
  change (Z.pos 4503599627370496 * 2 ^ (-52 + 52)) with (2 ^ 52) in H2.
  assert (Hm : Z.pos (fst (shl_align m e (-52))) = Z.abs n * 2 ^ 52).
  { rewrite H1, Hv, <- Z.mul_assoc, <- Z.pow_add_r by lia.
    f_equal. f_equal. lia. }
  unfold cond_Zopp at 2. rewrite H2, Hm.
  unfold cond_Zopp. destruct (Z.ltb_spec n 0); lia.
Qed.


(* ===================================================================== *)
(** * Percentages                                                         *)
(* ===================================================================== *)

(** The arithmetic behind the percentage: a value within the two rounding
    errors of [100 * c / t] falls in the same unit interval around an
    integer as the exact value, unless the exact value is closer than 2^-45
    to a value half way between two integers. *)
Lemma round_of_near (c t M1 P1 M2 P2 : Z) :
  0 < c <= t ->
  2 ^ 52 <= P1 -> 2 ^ 46 <= P2 ->
  - t <= 2 * (M1 * t - c * P1) <= t ->
  - P1 <= 2 * (M2 * P1 - 100 * M1 * P2) <= P1 ->
  let R := (200 * c + t) / (2 * t) in
  let rho := (200 * c + t) mod (2 * t) in
  let r := (2 * M2 + P2) / (2 * P2) in
  (t <= rho * 2 ^ 44 -> t <= (2 * t - rho) * 2 ^ 44 -> r = R)
  /\ (rho * 2 ^ 44 < t -> r = R \/ r = R - 1)
  /\ ((2 * t - rho) * 2 ^ 44 < t -> r = R \/ r = R + 1).
Proof.
  intros Hc HP1 HP2 E1 E2 R rho r.
  pose proof (Z.div_mod (200 * c + t) (2 * t) ltac:(lia)) as Hdm.
  pose proof (Z.mod_pos_bound (200 * c + t) (2 * t) ltac:(lia)) as Hrho.
  fold R rho in Hdm. fold rho in Hrho.
  set (d1 := 2 * (M1 * t - c * P1)) in *.
  set (d2 := 2 * (M2 * P1 - 100 * M1 * P2)) in *.
  set (A := P1 * P2). set (W := P1 * t).
  set (S := 100 * d1 * P2 + d2 * t).
  assert (HA : 0 < A) by (unfold A; apply Z.mul_pos_pos; lia).
  assert (HW : 0 < W) by (unfold W; apply Z.mul_pos_pos; lia).
  assert (HtA : 0 < t * A) by (apply Z.mul_pos_pos; lia).
  assert (HS : - (t * A) < 2 ^ 44 * S < t * A).
  { assert (B1 : - (t * P2) <= d1 * P2 <= t * P2).
    { split.
      - replace (- (t * P2)) with ((- t) * P2) by ring.
        apply Z.mul_le_mono_nonneg_r; lia.
      - apply Z.mul_le_mono_nonneg_r; lia. }
    assert (B2 : - (P1 * t) <= d2 * t <= P1 * t).
    { split.
      - replace (- (P1 * t)) with ((- P1) * t) by ring.
        apply Z.mul_le_mono_nonneg_r; lia.
      - apply Z.mul_le_mono_nonneg_r; lia. }
    assert (B3 : 2 ^ 52 * (t * P2) <= t * A).
    { unfold A. replace (t * (P1 * P2)) with (P1 * (t * P2)) by ring.
      apply Z.mul_le_mono_nonneg_r; [|lia]. apply Z.mul_nonneg_nonneg; lia. }
    assert (B4 : 2 ^ 46 * (P1 * t) <= t * A).
    { unfold A. replace (t * (P1 * P2)) with (P2 * (P1 * t)) by ring.
      apply Z.mul_le_mono_nonneg_r; [|lia]. apply Z.mul_nonneg_nonneg; lia. }
    unfold S. lia. }
  assert (HI : (2 * M2 + P2) * W = (2 * t * R + rho) * A + S).
  { replace (2 * t * R + rho) with (200 * c + t) by lia.
    unfold W, A, S, d1, d2. ring. }
  assert (Hbelow : forall k, (rho + 2 * t * k) * A + S >= 0 -> R - k <= r).
  { intros k H. unfold r. apply Z.div_le_lower_bound; [lia|].
    apply Z.mul_le_mono_pos_r with (p := W); [exact HW|].
    rewrite HI. unfold W, A.
    replace (2 * P2 * (R - k) * (P1 * t))
      with (2 * t * R * (P1 * P2) - 2 * t * k * (P1 * P2)) by ring.
    fold A. lia. }
  assert (Habove : forall k, rho * A + S < 2 * t * k * A -> r < R + k).
  { intros k H. unfold r. apply Z.div_lt_upper_bound; [lia|].
    apply Z.mul_lt_mono_pos_r with (p := W); [exact HW|].
    rewrite HI. unfold W, A.
    replace (2 * P2 * (R + k) * (P1 * t))
      with (2 * t * R * (P1 * P2) + 2 * t * k * (P1 * P2)) by ring.
    fold A. lia. }
  assert (HrA : 0 <= rho * A) by (apply Z.mul_nonneg_nonneg; lia).
  assert (HrA2 : rho * A <= 2 * t * A).
  { replace (2 * t * A) with ((2 * t) * A) by ring.
    apply Z.mul_le_mono_nonneg_r; lia. }
  split; [|split].
  - intros Hlo Hhi.
    assert (t * A <= rho * 2 ^ 44 * A) by (apply Z.mul_le_mono_nonneg_r; lia).
    assert (t * A <= (2 * t - rho) * 2 ^ 44 * A)
      by (apply Z.mul_le_mono_nonneg_r; lia).
    assert (R - 0 <= r) by (apply Hbelow; lia).
    assert (r < R + 1) by (apply Habove; lia).
    lia.
  - intros Hnear.
    assert (R - 1 <= r) by (apply Hbelow; lia).
    assert (rho * A <= t * A) by (apply Z.mul_le_mono_nonneg_r; lia).
    assert (r < R + 1) by (apply Habove; lia).
    lia.
  - intros Hnear.
    assert (t * A <= rho * A) by (apply Z.mul_le_mono_nonneg_r; lia).
    assert (R - 0 <= r) by (apply Hbelow; lia).
    assert (r < R + 2) by (apply Habove; lia).
    lia.
Qed.

(** The expression of the page on a count and a total. *)
Lemma percentage_rounds_general (c t : Z) :
  0 <= c <= t -> 0 < t < 2 ^ 53 ->
  Spec.rounds_half_up_nearly
    (JS.Math_round (JS.mul (JS.div (JS.of_Z c) (JS.of_Z t)) (JS.of_Z 100)))
    c t.
Proof.
  intros Hc Ht. unfold Spec.rounds_half_up_nearly, Spec.round_half_up,
    Spec.above_half_way. cbv zeta.
  destruct (Z.eq_dec c 0) as [->|Hc0].
  - (* nothing of the total *)
    destruct (of_Z_pos t) as (mt & et & Et & _); [lia|].
    rewrite Et, of_Z_100.
    replace ((200 * 0 + t) / (2 * t)) with 0
      by (symmetry; apply Z.div_small; lia).
    replace ((200 * 0 + t) mod (2 * t)) with t
      by (symmetry; apply Z.mod_small; lia).
    split; [intros _ _; reflexivity|]. split; intros H; exfalso; lia.
  - destruct (div_near c t) as (m1 & e1 & Ediv & Hm1 & He1 & E1); [lia|lia|].
    destruct (mul_100_near m1 e1 Hm1) as (m2 & e2 & Emul & Hm2 & He2 & E2);
      [lia|].
    rewrite Ediv, Emul. unfold JS.Math_round.
    destruct (0 <=? e2) eqn:E0; [apply Z.leb_le in E0; lia|].
    cbv zeta.
    set (M1 := Z.pos m1) in *. set (M2 := Z.pos m2) in *.
    pose proof (pow2_pos (- e1) ltac:(lia)) as HP1.
    pose proof (pow2_pos (- e2) ltac:(lia)) as HP2.
    assert (H52 : 2 ^ 52 <= 2 ^ (- e1)) by (apply Z.pow_le_mono_r; lia).
    assert (Hsplit : 2 ^ (1 - e2) = 2 * 2 ^ (- e2)).
    { replace (1 - e2) with (1 + - e2) by lia.
      rewrite Z.pow_add_r by lia. reflexivity. }
    rewrite Hsplit.
    set (P1 := 2 ^ (- e1)) in *. set (P2 := 2 ^ (- e2)) in *.
    (* the scale of the product *)
    assert (HM1 : M1 <= P1).
    { assert (c * P1 <= t * P1) by (apply Z.mul_le_mono_nonneg_r; lia).
      assert (H2 : 2 * M1 * t <= (2 * P1 + 1) * t) by lia.
      apply Z.mul_le_mono_pos_r in H2; lia. }
    assert (H46 : 2 ^ 46 <= P2).
    { assert (M1 * P2 <= P1 * P2) by (apply Z.mul_le_mono_nonneg_r; lia).
      assert (H2 : 2 * M2 * P1 <= (200 * P2 + 1) * P1) by lia.
      apply Z.mul_le_mono_pos_r in H2; [|lia].
      assert (H45 : 2 ^ 45 < P2) by lia.
      assert (45 < - e2) by (apply pow2_lt_exponent; [lia|lia|exact H45]).
      unfold P2. apply Z.pow_le_mono_r; lia. }
    destruct (round_of_near c t M1 P1 M2 P2 ltac:(lia) H52 H46 E1 E2)
      as (Hexact & Hbelow & Habove).
    set (r := (2 * M2 + P2) / (2 * P2)) in *.
    assert (Hpct : (if r =? 0 return JS.number
                    then S754_zero false else JS.of_Z r) = JS.of_Z r).
    { destruct (Z.eqb_spec r 0) as [->|]; reflexivity. }
    rewrite Hpct. split; [|split].
    + intros Hlo Hhi. rewrite (Hexact Hlo Hhi). reflexivity.
    + intros Hn. destruct (Hbelow Hn) as [-> | ->]; [left|right]; reflexivity.
    + intros Hn. destruct (Habove Hn) as [-> | ->]; [left|right]; reflexivity.
Qed.

(** For totals up to 2^44 only a tie is that close to a half-way value. *)
Lemma nearly_off_ties (pct : JS.number) (c t : Z) :
  0 < t <= 2 ^ 44 ->
  Spec.rounds_half_up_nearly pct c t -> Spec.rounds_half_up_off_ties pct c t.
Proof.
  intros Ht (Hexact & Hbelow & _).
  unfold Spec.rounds_half_up_off_ties, Spec.is_tie.
  unfold Spec.above_half_way in *. cbv zeta in *.
  pose proof (Z.mod_pos_bound (200 * c + t) (2 * t) ltac:(lia)) as Hrho.
  set (rho := (200 * c + t) mod (2 * t)) in *.
  destruct (Z.eqb_spec rho 0) as [E|E].
  - split; [discriminate|]. apply Hbelow. lia.
  - assert (H : pct = JS.of_Z (Spec.round_half_up c t)) by (apply Hexact; lia).
    split; [intros _|left]; exact H.
Qed.

Lemma same_eq (x y : JS.number) : JS.same x y = true -> x = y.
Proof.
  destruct x as [a|a| |a m e], y as [b|b| |b n f]; simpl; try discriminate;
    intros H.
  - apply Bool.eqb_prop in H. congruence.
  - apply Bool.eqb_prop in H. congruence.
  - reflexivity.
  - apply andb_true_iff in H. destruct H as [H He].
    apply andb_true_iff in H. destruct H as [Hs Hm].
    apply Bool.eqb_prop in Hs. apply Pos.eqb_eq in Hm. apply Z.eqb_eq in He.
    congruence.
Qed.

Lemma percentage_rounds (db : Prisma.table) (user_id : string) (count : nat) :
  0 < Dashboard.totalProducts db user_id < 2 ^ 53 ->
  Z.of_nat count <= Dashboard.totalProducts db user_id ->
  Spec.rounds_half_up_nearly (Dashboard.percentage db user_id count)
    (Z.of_nat count) (Dashboard.totalProducts db user_id).
Proof.
  intros Ht Hc. unfold Dashboard.percentage.
  destruct (Dashboard.totalProducts db user_id >? 0) eqn:E; [|zbool; lia].
  apply percentage_rounds_general; lia.
Qed.

Lemma count_le_total (db : Prisma.table) (user_id : string) (f : Product -> bool) :
  Z.of_nat (List.length (filter f (Dashboard.allProducts db user_id)))
  <= Dashboard.totalProducts db user_id.
Proof.
  unfold Dashboard.totalProducts, Prisma.count.
  apply inj_le. apply filter_length_le.
Qed.

Lemma percentage_of_nothing (db : Prisma.table) (user_id : string) (count : nat) :
  Dashboard.totalProducts db user_id = 0 ->
  Dashboard.percentage db user_id count = JS.of_Z 0.
Proof.
  intros H. unfold Dashboard.percentage. rewrite H. reflexivity.
Qed.

(** C6 (amended).  Each of inStockPct, lowStockPct and outOfStockPct is
    computed on its own as Math.round of the double-precision value
    (count / total) * 100.  When the total is 0 all three are 0.  For a
    positive total (below 2^53, as every count held in a Number is) the
    result is the half-up rounding of the exact fraction whenever the exact
    value is at least 2^-45 away from every value half-way between two
    integers; at a half-way value, or less than 2^-45 above one, it is that
    rounding or one less, and less than 2^-45 below one it is that rounding
    or one more.  For totals up to 2^44 only the exact half-way values are
    that close: off them the result is the half-up rounding, at them that
    rounding or one less.  For the seven records with quantities 0, 3, 3, 6,
    6, 6, 10 and no threshold the out-of-stock, low-stock and in-stock
    percentages are 14, 29 and 57. *)
Theorem percentages_round_in_double_precision (db : Prisma.table)
    (user_id : string) :
  (Dashboard.totalProducts db user_id = 0 ->
     Dashboard.inStockPercentage db user_id = JS.of_Z 0
     /\ Dashboard.lowStockPercentage db user_id = JS.of_Z 0
     /\ Dashboard.outOfStockPercentage db user_id = JS.of_Z 0)
  /\ (0 < Dashboard.totalProducts db user_id < 2 ^ 53 ->
        Spec.rounds_half_up_nearly (Dashboard.inStockPercentage db user_id)
          (Z.of_nat (Dashboard.inStockCount db user_id))
          (Dashboard.totalProducts db user_id)
        /\ Spec.rounds_half_up_nearly (Dashboard.lowStockPercentage db user_id)
             (Z.of_nat (Dashboard.lowStockCount db user_id))
             (Dashboard.totalProducts db user_id)
        /\ Spec.rounds_half_up_nearly (Dashboard.outOfStockPercentage db user_id)
             (Z.of_nat (Dashboard.outOfStockCount db user_id))
             (Dashboard.totalProducts db user_id))
  /\ (0 < Dashboard.totalProducts db user_id <= 2 ^ 44 ->
        Spec.rounds_half_up_off_ties (Dashboard.inStockPercentage db user_id)
          (Z.of_nat (Dashboard.inStockCount db user_id))
          (Dashboard.totalProducts db user_id)
        /\ Spec.rounds_half_up_off_ties (Dashboard.lowStockPercentage db user_id)
             (Z.of_nat (Dashboard.lowStockCount db user_id))
             (Dashboard.totalProducts db user_id)
        /\ Spec.rounds_half_up_off_ties (Dashboard.outOfStockPercentage db user_id)
             (Z.of_nat (Dashboard.outOfStockCount db user_id))
             (Dashboard.totalProducts db user_id))
  /\ (Dashboard.outOfStockPercentage seven_products "u" = JS.of_Z 14
      /\ Dashboard.lowStockPercentage seven_products "u" = JS.of_Z 29
      /\ Dashboard.inStockPercentage seven_products "u" = JS.of_Z 57).
Proof.
  split; [|split; [|split]].
  - intros H. repeat split; apply percentage_of_nothing, H.
  - intros H. repeat apply conj; apply percentage_rounds; try exact H;
      apply count_le_total.
  - intros H. repeat apply conj; apply nearly_off_ties; try exact H;
      apply percentage_rounds; try apply count_le_total; lia.
  - repeat split; vm_compute; reflexivity.
Qed.

Lemma percentages_round_in_double_precision_witness :
  Dashboard.inStockPercentage [] "u" = JS.of_Z 0
  /\ Spec.rounds_half_up_nearly
       (Dashboard.inStockPercentage forty_products "u") 23 40
  /\ Spec.rounds_half_up_off_ties
       (Dashboard.inStockPercentage forty_products "u") 23 40.
Proof.
  destruct (percentages_round_in_double_precision [] "u") as [Hzero _].
  destruct (percentages_round_in_double_precision forty_products "u")
    as (_ & Hany & Hpos & _).
  split; [|split].
  - apply Hzero. reflexivity.
  - refine (proj1 (Hany _)). vm_compute. split; reflexivity.
  - refine (proj1 (Hpos _)). vm_compute. split; [reflexivity|discriminate].
Defined.

(** C6 (as stated, refuted).  With 40 records of which 23 are in stock the
    exact fraction is 57.5, which rounds half up to 58, but the double
    (23 / 40) * 100 is just below 57.5 and the page shows 57. *)
Lemma percentage_below_exact_half_up :
  Dashboard.totalProducts forty_products "u" = 40
  /\ Dashboard.inStockCount forty_products "u" = 23%nat
  /\ Spec.round_half_up 23 40 = 58
  /\ Dashboard.inStockPercentage forty_products "u" = JS.of_Z 57
  /\ Dashboard.inStockPercentage forty_products "u"
     <> JS.of_Z (Spec.round_half_up 23 40).
Proof.
  repeat apply conj; try (vm_compute; reflexivity).
  vm_compute. discriminate.
Qed.

(** Beyond 2^44 a value that is no tie can be that close to one: of
    70368744177673 records (a little above 2^46), 48202589761706 make 68.5
    percent less a fraction below the precision of the quotient; the exact
    value rounds to 68, the double is 68.5 and rounds to 69. *)
Example percentage_off_for_large_total :
  Spec.is_tie 48202589761706 70368744177673 = false
  /\ Spec.round_half_up 48202589761706 70368744177673 = 68
  /\ 2 * 70368744177673
     - Spec.above_half_way 48202589761706 70368744177673 = 1
  /\ JS.Math_round
       (JS.mul (JS.div (JS.of_Z 48202589761706) (JS.of_Z 70368744177673))
               (JS.of_Z 100))
     = JS.of_Z 69.
Proof. repeat split; vm_compute; reflexivity. Qed.


(* ===================================================================== *)
(** * Deleting a product                                                  *)
(* ===================================================================== *)

Lemma deleteMany_filter (where_ : Product -> bool) (db : Prisma.table) :
  Prisma.deleteMany where_ db
  = (Z.of_nat (List.length (filter where_ db)),
     filter (fun p => negb (where_ p)) db).
Proof.
  induction db as [|p db IH]; [reflexivity|].
  simpl. rewrite IH. destruct (where_ p); simpl; f_equal. lia.
Qed.

Lemma filter_none {A : Type} (f : A -> bool) (l : list A) :
  (forall a, In a l -> f a = false) -> filter f l = [].
Proof.
  induction l as [|a l IH]; intros H; [reflexivity|]. simpl.
  rewrite (H a (or_introl eq_refl)). apply IH.
  intros b Hb. apply H. right. exact Hb.
Qed.

Lemma filter_all {A : Type} (f : A -> bool) (l : list A) :
  (forall a, In a l -> f a = true) -> filter f l = l.
Proof.
  induction l as [|a l IH]; intros H; [reflexivity|]. simpl.
  rewrite (H a (or_introl eq_refl)). f_equal. apply IH.
  intros b Hb. apply H. right. exact Hb.
Qed.

Lemma targeted_iff (user_id id_ : string) (p : Product) :
  String.eqb (id p) id_ && String.eqb (userId p) user_id = true
  <-> id p = id_ /\ userId p = user_id.
Proof. rewrite andb_true_iff, !String.eqb_eq. reflexivity. Qed.

(** The submitted id is the text of the form's id field. *)
Lemma submitted_id_field (formData : Actions.FormData) (id_ : string) :
  Actions.formData_get formData "id" = Actions.VString id_ ->
  Actions.submitted_id formData = id_.
Proof.
  intros H. unfold Actions.submitted_id, Actions.or_else. rewrite H.
  cbn [Actions.truthy].
  destruct (String.eqb_spec id_ EmptyString) as [->|Hne]; reflexivity.
Qed.

(** C8.  For a delete request whose id field is the text [id_],
    deleteProduct removes exactly the records whose id is [id_] and whose
    userId is the current user's id: the others stay, in their order, and
    the number of rows affected is the number of such records.  When no
    record matches (an id that does not exist, or one owned by another user)
    zero rows are affected, the product store is unchanged and no error is
    signalled. *)
Theorem deleteProduct_scoped (user_id : string) (formData : Actions.FormData)
    (db : Prisma.table) (id_ : string) :
  Actions.formData_get formData "id" = Actions.VString id_ ->
  (forall p, In p (snd (Actions.deleteProduct user_id formData db))
             <-> In p db /\ ~ (id p = id_ /\ userId p = user_id))
  /\ Actions.deleteProduct user_id formData db
     = (Actions.Normal,
        filter (fun p => negb (String.eqb (id p) id_
                               && String.eqb (userId p) user_id)) db)
  /\ Actions.deleteProduct user_id formData db
     = (Actions.Normal,
        snd (Prisma.deleteMany
               (fun p => String.eqb (id p) id_
                         && String.eqb (userId p) user_id) db))
  /\ fst (Prisma.deleteMany
            (fun p => String.eqb (id p) id_
                      && String.eqb (userId p) user_id) db)
     = Z.of_nat (List.length
                   (filter (fun p => String.eqb (id p) id_
                                     && String.eqb (userId p) user_id) db))
  /\ ((forall p, In p db -> ~ (id p = id_ /\ userId p = user_id)) ->
      Actions.deleteProduct user_id formData db = (Actions.Normal, db)
      /\ fst (Prisma.deleteMany
                (fun p => String.eqb (id p) id_
                          && String.eqb (userId p) user_id) db) = 0).
Proof.
  intros Hid.
  assert (Hdel : Actions.deleteProduct user_id formData db
     = (Actions.Normal,
        filter (fun p => negb (String.eqb (id p) id_
                               && String.eqb (userId p) user_id)) db)).
  { unfold Actions.deleteProduct. rewrite (submitted_id_field _ _ Hid).
    rewrite deleteMany_filter. reflexivity. }
  split; [|split; [|split; [|split]]].
  - intros p. rewrite Hdel. simpl. rewrite filter_In, negb_true_iff.
    rewrite <- targeted_iff.
    destruct (String.eqb (id p) id_ && String.eqb (userId p) user_id);
      intuition congruence.
  - exact Hdel.
  - rewrite Hdel, deleteMany_filter. reflexivity.
  - rewrite deleteMany_filter. reflexivity.
  - intros Hnone.
    assert (Hf : forall p, In p db ->
               String.eqb (id p) id_ && String.eqb (userId p) user_id = false).
    { intros p Hp. apply not_true_is_false. rewrite targeted_iff.
      apply Hnone, Hp. }
    split.
    + rewrite Hdel. f_equal. apply filter_all. intros p Hp.
      rewrite (Hf p Hp). reflexivity.
    + rewrite deleteMany_filter. simpl. rewrite filter_none by exact Hf.
      reflexivity.
Qed.

Lemma deleteProduct_scoped_witness :
  Actions.deleteProduct "u1" [("id", Actions.Text "a")]%string three_records
  = (Actions.Normal, [record_of "a" "u2"; record_of "b" "u1"])
  /\ Actions.deleteProduct "u3" [("id", Actions.Text "a")]%string three_records
     = (Actions.Normal, three_records)
  /\ Actions.deleteProduct "u1" [("id", Actions.Text "c")]%string three_records
     = (Actions.Normal, three_records).
Proof.
  split; [|split].
  - rewrite (proj1 (proj2 (deleteProduct_scoped "u1"
                             [("id", Actions.Text "a")]%string three_records
                             "a" eq_refl))).
    reflexivity.
  - refine (proj1 (proj2 (proj2 (proj2 (proj2
              (deleteProduct_scoped "u3" [("id", Actions.Text "a")]%string
                 three_records "a" eq_refl)))) _)).
    intros p Hin [_ Hu]. simpl in Hin.
    repeat (destruct Hin as [<-|Hin]; [discriminate Hu|]). destruct Hin.
  - refine (proj1 (proj2 (proj2 (proj2 (proj2
              (deleteProduct_scoped "u1" [("id", Actions.Text "c")]%string
                 three_records "c" eq_refl)))) _)).
    intros p Hin [Hi _]. simpl in Hin.
    repeat (destruct Hin as [<-|Hin]; [discriminate Hi|]). destruct Hin.
Defined.

(* ===================================================================== *)
(** * Creating a product                                                  *)
(* ===================================================================== *)

Lemma prisma_create_adds (user_id : string) (env : Actions.PrismaEnv)
    (data : Actions.ProductData) (db : Prisma.table) :
  snd (Actions.prisma_create user_id env data db) = db
  \/ exists p,
       snd (Actions.prisma_create user_id env data db) = db ++ [p]
       /\ userId p = user_id
       /\ name p = Actions.data_name data
       /\ sku p = Actions.data_sku data
       /\ price p = Actions.data_price data
       /\ Some (quantity p) = JS.to_Z (Actions.data_quantity data)
       /\ (Actions.data_lowStockAt data = None -> lowStockAt p = None).
Proof.
  unfold Actions.prisma_create.
  destruct (Actions.write_succeeds env); [|left; reflexivity].
  destruct (JS.to_Z (Actions.data_quantity data)) as [q|]; [|left; reflexivity].
  destruct (Actions.data_lowStockAt data) as [n|].
  - destruct (JS.to_Z n); [|left; reflexivity].
    right. eexists. simpl. repeat split. discriminate.
  - right. eexists. simpl. repeat split.
Qed.

Lemma safeParse_without_lowStockAt (StringToNumber : string -> JS.number)
    (zod4 : bool) (o : Actions.object) (data : Actions.ProductData) :
  Actions.prop o "lowStockAt" = Actions.VUndefined ->
  Actions.ProductSchema_safeParse StringToNumber zod4 o = Actions.OK data ->
  Actions.data_lowStockAt data = None.
Proof.
  intros Hp. unfold Actions.ProductSchema_safeParse. rewrite Hp.
  change (Actions.schema_lowStockAt StringToNumber zod4 Actions.VUndefined)
    with (@Actions.OK (option JS.number) None).
  destruct (Actions.schema_name (Actions.prop o "name")),
    (Actions.schema_price StringToNumber zod4 (Actions.prop o "price")),
    (Actions.schema_quantity StringToNumber zod4 (Actions.prop o "quantity")),
    (Actions.schema_sku (Actions.prop o "sku"));
    intros H; inversion H; reflexivity.
Qed.

Lemma createProduct_outcomes (StringToNumber : string -> JS.number)
    (zod4 : bool) (user_id : string) (env : Actions.PrismaEnv)
    (formData : Actions.FormData) (db : Prisma.table) :
  snd (Actions.createProduct StringToNumber zod4 user_id env formData db) = db
  \/ exists p,
       snd (Actions.createProduct StringToNumber zod4 user_id env formData db)
       = db ++ [p]
       /\ userId p = user_id /\ lowStockAt p = None.
Proof.
  unfold Actions.createProduct.
  destruct (Actions.ProductSchema_safeParse _ _ _) as [data|issue] eqn:Hparse;
    [|left; reflexivity].
  apply safeParse_without_lowStockAt in Hparse; [|reflexivity].
  destruct (prisma_create_adds user_id env data db) as [H|[p (H & Hu & _ & _ & _ & _ & Hl)]];
    destruct (Actions.prisma_create user_id env data db) as [c db'];
    simpl in H; subst db'.
  - left. destruct c; reflexivity.
  - right. exists p. split; [destruct c; reflexivity|]. split; [exact Hu|].
    apply Hl, Hparse.
Qed.

Lemma createProduct_validation_failure (StringToNumber : string -> JS.number)
    (zod4 : bool) (user_id : string) (env : Actions.PrismaEnv)
    (formData : Actions.FormData) (db : Prisma.table) (issue : string) :
  Actions.ProductSchema_safeParse StringToNumber zod4
    [ ("name", Actions.formData_get formData "name");
      ("price", Actions.formData_get formData "price");
      ("quantity", Actions.formData_get formData "quantity");
      ("sku", Actions.or_else (Actions.formData_get formData "sku")
                              Actions.VUndefined) ]%string
  = Actions.Invalid issue ->
  Actions.createProduct StringToNumber zod4 user_id env formData db
  = (Actions.Throw (Actions.Error "Validation failed"), db).
Proof.
  intros H. unfold Actions.createProduct. rewrite H. reflexivity.
Qed.

(** C7 (the code at the failing input).  A form that supplies name, price,
    quantity and lowStockAt = 10 passes validation and a record is written
    for the current user, but without its lowStockAt: createProduct does not
    hand the form's lowStockAt to the schema, so whatever the form, the
    store is unchanged or gains one record of the current user whose
    lowStockAt is unset. *)
Theorem createProduct_drops_lowStockAt :
  Actions.formData_get widget_form "lowStockAt" = Actions.VString "10"
  /\ Actions.createProduct Actions.decimal_StringToNumber true "u1"
       (Actions.mkEnv "id1" 1000 true) widget_form []
     = (Actions.Throw (Actions.Error "Failed to create product"),
        [ {| id := "id1"; userId := "u1"; name := "Widget"; sku := None;
             price := JS.of_Z 12; quantity := 3; lowStockAt := None;
             createdAt := 1000 |} ])
  /\ (forall StringToNumber zod4 user_id env formData db,
        snd (Actions.createProduct StringToNumber zod4 user_id env formData db)
        = db
        \/ exists p,
             snd (Actions.createProduct StringToNumber zod4 user_id env
                    formData db) = db ++ [p]
             /\ userId p = user_id /\ lowStockAt p = None).
Proof.
  split; [reflexivity|]. split; [vm_compute; reflexivity|].
  intros. apply createProduct_outcomes.
Qed.


(* ===================================================================== *)
(** * Navigation URLs                                                     *)
(* ===================================================================== *)

Local Open Scope string_scope.

Lemma append_assoc (a b c : string) : (a ++ b) ++ c = a ++ (b ++ c).
Proof. induction a as [|x a IH]; simpl; [reflexivity|]. rewrite IH. reflexivity. Qed.

Lemma contains_append (c : ascii) (a b : string) :
  URL.contains c (a ++ b) = URL.contains c a || URL.contains c b.
Proof.
  induction a as [|x a IH]; simpl; [reflexivity|].
  rewrite IH. apply orb_assoc.
Qed.

(** On each byte: the serialization holds none of the separators and is
    read back to the byte, whatever follows. *)
Lemma encode_byte_separators (c : ascii) :
  URL.contains "&" (URL.encode_byte c) = false
  /\ URL.contains "=" (URL.encode_byte c) = false
  /\ URL.contains "#" (URL.encode_byte c) = false.
Proof.
  destruct c as [[] [] [] [] [] [] [] []]; vm_compute; repeat split.
Qed.

Lemma plus_to_space_append (a b : string) :
  URL.plus_to_space (a ++ b) = URL.plus_to_space a ++ URL.plus_to_space b.
Proof.
  induction a as [|x a IH]; simpl; [reflexivity|]. rewrite IH. reflexivity.
Qed.

Lemma decode_encode_byte (c : ascii) (rest : string) :
  URL.percent_decode (URL.plus_to_space (URL.encode_byte c) ++ rest)
  = String c (URL.percent_decode rest).
Proof.
  destruct c as [[] [] [] [] [] [] [] []]; reflexivity.
Qed.

Lemma decode_encode (s : string) : URL.decode (URL.encode s) = s.
Proof.
  unfold URL.decode.
  induction s as [|c s IH]; [reflexivity|].
  simpl URL.encode. rewrite plus_to_space_append, decode_encode_byte, IH.
  reflexivity.
Qed.

Lemma encode_separators (s : string) :
  URL.contains "&" (URL.encode s) = false
  /\ URL.contains "=" (URL.encode s) = false
  /\ URL.contains "#" (URL.encode s) = false.
Proof.
  induction s as [|c s (IH1 & IH2 & IH3)]; [repeat split|].
  simpl URL.encode. rewrite !contains_append, IH1, IH2, IH3.
  destruct (encode_byte_separators c) as (-> & -> & ->). repeat split.
Qed.

Lemma split_first_at (sep : ascii) (a b : string) :
  URL.contains sep a = false ->
  URL.split_first sep (a ++ String sep b) = (a, Some b).
Proof.
  induction a as [|x a IH]; simpl; intros H.
  - rewrite Ascii.eqb_refl. reflexivity.
  - apply orb_false_iff in H. destruct H as [Hx Ha].
    rewrite Hx, (IH Ha). reflexivity.
Qed.

Lemma split_first_none (sep : ascii) (a : string) :
  URL.contains sep a = false -> URL.split_first sep a = (a, None).
Proof.
  induction a as [|x a IH]; simpl; intros H; [reflexivity|].
  apply orb_false_iff in H. destruct H as [Hx Ha].
  rewrite Hx, (IH Ha). reflexivity.
Qed.

Lemma split_on_none (sep : ascii) (a : string) :
  URL.contains sep a = false -> URL.split_on sep a = [a].
Proof.
  induction a as [|x a IH]; simpl; intros H; [reflexivity|].
  apply orb_false_iff in H. destruct H as [Hx Ha].
  rewrite Hx, (IH Ha). reflexivity.
Qed.

Lemma split_on_at (sep : ascii) (a b : string) :
  URL.contains sep a = false ->
  URL.split_on sep (a ++ String sep b) = a :: URL.split_on sep b.
Proof.
  induction a as [|x a IH]; simpl; intros H.
  - rewrite Ascii.eqb_refl. reflexivity.
  - apply orb_false_iff in H. destruct H as [Hx Ha].
    rewrite Hx, (IH Ha). reflexivity.
Qed.

Lemma serialize_pair_separators (k v : string) :
  URL.contains "&" (URL.serialize_pair k v) = false
  /\ URL.contains "#" (URL.serialize_pair k v) = false.
Proof.
  unfold URL.serialize_pair.
  destruct (encode_separators k) as (Hk1 & _ & Hk3).
  destruct (encode_separators v) as (Hv1 & _ & Hv3).
  rewrite !contains_append. simpl. rewrite Hk1, Hk3, Hv1, Hv3. split; reflexivity.
Qed.

Lemma serialize_pair_nonempty (k v : string) :
  String.eqb (URL.serialize_pair k v) EmptyString = false.
Proof.
  unfold URL.serialize_pair. destruct (URL.encode k); reflexivity.
Qed.

Lemma parse_pair_serialize_pair (k v : string) :
  URL.parse_pair (URL.serialize_pair k v) = (k, v).
Proof.
  unfold URL.parse_pair, URL.serialize_pair.
  destruct (encode_separators k) as (_ & Hk & _).
  rewrite (split_first_at "=" _ _ Hk), !decode_encode. reflexivity.
Qed.

(** Reading a serialized parameter list gives the list back. *)
Lemma parse_serialize (ps : URL.params) : URL.parse (URL.serialize ps) = ps.
Proof.
  unfold URL.parse.
  induction ps as [|[k v] rest IH]; [reflexivity|].
  destruct (serialize_pair_separators k v) as [Hamp _].
  destruct rest as [|kv rest].
  - simpl URL.serialize. rewrite (split_on_none "&" _ Hamp). simpl.
    rewrite serialize_pair_nonempty. simpl.
    rewrite parse_pair_serialize_pair. reflexivity.
  - change (URL.serialize ((k, v) :: kv :: rest))
      with (URL.serialize_pair k v ++ String "&" (URL.serialize (kv :: rest))).
    rewrite (split_on_at "&" _ _ Hamp). simpl filter.
    rewrite serialize_pair_nonempty. simpl negb. cbv iota.
    rewrite map_cons, parse_pair_serialize_pair. f_equal. exact IH.
Qed.

Lemma serialize_no_hash (ps : URL.params) :
  URL.contains "#" (URL.serialize ps) = false.
Proof.
  induction ps as [|[k v] rest IH]; [reflexivity|].
  destruct (serialize_pair_separators k v) as [_ Hhash].
  destruct rest as [|kv rest]; [exact Hhash|].
  change (URL.serialize ((k, v) :: kv :: rest))
    with (URL.serialize_pair k v ++ String "&" (URL.serialize (kv :: rest))).
  rewrite contains_append, Hhash. simpl. exact IH.
Qed.

Lemma query_of_url (base q : string) :
  URL.contains "?" base = false -> URL.contains "#" base = false ->
  URL.contains "#" q = false ->
  URL.query_of (base ++ String "?" q) = q.
Proof.
  intros Hq Hh Hhq. unfold URL.query_of.
  rewrite (split_first_none "#").
  - simpl fst. rewrite (split_first_at "?" _ _ Hq). reflexivity.
  - rewrite contains_append, Hh. simpl. exact Hhq.
Qed.

Lemma get_obj_set_same (o : URL.params) (k v : string) :
  URL.get k (URL.obj_set o k v) = Some v.
Proof.
  induction o as [|[k' v'] o IH]; simpl.
  - rewrite String.eqb_refl. reflexivity.
  - destruct (String.eqb k' k) eqn:E; simpl; rewrite E; [reflexivity|exact IH].
Qed.

Lemma get_obj_set_other (o : URL.params) (k k0 v : string) :
  k0 <> k -> URL.get k0 (URL.obj_set o k v) = URL.get k0 o.
Proof.
  intros Hne. induction o as [|[k' v'] o IH]; simpl.
  - destruct (String.eqb k k0) eqn:E; [|reflexivity].
    apply String.eqb_eq in E. congruence.
  - destruct (String.eqb k' k) eqn:E; simpl.
    + apply String.eqb_eq in E. subst k'.
      destruct (String.eqb k k0) eqn:E0; [|reflexivity].
      apply String.eqb_eq in E0. congruence.
    + rewrite IH. reflexivity.
Qed.

(** The entries other than [k] are those of the object, in their order. *)
Lemma obj_set_others (o : URL.params) (k v : string) :
  filter (fun kv => negb (String.eqb (fst kv) k)) (URL.obj_set o k v)
  = filter (fun kv => negb (String.eqb (fst kv) k)) o.
Proof.
  induction o as [|[k' v'] o IH]; simpl.
  - rewrite String.eqb_refl. reflexivity.
  - destruct (String.eqb k' k) eqn:E; simpl; rewrite E; simpl.
    + reflexivity.
    + rewrite IH. reflexivity.
Qed.

(** C9.  For every page number n and every map of query parameters the
    caller supplies, the URL that getPageUrl builds (on a base URL that has
    no query or fragment of its own) has a query string that reads back as
    the caller's parameters with page set to n: every parameter other than
    page is there with its value unchanged, in the caller's order, and the
    page parameter is n. *)
Theorem getPageUrl_preserves_params (baseUrl : string)
    (searchParams : URL.params) (n : Z) :
  URL.contains "?" baseUrl = false -> URL.contains "#" baseUrl = false ->
  URL.searchParams_of (Pagination.getPageUrl baseUrl searchParams n)
  = URL.obj_set searchParams "page" (JS.String_of_Z n)
  /\ URL.get "page"
       (URL.searchParams_of (Pagination.getPageUrl baseUrl searchParams n))
     = Some (JS.String_of_Z n)
  /\ (forall k, k <> "page" ->
        URL.get k
          (URL.searchParams_of (Pagination.getPageUrl baseUrl searchParams n))
        = URL.get k searchParams)
  /\ filter (fun kv => negb (String.eqb (fst kv) "page"))
        (URL.searchParams_of (Pagination.getPageUrl baseUrl searchParams n))
     = filter (fun kv => negb (String.eqb (fst kv) "page")) searchParams.
Proof.
  intros Hq Hh.
  assert (Hurl : URL.searchParams_of (Pagination.getPageUrl baseUrl searchParams n)
                 = URL.obj_set searchParams "page" (JS.String_of_Z n)).
  { unfold URL.searchParams_of, Pagination.getPageUrl. cbv zeta.
    rewrite (query_of_url _ _ Hq Hh (serialize_no_hash _)).
    apply parse_serialize. }
  rewrite Hurl. split; [reflexivity|]. split; [apply get_obj_set_same|].
  split; [intros k Hk; apply get_obj_set_other, Hk|apply obj_set_others].
Qed.

Lemma getPageUrl_preserves_params_witness :
  URL.get "q"
    (URL.searchParams_of
       (Pagination.getPageUrl "/inventory"
          [("q", "a b&c=d%"); ("page", "7"); ("pageSize", "5")] 3))
  = Some "a b&c=d%"
  /\ URL.get "page"
       (URL.searchParams_of
          (Pagination.getPageUrl "/inventory"
             [("q", "a b&c=d%"); ("page", "7"); ("pageSize", "5")] 3))
     = Some "3".
Proof.
  destruct (getPageUrl_preserves_params "/inventory"
              [("q", "a b&c=d%"); ("page", "7"); ("pageSize", "5")] 3
              eq_refl eq_refl) as (_ & Hpage & Hother & _).
  split.
  - rewrite Hother by discriminate. reflexivity.
  - rewrite Hpage. reflexivity.
Defined.


Local Open Scope Z_scope.

(* ===================================================================== *)
(** * More on the page window                                             *)
(* ===================================================================== *)

Lemma contiguous_length (lo hi : Z) :
  List.length (Spec.contiguous lo hi) = Z.to_nat (hi + 1 - lo).
Proof. unfold Spec.contiguous. rewrite length_map, length_seq. reflexivity. Qed.

Lemma contiguous_In (lo hi x : Z) :
  In x (Spec.contiguous lo hi) <-> lo <= x <= hi.
Proof.
  unfold Spec.contiguous. rewrite in_map_iff. split.
  - intros (k & <- & Hk). apply in_seq in Hk. lia.
  - intros H. exists (Z.to_nat (x - lo)). split; [lia|]. apply in_seq. lia.
Qed.

Lemma contiguous_increasing (n : nat) (lo hi : Z) :
  Z.to_nat (hi + 1 - lo) = n -> StronglySorted Z.lt (Spec.contiguous lo hi).
Proof.
  revert lo. induction n as [|n IH]; intros lo Hn.
  - rewrite contiguous_empty by lia. constructor.
  - rewrite contiguous_step by lia. constructor; [apply IH; lia|].
    apply Forall_forall. intros x Hx. apply contiguous_In in Hx. lia.
Qed.

Lemma page_numbers_app (l l' : list Pagination.token) :
  PageWindow.page_numbers (l ++ l')
  = (PageWindow.page_numbers l ++ PageWindow.page_numbers l')%list.
Proof. unfold PageWindow.page_numbers. apply flat_map_app. Qed.

Lemma page_numbers_map (l : list Z) :
  PageWindow.page_numbers (map Pagination.PageNo l) = l.
Proof.
  induction l as [|x l IH]; [reflexivity|]. simpl. rewrite IH. reflexivity.
Qed.

Lemma page_numbers_window (currentPage totalPages : Z) :
  PageWindow.page_numbers (Pagination.getVisiblePages currentPage totalPages)
  = (1 :: Spec.contiguous (Z.max 2 (currentPage - 2))
                          (Z.min (totalPages - 1) (currentPage + 2))
       ++ [totalPages])%list.
Proof.
  rewrite getVisiblePages_computeWindow. unfold Spec.computeWindow.
  rewrite !page_numbers_app, page_numbers_map.
  destruct (currentPage - 2 >? 2), (currentPage + 2 <? totalPages - 1);
    reflexivity.
Qed.

Lemma StronglySorted_snoc (l : list Z) (t : Z) :
  StronglySorted Z.lt l -> (forall x, In x l -> x < t) ->
  StronglySorted Z.lt (l ++ [t]).
Proof.
  induction 1 as [|a l Hs IH Ha]; intros Hlt; simpl.
  - repeat constructor.
  - constructor.
    + apply IH. intros x Hx. apply Hlt. right. exact Hx.
    + apply Forall_app. split; [exact Ha|].
      constructor; [apply Hlt; left; reflexivity|constructor].
Qed.

(** X1.  Whatever the current page and the page count, the page window has
    at least two and at most nine tokens, of which at most seven are page
    numbers. *)
Theorem page_window_size (currentPage totalPages : Z) :
  (2 <= List.length (Pagination.getVisiblePages currentPage totalPages) <= 9)%nat
  /\ (List.length (PageWindow.page_numbers
                     (Pagination.getVisiblePages currentPage totalPages))
      <= 7)%nat.
Proof.
  rewrite page_numbers_window.
  rewrite getVisiblePages_computeWindow. unfold Spec.computeWindow.
  rewrite !length_app, length_map. simpl List.length. rewrite length_app.
  rewrite contiguous_length. simpl List.length.
  destruct (currentPage - 2 >? 2), (currentPage + 2 <? totalPages - 1);
    simpl List.length; lia.
Qed.

Lemma page_window_numbers_sorted (currentPage totalPages : Z) :
  1 <= currentPage <= totalPages -> 2 <= totalPages ->
  StronglySorted Z.lt
    (PageWindow.page_numbers (Pagination.getVisiblePages currentPage totalPages))
  /\ In currentPage
        (PageWindow.page_numbers
           (Pagination.getVisiblePages currentPage totalPages)).
Proof.
  intros Hc Ht. rewrite page_numbers_window. split.
  - constructor.
    + apply StronglySorted_snoc.
      * exact (contiguous_increasing _ _ _ eq_refl).
      * intros x Hx. apply contiguous_In in Hx. lia.
    + apply Forall_app. split.
      * apply Forall_forall. intros x Hx. apply contiguous_In in Hx. lia.
      * constructor; [lia|constructor].
  - destruct (Z.eq_dec currentPage 1) as [->|H1]; [left; reflexivity|].
    right. apply in_app_iff.
    destruct (Z.eq_dec currentPage totalPages) as [->|H2];
      [right; left; reflexivity|].
    left. apply contiguous_In. lia.
Qed.

(** X2.  For 1 <= currentPage <= totalPages and totalPages >= 2, the page
    numbers of the window are strictly increasing, start at 1, end at
    totalPages, all lie between 1 and totalPages, and the current page is one
    of them: no page is shown twice and the current page is always shown. *)
Theorem page_window_increasing (currentPage totalPages : Z) :
  1 <= currentPage <= totalPages -> 2 <= totalPages ->
  StronglySorted Z.lt
    (PageWindow.page_numbers (Pagination.getVisiblePages currentPage totalPages))
  /\ hd_error (PageWindow.page_numbers
                 (Pagination.getVisiblePages currentPage totalPages)) = Some 1
  /\ last (PageWindow.page_numbers
             (Pagination.getVisiblePages currentPage totalPages)) 0 = totalPages
  /\ (forall n, In n (PageWindow.page_numbers
                        (Pagination.getVisiblePages currentPage totalPages)) ->
                1 <= n <= totalPages)
  /\ In currentPage
        (PageWindow.page_numbers
           (Pagination.getVisiblePages currentPage totalPages)).
Proof.
  intros Hc Ht. rewrite page_numbers_window.
  set (lo := Z.max 2 (currentPage - 2)).
  set (hi := Z.min (totalPages - 1) (currentPage + 2)).
  destruct (page_window_numbers_sorted currentPage totalPages Hc Ht) as [Hs Hin].
  rewrite page_numbers_window in Hs, Hin.
  split; [exact Hs|]. split; [reflexivity|]. split; [|split; [|exact Hin]].
  - change (1 :: Spec.contiguous lo hi ++ [totalPages])%list
      with ((1 :: Spec.contiguous lo hi) ++ [totalPages])%list.
    apply last_last.
  - intros n [<-|Hn]; [lia|]. apply in_app_iff in Hn.
    destruct Hn as [Hn|[<-|[]]]; [|lia]. apply contiguous_In in Hn. lia.
Qed.

Lemma page_window_increasing_witness :
  StronglySorted Z.lt
    (PageWindow.page_numbers (Pagination.getVisiblePages 5 10))
  /\ In 5 (PageWindow.page_numbers (Pagination.getVisiblePages 5 10)).
Proof.
  destruct (page_window_increasing 5 10) as (Hs & _ & _ & _ & Hin); try lia.
  split; assumption.
Defined.

Lemma gaps_marked_next (a b : Z) (l : list Pagination.token) :
  PageWindow.gaps_marked (Pagination.PageNo a :: Pagination.PageNo b :: l)
  = (b =? a + 1) && PageWindow.gaps_marked (Pagination.PageNo b :: l).
Proof. reflexivity. Qed.

Lemma gaps_marked_skip (a b : Z) (l : list Pagination.token) :
  PageWindow.gaps_marked
    (Pagination.PageNo a :: Pagination.Dots :: Pagination.PageNo b :: l)
  = (a + 1 <? b) && PageWindow.gaps_marked (Pagination.PageNo b :: l).
Proof. reflexivity. Qed.

(** A run of consecutive page numbers after [a] is as well marked as what
    follows its last number. *)
Lemma gaps_marked_run (n : nat) (a hi : Z) (tail : list Pagination.token) :
  Z.to_nat (hi - a) = n -> a <= hi ->
  PageWindow.gaps_marked
    (Pagination.PageNo a
       :: (map Pagination.PageNo (Spec.contiguous (a + 1) hi) ++ tail)%list)
  = PageWindow.gaps_marked (Pagination.PageNo hi :: tail).
Proof.
  revert a. induction n as [|n IH]; intros a Hn Ha.
  - assert (hi = a) by lia. subst hi.
    rewrite contiguous_empty by lia. reflexivity.
  - rewrite contiguous_step by lia.
    cbn [map app]. rewrite gaps_marked_next, Z.eqb_refl.
    rewrite andb_true_l. apply IH; lia.
Qed.

(** X3.  For 1 <= currentPage <= totalPages and totalPages >= 2, the window
    marks exactly the pages it leaves out: two page numbers that follow each
    other directly are consecutive pages, and an ellipsis always stands
    between two numbers with at least one page between them. *)
Theorem page_window_gaps_marked (currentPage totalPages : Z) :
  1 <= currentPage <= totalPages -> 2 <= totalPages ->
  PageWindow.gaps_marked (Pagination.getVisiblePages currentPage totalPages)
  = true.
Proof.
  intros Hc Ht. rewrite getVisiblePages_computeWindow.
  unfold Spec.computeWindow.
  set (hi := Z.min (totalPages - 1) (currentPage + 2)).
  assert (Htail :
    PageWindow.gaps_marked
      (Pagination.PageNo hi
         :: ((if currentPage + 2 <? totalPages - 1 then [Pagination.Dots] else [])
             ++ [Pagination.PageNo totalPages])%list) = true).
  { destruct (currentPage + 2 <? totalPages - 1) eqn:E; zbool; cbn [app].
    - rewrite gaps_marked_skip.
      replace (hi + 1 <? totalPages) with true; [reflexivity|].
      symmetry. apply Z.ltb_lt. lia.
    - rewrite gaps_marked_next.
      replace (totalPages =? hi + 1) with true; [reflexivity|].
      symmetry. apply Z.eqb_eq. lia. }
  destruct (currentPage - 2 >? 2) eqn:E; zbool.
  - replace (Z.max 2 (currentPage - 2)) with (currentPage - 2) by lia.
    rewrite (contiguous_step (currentPage - 2) hi) by lia.
    cbn [map app]. rewrite gaps_marked_skip.
    replace (1 + 1 <? currentPage - 2) with true
      by (symmetry; apply Z.ltb_lt; lia).
    rewrite andb_true_l.
    rewrite (gaps_marked_run _ (currentPage - 2) hi _ eq_refl) by lia.
    exact Htail.
  - replace (Z.max 2 (currentPage - 2)) with (1 + 1) by lia.
    cbn [app].
    rewrite (gaps_marked_run _ 1 hi _ eq_refl) by lia.
    exact Htail.
Qed.

Lemma page_window_gaps_marked_witness :
  PageWindow.gaps_marked (Pagination.getVisiblePages 5 10) = true.
Proof. apply page_window_gaps_marked; lia. Defined.

(* ===================================================================== *)
(** * The rendered navigation                                             *)
(* ===================================================================== *)

Lemma searchParams_of_getPageUrl (baseUrl : string) (searchParams : URL.params)
    (n : Z) :
  URL.contains "?" baseUrl = false -> URL.contains "#" baseUrl = false ->
  URL.searchParams_of (Pagination.getPageUrl baseUrl searchParams n)
  = URL.obj_set searchParams "page" (JS.String_of_Z n).
Proof.
  intros Hq Hh. unfold URL.searchParams_of, Pagination.getPageUrl. cbv zeta.
  rewrite (query_of_url _ _ Hq Hh (serialize_no_hash _)).
  apply parse_serialize.
Qed.

Lemma Pagination_shown (currentPage totalPages : Z) (baseUrl : string)
    (searchParams : URL.params) :
  2 <= totalPages ->
  Pagination.Pagination currentPage totalPages baseUrl searchParams
  = Some {| Pagination.previous_href :=
              Pagination.getPageUrl baseUrl searchParams
                (JS.minus currentPage 1);
            Pagination.previous_disabled := currentPage <=? 1;
            Pagination.items :=
              map (Pagination.render_token currentPage baseUrl searchParams)
                  (Pagination.getVisiblePages currentPage totalPages);
            Pagination.next_href :=
              Pagination.getPageUrl baseUrl searchParams
                (JS.plus currentPage 1);
            Pagination.next_disabled := currentPage >=? totalPages |}.
Proof.
  intros H. unfold Pagination.Pagination.
  destruct (totalPages <=? 1) eqn:E; [zbool; lia|reflexivity].
Qed.

Lemma current_items (currentPage : Z) (baseUrl : string)
    (searchParams : URL.params) (l : list Pagination.token) :
  filter PageWindow.is_current
         (map (Pagination.render_token currentPage baseUrl searchParams) l)
  = map (fun n => Pagination.PageLink
                    (Pagination.getPageUrl baseUrl searchParams n) n true)
        (filter (fun n => n =? currentPage) (PageWindow.page_numbers l)).
Proof.
  induction l as [|[n|] l IH]; [reflexivity| |exact IH].
  simpl. destruct (n =? currentPage) eqn:E; simpl; rewrite IH; reflexivity.
Qed.

Lemma filter_eqb_sorted (x : Z) (l : list Z) :
  StronglySorted Z.lt l -> In x l -> filter (fun n => n =? x) l = [x].
Proof.
  induction 1 as [|a l Hs IH Ha]; intros Hin; [destruct Hin|].
  rewrite Forall_forall in Ha. simpl.
  destruct (a =? x) eqn:E; zbool.
  - subst a. f_equal. apply filter_none. intros b Hb.
    apply Z.eqb_neq. specialize (Ha b Hb). lia.
  - destruct Hin as [->|Hin]; [lia|]. apply IH, Hin.
Qed.

(** X4.  For 1 <= currentPage <= totalPages and totalPages >= 2 the
    component renders a navigation in which exactly one item is marked as
    the current page: the link of currentPage. *)
Theorem navigation_marks_current_page_once (currentPage totalPages : Z)
    (baseUrl : string) (searchParams : URL.params) :
  1 <= currentPage <= totalPages -> 2 <= totalPages ->
  exists nav,
    Pagination.Pagination currentPage totalPages baseUrl searchParams = Some nav
    /\ filter PageWindow.is_current (Pagination.items nav)
       = [Pagination.PageLink
            (Pagination.getPageUrl baseUrl searchParams currentPage)
            currentPage true].
Proof.
  intros Hc Ht. eexists. split; [apply Pagination_shown, Ht|].
  simpl Pagination.items. rewrite current_items.
  destruct (page_window_numbers_sorted currentPage totalPages Hc Ht) as [Hs Hin].
  rewrite (filter_eqb_sorted _ _ Hs Hin). reflexivity.
Qed.

Lemma navigation_marks_current_page_once_witness :
  exists nav,
    Pagination.Pagination 5 10 "/inventory" [("q", "tea")]%string = Some nav
    /\ filter PageWindow.is_current (Pagination.items nav)
       = [Pagination.PageLink "/inventory?q=tea&page=5" 5 true].
Proof.
  apply (navigation_marks_current_page_once 5 10 "/inventory"
           [("q", "tea")]%string); lia.
Defined.

Lemma no_number_past_last_page (currentPage totalPages : Z) :
  1 <= totalPages -> totalPages < currentPage ->
  filter (fun n => n =? currentPage)
         (PageWindow.page_numbers
            (Pagination.getVisiblePages currentPage totalPages)) = [].
Proof.
  intros Ht Hc. rewrite page_numbers_window. apply filter_none.
  intros n Hn. apply Z.eqb_neq.
  destruct Hn as [<-|Hn]; [lia|]. apply in_app_iff in Hn.
  destruct Hn as [Hn|[<-|[]]]; [|lia]. apply contiguous_In in Hn. lia.
Qed.

(** X5.  When the current page lies past the last page (the page number of
    the address is not clamped to the page count), the navigation is still
    rendered for totalPages >= 2, with no item marked as current, Next
    disabled and Previous enabled. *)
Theorem navigation_past_last_page (currentPage totalPages : Z)
    (baseUrl : string) (searchParams : URL.params) :
  2 <= totalPages -> totalPages < currentPage ->
  exists nav,
    Pagination.Pagination currentPage totalPages baseUrl searchParams = Some nav
    /\ filter PageWindow.is_current (Pagination.items nav) = []
    /\ Pagination.next_disabled nav = true
    /\ Pagination.previous_disabled nav = false.
Proof.
  intros Ht Hc. eexists. split; [apply Pagination_shown, Ht|].
  simpl. split; [|split].
  - rewrite current_items, no_number_past_last_page by lia. reflexivity.
  - rewrite Z.geb_leb. apply Z.leb_le. lia.
  - apply Z.leb_gt. lia.
Qed.

Lemma navigation_past_last_page_witness :
  exists nav,
    Pagination.Pagination 100 3 "/inventory" [] = Some nav
    /\ filter PageWindow.is_current (Pagination.items nav) = []
    /\ Pagination.next_disabled nav = true
    /\ Pagination.previous_disabled nav = false.
Proof.
  apply (navigation_past_last_page 100 3 "/inventory" []); lia.
Defined.

Lemma page_link_reads_back (currentPage totalPages : Z) (baseUrl : string)
    (searchParams : URL.params) (nav : Pagination.nav)
    (href : string) (n : Z) (c : bool) :
  URL.contains "?" baseUrl = false -> URL.contains "#" baseUrl = false ->
  Pagination.Pagination currentPage totalPages baseUrl searchParams = Some nav ->
  In (Pagination.PageLink href n c) (Pagination.items nav) ->
  URL.searchParams_of href
  = URL.obj_set searchParams "page" (JS.String_of_Z n)
  /\ 1 <= n <= totalPages
  /\ (c = true <-> n = currentPage).
Proof.
  intros Hq Hh Hnav Hin.
  assert (Ht : 2 <= totalPages).
  { unfold Pagination.Pagination in Hnav.
    destruct (totalPages <=? 1) eqn:E; [discriminate|zbool; lia]. }
  rewrite (Pagination_shown _ _ _ _ Ht) in Hnav.
  injection Hnav as <-. simpl in Hin.
  apply in_map_iff in Hin.
  destruct Hin as ([m|] & Hr & Hm); [|discriminate].
  simpl in Hr. injection Hr as <- <- <-.
  split; [apply searchParams_of_getPageUrl; assumption|]. split.
  - assert (Hn : In m (PageWindow.page_numbers
                         (Pagination.getVisiblePages currentPage totalPages))).
    { unfold PageWindow.page_numbers. apply in_flat_map.
      exists (Pagination.PageNo m). split; [exact Hm|left; reflexivity]. }
    rewrite page_numbers_window in Hn.
    destruct Hn as [<-|Hn]; [lia|]. apply in_app_iff in Hn.
    destruct Hn as [Hn|[<-|[]]]; [|lia]. apply contiguous_In in Hn. lia.
  - apply Z.eqb_eq.
Qed.

(** The neighbours of a page within 53 bits are the page minus one and
    plus one. *)
Lemma plus_one (n : Z) : - 2 ^ 53 < n < 2 ^ 53 -> JS.plus n 1 = n + 1.
Proof. intros H. unfold JS.plus. rewrite (add_one_exact n H). reflexivity. Qed.

Lemma minus_one (n : Z) : - 2 ^ 53 < n < 2 ^ 53 -> JS.minus n 1 = n - 1.
Proof. intros H. unfold JS.minus. rewrite (sub_one_exact n H). reflexivity. Qed.

(** Beyond 53 bits the sum is rounded: the page after 2^53 is 2^53. *)
Example plus_one_rounds : JS.plus (2 ^ 53) 1 = 2 ^ 53.
Proof. vm_compute. reflexivity. Qed.

(** X6.  In a rendered navigation (on a base URL without query or fragment)
    every page link leads to its own page: its address reads back as the
    caller's parameters with page set to the link's number, which lies
    between 1 and totalPages, and the link is marked current exactly when
    that number is currentPage.  For a current page within 53 bits, Previous
    and Next lead to currentPage - 1 and currentPage + 1 even when disabled
    (page 0 on the first page); Previous is disabled exactly when
    currentPage <= 1 and Next exactly when currentPage >= totalPages. *)
Theorem navigation_links (currentPage totalPages : Z) (baseUrl : string)
    (searchParams : URL.params) (nav : Pagination.nav) :
  URL.contains "?" baseUrl = false -> URL.contains "#" baseUrl = false ->
  - 2 ^ 53 < currentPage < 2 ^ 53 ->
  Pagination.Pagination currentPage totalPages baseUrl searchParams = Some nav ->
  (forall href n c,
      In (Pagination.PageLink href n c) (Pagination.items nav) ->
      URL.searchParams_of href
      = URL.obj_set searchParams "page" (JS.String_of_Z n)
      /\ 1 <= n <= totalPages
      /\ (c = true <-> n = currentPage))
  /\ URL.searchParams_of (Pagination.previous_href nav)
     = URL.obj_set searchParams "page" (JS.String_of_Z (currentPage - 1))
  /\ URL.searchParams_of (Pagination.next_href nav)
     = URL.obj_set searchParams "page" (JS.String_of_Z (currentPage + 1))
  /\ (Pagination.previous_disabled nav = true <-> currentPage <= 1)
  /\ (Pagination.next_disabled nav = true <-> totalPages <= currentPage).
Proof.
  intros Hq Hh Hc Hnav.
  assert (Ht : 2 <= totalPages).
  { unfold Pagination.Pagination in Hnav.
    destruct (totalPages <=? 1) eqn:E; [discriminate|zbool; lia]. }
  rewrite (Pagination_shown _ _ _ _ Ht) in Hnav.
  injection Hnav as <-. cbn [Pagination.previous_href Pagination.next_href
    Pagination.previous_disabled Pagination.next_disabled Pagination.items].
  split; [|split; [|split; [|split]]].
  - intros href n c Hin.
    apply (page_link_reads_back currentPage totalPages baseUrl searchParams
             _ href n c Hq Hh (Pagination_shown _ _ _ _ Ht)).
    exact Hin.
  - rewrite (minus_one currentPage Hc).
    apply searchParams_of_getPageUrl; assumption.
  - rewrite (plus_one currentPage Hc).
    apply searchParams_of_getPageUrl; assumption.
  - apply Z.leb_le.
  - rewrite Z.geb_leb. apply Z.leb_le.
Qed.

Lemma navigation_links_witness :
  URL.get "page"
    (URL.searchParams_of "/inventory?q=tea&pageSize=5&page=0")
  = Some "0"%string.
Proof.
  destruct (navigation_links 1 3 "/inventory"
              [("q", "tea"); ("pageSize", "5")]%string
              {| Pagination.previous_href := "/inventory?q=tea&pageSize=5&page=0";
                 Pagination.previous_disabled := true;
                 Pagination.items :=
                   [Pagination.PageLink "/inventory?q=tea&pageSize=5&page=1" 1 true;
                    Pagination.PageLink "/inventory?q=tea&pageSize=5&page=2" 2 false;
                    Pagination.PageLink "/inventory?q=tea&pageSize=5&page=3" 3 false];
                 Pagination.next_href := "/inventory?q=tea&pageSize=5&page=2";
                 Pagination.next_disabled := false |}
              eq_refl eq_refl)
    as (_ & Hprev & _).
  - lia.
  - vm_compute. reflexivity.
  - simpl in Hprev. rewrite Hprev. reflexivity.
Defined.

Lemma obj_set_keys (o : URL.params) (k v : string) :
  map fst (URL.obj_set o k v)
  = if existsb (fun kv => String.eqb (fst kv) k) o
    then map fst o
    else (map fst o ++ [k])%list.
Proof.
  induction o as [|[k' v'] o IH]; [reflexivity|]. simpl.
  destruct (String.eqb k' k) eqn:E; simpl; [reflexivity|].
  rewrite IH. destruct (existsb _ o); reflexivity.
Qed.

(** X7.  getPageUrl overrides, it does not add: when the caller's parameters
    have pairwise different names (as the properties of an object do), so do
    the parameters of the URL it builds, and exactly one of them is named
    page, also when the caller supplied a page of its own. *)
Theorem getPageUrl_single_page_parameter (baseUrl : string)
    (searchParams : URL.params) (n : Z) :
  URL.contains "?" baseUrl = false -> URL.contains "#" baseUrl = false ->
  NoDup (map fst searchParams) ->
  NoDup (map fst (URL.searchParams_of
                    (Pagination.getPageUrl baseUrl searchParams n)))
  /\ filter (fun kv => String.eqb (fst kv) "page")
            (URL.searchParams_of
               (Pagination.getPageUrl baseUrl searchParams n))
     = [("page"%string, JS.String_of_Z n)].
Proof.
  intros Hq Hh Hnd. rewrite searchParams_of_getPageUrl by assumption.
  generalize (JS.String_of_Z n). intros v. split.
  - rewrite obj_set_keys.
    destruct (existsb (fun kv => String.eqb (fst kv) "page") searchParams) eqn:E;
      [exact Hnd|].
    apply NoDup_app; [exact Hnd | repeat constructor; intros [] |].
    intros k Hk [<-|[]].
    apply in_map_iff in Hk. destruct Hk as (kv & Hkv & Hin).
    assert (Hex : existsb (fun kv => String.eqb (fst kv) "page") searchParams = true).
    { apply existsb_exists. exists kv. split; [exact Hin|].
      rewrite Hkv. apply String.eqb_refl. }
    congruence.
  - induction searchParams as [|[k' v'] o IH]; [reflexivity|].
    simpl in Hnd. apply NoDup_cons_iff in Hnd. destruct Hnd as [Hnotin Hnd].
    simpl. destruct (String.eqb k' "page") eqn:E; simpl; rewrite E.
    + apply String.eqb_eq in E. subst k'. f_equal.
      apply filter_none. intros [k2 v2] Hin. simpl.
      apply String.eqb_neq. intros ->. apply Hnotin.
      apply in_map_iff. exists ("page"%string, v2). split; [reflexivity|exact Hin].
    + apply IH, Hnd.
Qed.

Lemma getPageUrl_single_page_parameter_witness :
  filter (fun kv => String.eqb (fst kv) "page")
         (URL.searchParams_of
            (Pagination.getPageUrl "/inventory"
               [("q", "tea"); ("page", "7"); ("pageSize", "5")]%string 3))
  = [("page", "3")]%string.
Proof.
  refine (proj2 (getPageUrl_single_page_parameter "/inventory"
                   [("q", "tea"); ("page", "7"); ("pageSize", "5")]%string 3
                   eq_refl eq_refl _)).
  repeat (constructor; [simpl; intros H;
    repeat (destruct H as [H|H]; [discriminate H|]); exact H|]).
  constructor.
Defined.

(* ===================================================================== *)
(** * More on the dashboard                                               *)
(* ===================================================================== *)

Lemma insert_desc_Permutation (p : Product) (l : list Product) :
  Permutation (Prisma.insert_desc p l) (p :: l).
Proof.
  induction l as [|q l IH]; simpl; [apply Permutation_refl|].
  destruct (createdAt q <? createdAt p); [apply Permutation_refl|].
  eapply Permutation_trans; [apply perm_skip, IH|apply perm_swap].
Qed.

Lemma orderBy_Permutation (l : list Product) :
  Permutation (Prisma.orderBy_createdAt_desc l) l.
Proof.
  induction l as [|p l IH]; simpl; [constructor|].
  eapply Permutation_trans; [apply insert_desc_Permutation|].
  apply perm_skip, IH.
Qed.

Lemma insert_desc_sorted (p : Product) (l : list Product) :
  StronglySorted Shown.not_older l ->
  StronglySorted Shown.not_older (Prisma.insert_desc p l).
Proof.
  induction 1 as [|q l Hs IH Hq]; simpl; [repeat constructor|].
  rewrite Forall_forall in Hq.
  destruct (createdAt q <? createdAt p) eqn:E; zbool.
  - constructor; [constructor; [exact Hs|apply Forall_forall; exact Hq]|].
    constructor; [unfold Shown.not_older; lia|].
    apply Forall_forall. intros r Hr. specialize (Hq r Hr).
    unfold Shown.not_older in *. lia.
  - constructor; [exact IH|].
    apply Forall_forall. intros r Hr.
    apply (Permutation_in _ (insert_desc_Permutation p l)) in Hr.
    destruct Hr as [<-|Hr]; [unfold Shown.not_older; lia|apply Hq, Hr].
Qed.

Lemma orderBy_sorted (l : list Product) :
  StronglySorted Shown.not_older (Prisma.orderBy_createdAt_desc l).
Proof.
  induction l as [|p l IH]; simpl; [constructor|].
  apply insert_desc_sorted, IH.
Qed.

Lemma sorted_app_inv {A : Type} (R : A -> A -> Prop) (l1 l2 : list A) :
  StronglySorted R (l1 ++ l2) ->
  StronglySorted R l1 /\ StronglySorted R l2
  /\ forall a b, In a l1 -> In b l2 -> R a b.
Proof.
  induction l1 as [|x l1 IH]; simpl; intros H.
  - split; [constructor|]. split; [exact H|]. intros a b [].
  - inversion H as [|? ? Hs Hx]; subst.
    destruct (IH Hs) as (H1 & H2 & H12).
    rewrite Forall_forall in Hx.
    split; [|split; [exact H2|]].
    + constructor; [exact H1|]. apply Forall_forall. intros y Hy.
      apply Hx, in_or_app. left. exact Hy.
    + intros a b [<-|Ha] Hb; [apply Hx, in_or_app; right; exact Hb|].
      apply H12; assumption.
Qed.

Lemma In_firstn_In {A : Type} (n : nat) (l : list A) (x : A) :
  In x (firstn n l) -> In x l.
Proof.
  intros H. rewrite <- (firstn_skipn n l). apply in_or_app. left. exact H.
Qed.

Lemma In_skipn_In {A : Type} (n : nat) (l : list A) (x : A) :
  In x (skipn n l) -> In x l.
Proof.
  intros H. rewrite <- (firstn_skipn n l). apply in_or_app. right. exact H.
Qed.

(** X8.  The recent list of the dashboard holds min(5, n) of the current
    user's n products, newest first, and none of the products it leaves out
    was created later than one it shows. *)
Theorem recent_products_newest_first (db : Prisma.table) (user_id : string) :
  List.length (Dashboard.recent db user_id)
  = Nat.min 5 (List.length (Dashboard.allProducts db user_id))
  /\ StronglySorted Shown.not_older (Dashboard.recent db user_id)
  /\ (forall p, In p (Dashboard.recent db user_id) ->
                In p db /\ userId p = user_id)
  /\ exists rest,
       Permutation (Dashboard.recent db user_id ++ rest)%list
                   (Dashboard.allProducts db user_id)
       /\ forall p q, In p (Dashboard.recent db user_id) -> In q rest ->
                      createdAt q <= createdAt p.
Proof.
  unfold Dashboard.recent.
  set (sorted := Prisma.orderBy_createdAt_desc
                   (Prisma.findMany (Dashboard.owned user_id) db)).
  assert (HP : Permutation sorted (Dashboard.allProducts db user_id))
    by apply orderBy_Permutation.
  assert (HS : StronglySorted Shown.not_older sorted) by apply orderBy_sorted.
  rewrite <- (firstn_skipn 5 sorted) in HS.
  destruct (sorted_app_inv _ _ _ HS) as (H1 & _ & H12).
  split; [|split; [exact H1|split]].
  - rewrite length_firstn, (Permutation_length HP). reflexivity.
  - intros p Hp. apply In_firstn_In in Hp.
    apply (Permutation_in _ HP) in Hp.
    unfold Dashboard.allProducts, Prisma.findMany in Hp.
    apply filter_In in Hp. destruct Hp as [Hin Ho].
    split; [exact Hin|]. apply String.eqb_eq, Ho.
  - exists (skipn 5 sorted). split; [rewrite firstn_skipn; exact HP|].
    intros p q Hp Hq. exact (H12 p q Hp Hq).
Qed.

Lemma filter_filter_and {A : Type} (f g : A -> bool) (l : list A) :
  filter f (filter g l) = filter (fun a => g a && f a) l.
Proof.
  induction l as [|a l IH]; [reflexivity|]. simpl.
  destruct (g a); simpl; [destruct (f a)|]; rewrite IH; reflexivity.
Qed.

Lemma filter_length_le_impl {A : Type} (f g : A -> bool) (l : list A) :
  (forall a, In a l -> f a = true -> g a = true) ->
  (List.length (filter f l) <= List.length (filter g l))%nat.
Proof.
  induction l as [|a l IH]; intros H; [apply Nat.le_refl|]. simpl.
  assert (IH' := IH (fun b Hb => H b (or_intror Hb))).
  destruct (f a) eqn:Ef.
  - rewrite (H a (or_introl eq_refl) Ef). simpl. lia.
  - destruct (g a); simpl; lia.
Qed.

Lemma lowStock_as_filter (db : Prisma.table) (user_id : string) :
  Dashboard.lowStock db user_id
  = Z.of_nat
      (List.length
         (filter (fun p => match lowStockAt p with Some _ => true | None => false end
                           && (quantity p <=? 5))
                 (Dashboard.allProducts db user_id))).
Proof.
  unfold Dashboard.lowStock, Prisma.count, Dashboard.allProducts, Prisma.findMany.
  rewrite filter_filter_and. f_equal. f_equal. apply filter_ext.
  intros p. rewrite andb_assoc. reflexivity.
Qed.

Lemma low_or_out_count (l : list Product) :
  (forall p, In p l -> 0 <= quantity p) ->
  List.length (filter (fun p => quantity p <=? 5) l)
  = (List.length (filter (fun p => ((quantity p <=? 5) && (quantity p >=? 1))%Z) l)
     + List.length (filter (fun p => (quantity p =? 0)%Z) l))%nat.
Proof.
  induction l as [|p l IH]; intros Hq; [reflexivity|].
  assert (Hp : 0 <= quantity p) by (apply Hq; left; reflexivity).
  assert (IH' := IH (fun r Hin => Hq r (or_intror Hin))).
  simpl.
  destruct (quantity p <=? 5) eqn:E2, (quantity p >=? 1) eqn:E3,
    (quantity p =? 0) eqn:E4; simpl; zbool; try lia.
Qed.

(** X9.  The Low Stock figure of the key metrics counts the user's records
    that have a threshold set and at most 5 units, out-of-stock ones
    included.  With non-negative quantities it is therefore at most
    lowStockCount + outOfStockCount of the breakdown, equal to it when every
    record has a threshold, and 0 when no record has one, whatever the
    quantities. *)
Theorem lowStock_metric_and_breakdown (db : Prisma.table) (user_id : string) :
  (forall p, In p (Dashboard.allProducts db user_id) -> 0 <= quantity p) ->
  Dashboard.lowStock db user_id
  <= Z.of_nat (Dashboard.lowStockCount db user_id
               + Dashboard.outOfStockCount db user_id)
  /\ ((forall p, In p (Dashboard.allProducts db user_id) -> lowStockAt p <> None) ->
      Dashboard.lowStock db user_id
      = Z.of_nat (Dashboard.lowStockCount db user_id
                  + Dashboard.outOfStockCount db user_id))
  /\ ((forall p, In p (Dashboard.allProducts db user_id) -> lowStockAt p = None) ->
      Dashboard.lowStock db user_id = 0).
Proof.
  intros Hq. rewrite lowStock_as_filter.
  unfold Dashboard.lowStockCount, Dashboard.outOfStockCount.
  rewrite <- (low_or_out_count _ Hq).
  split; [|split].
  - apply inj_le, filter_length_le_impl. intros p _ H. zbool.
    apply Z.leb_le. assumption.
  - intros Hall. f_equal. apply length_filter_ext_in. intros p Hp.
    specialize (Hall p Hp). destruct (lowStockAt p); [reflexivity|congruence].
  - intros Hnone. rewrite filter_none; [reflexivity|].
    intros p Hp. rewrite (Hnone p Hp). reflexivity.
Qed.

Lemma lowStock_metric_and_breakdown_witness :
  Dashboard.lowStock seven_products "u" = 0
  /\ Dashboard.lowStock [boundary_product; sample 0 (Some 3) 0] "u" = 1.
Proof.
  split.
  - refine (proj2 (proj2 (lowStock_metric_and_breakdown seven_products "u" _)) _).
    + intros q Hin. simpl in Hin.
      repeat (destruct Hin as [<-|Hin]; [simpl; lia|]). destruct Hin.
    + intros q Hin. simpl in Hin.
      repeat (destruct Hin as [<-|Hin]; [reflexivity|]). destruct Hin.
  - refine (proj1 (proj2 (lowStock_metric_and_breakdown
                            [boundary_product; sample 0 (Some 3) 0] "u" _)) _).
    + intros q Hin. simpl in Hin.
      repeat (destruct Hin as [<-|Hin]; [simpl; lia|]). destruct Hin.
    + intros q Hin. simpl in Hin.
      repeat (destruct Hin as [<-|Hin]; [discriminate|]). destruct Hin.
Defined.

Lemma recent_products_newest_first_witness :
  List.length (Dashboard.recent march_records "u") = 2%nat
  /\ In (sample 1 None 1710460800000) march_records.
Proof.
  destruct (recent_products_newest_first march_records "u")
    as (Hlen & _ & Hin & _).
  split; [exact Hlen|].
  apply Hin. vm_compute. left. reflexivity.
Defined.

(** The index of the window that holds a time inside the span of the
    series. *)
Lemma window_of_time (tza now c : Z) :
  Spec.windowStart (JS.fixed_offset tza) now 11 <= c
  <= Spec.windowEnd (JS.fixed_offset tza) now 0 ->
  exists i, 0 <= i <= 11
            /\ Spec.windowStart (JS.fixed_offset tza) now i <= c
               <= Spec.windowEnd (JS.fixed_offset tza) now i.
Proof.
  assert (Hex : forall d : Z,
            (d - 11 * 7) * 86400000 - tza <= c
            <= (d - 0 * 7) * 86400000 - tza + 6 * 86400000
               + (23 * 3600000 + 59 * 60000 + 59 * 1000 + 999) ->
            exists i, 0 <= i <= 11
              /\ (d - i * 7) * 86400000 - tza <= c
                 <= (d - i * 7) * 86400000 - tza + 6 * 86400000
                    + (23 * 3600000 + 59 * 60000 + 59 * 1000 + 999)).
  { intros d H.
    exists ((d * 86400000 - tza + 604799999 - c) / 604800000).
    Z.div_mod_to_equations. lia. }
  intros H. rewrite windowStart_fixed, windowEnd_fixed in H.
  destruct (Hex (JS.Day (now + tza)) H) as (i & Hi & Hw).
  exists i. split; [exact Hi|].
  rewrite windowStart_fixed, windowEnd_fixed. exact Hw.
Qed.

Lemma window_hits_in_span (tza now : Z) (p : Product) :
  list_sum (map (fun i => if Spec.in_window (JS.fixed_offset tza) now i p
                          then 1%nat else 0%nat)
                Spec.loop_indices)
  = if Shown.in_series_span (JS.fixed_offset tza) now p then 1%nat else 0%nat.
Proof.
  pose proof (fixed_offset_keeps_days tza) as Hk.
  unfold Shown.in_series_span.
  rewrite weekStart_windowStart, weekEnd_windowEnd.
  destruct ((Spec.windowStart (JS.fixed_offset tza) now 11 <=? createdAt p)
            && (createdAt p <=? Spec.windowEnd (JS.fixed_offset tza) now 0))
    eqn:E.
  - zbool.
    destruct (window_of_time tza now (createdAt p)) as (i & Hi & Hw);
      [lia|].
    assert (Hin : Spec.in_window (JS.fixed_offset tza) now i p = true).
    { unfold Spec.in_window. apply andb_true_iff.
      split; apply Z.leb_le; lia. }
    assert (Hle := window_hits_at_most_one (JS.fixed_offset tza) now p
                     Spec.loop_indices (keeps_days_span _ now Hk)
                     loop_indices_range loop_indices_NoDup).
    assert (Hge : (1 <= list_sum
                          (map (fun i => if Spec.in_window (JS.fixed_offset tza)
                                              now i p
                                         then 1%nat else 0%nat)
                               Spec.loop_indices))%nat).
    { assert (Hmem : In i Spec.loop_indices).
      { unfold Spec.loop_indices.
        assert (Hc : i = 11 \/ i = 10 \/ i = 9 \/ i = 8 \/ i = 7 \/ i = 6
                     \/ i = 5 \/ i = 4 \/ i = 3 \/ i = 2 \/ i = 1 \/ i = 0)
          by lia.
        simpl. intuition. }
      revert Hmem. generalize Spec.loop_indices. intros l.
      induction l as [|j l IH]; intros Hmem; [destruct Hmem|]. simpl.
      destruct Hmem as [->|Hmem]; [rewrite Hin; lia|].
      specialize (IH Hmem). lia. }
    lia.
  - assert (Hall : forall i, In i Spec.loop_indices ->
                             Spec.in_window (JS.fixed_offset tza) now i p = false).
    { intros i Hi. apply not_true_is_false. intros Hin.
      assert (Hr : 0 <= i <= 11).
      { unfold Spec.loop_indices in Hi. simpl in Hi.
        repeat (destruct Hi as [<-|Hi]; [lia|]). destruct Hi. }
      unfold Spec.in_window in Hin. zbool.
      rewrite windowStart_fixed, windowEnd_fixed in *.
      unfold JS.msPerDay, JS.msPerHour, JS.msPerMinute, JS.msPerSecond in *.
      destruct E as [E|E]; zbool; lia. }
    revert Hall. generalize Spec.loop_indices. intros l Hall.
    induction l as [|j l IH]; [reflexivity|]. simpl.
    rewrite (Hall j (or_introl eq_refl)). apply IH.
    intros i Hi. apply Hall. right. exact Hi.
Qed.

Lemma bucket_counts_total (tza now : Z) (l : list Product) :
  list_sum (map (fun i => List.length
                            (filter (Spec.in_window (JS.fixed_offset tza) now i) l))
                Spec.loop_indices)
  = List.length (filter (Shown.in_series_span (JS.fixed_offset tza) now) l).
Proof.
  induction l as [|p l IH].
  - simpl. reflexivity.
  - assert (Hsplit : forall indices,
      list_sum (map (fun i => List.length
                                (filter (Spec.in_window (JS.fixed_offset tza)
                                           now i) (p :: l)))
                    indices)
      = (list_sum (map (fun i => if Spec.in_window (JS.fixed_offset tza) now i p
                                 then 1%nat else 0%nat) indices)
         + list_sum (map (fun i => List.length
                                     (filter (Spec.in_window
                                                (JS.fixed_offset tza) now i) l))
                         indices))%nat).
    { induction indices as [|i indices IHi]; simpl; [reflexivity|].
      simpl in IHi. rewrite IHi.
      destruct (Spec.in_window (JS.fixed_offset tza) now i p); simpl; lia. }
    rewrite Hsplit, IH, window_hits_in_span. cbn [filter].
    destruct (Shown.in_series_span (JS.fixed_offset tza) now p); reflexivity.
Qed.

(** X10.  With the local zone at a fixed offset from UTC, the twelve windows
    of the weekly series tile one span of 84 days, from the start of the
    oldest window to the end of the newest: the bucket counts add up to
    exactly the number of the user's records created within that span, so
    each such record is counted once and no other record is counted. *)
Theorem weekly_series_covers_84_days (tza : Z) (db : Prisma.table)
    (user_id : string) (now : Z) :
  list_sum (map Dashboard.products
                (Dashboard.weeklyProductsData (JS.fixed_offset tza) db
                   user_id now))
  = List.length (filter (Shown.in_series_span (JS.fixed_offset tza) now)
                        (Dashboard.allProducts db user_id))
  /\ Dashboard.weekEnd (JS.fixed_offset tza) now 0 + 1
     - Dashboard.weekStart (JS.fixed_offset tza) now 11
     = 84 * JS.msPerDay.
Proof.
  pose proof (fixed_offset_keeps_days tza) as Hk.
  split.
  - rewrite weeklyProductsData_unfold, map_map.
    erewrite map_ext; [apply bucket_counts_total|].
    intros i. rewrite weekEntry_bucket. reflexivity.
  - rewrite weekStart_windowStart, weekEnd_windowEnd.
    rewrite windowStart_fixed, windowEnd_fixed.
    unfold JS.msPerDay, JS.msPerHour, JS.msPerMinute, JS.msPerSecond. lia.
Qed.

(** X11.  With the local zone at a fixed offset from UTC, the newest window
    starts at 00:00 of the day of the request and reaches six days ahead of
    it: the time of the request lies in it, so a product of the user created
    between the start of that day and the request is counted in the last
    bucket of the series. *)
Theorem request_time_in_last_window (tza : Z) (db : Prisma.table)
    (user_id : string) (now : Z) (p : Product) :
  In p (Dashboard.allProducts db user_id) ->
  Dashboard.weekStart (JS.fixed_offset tza) now 0 <= createdAt p <= now ->
  Dashboard.weekStart (JS.fixed_offset tza) now 0 <= now
  <= Dashboard.weekEnd (JS.fixed_offset tza) now 0
  /\ Dashboard.weekEnd (JS.fixed_offset tza) now 0
     = Dashboard.weekStart (JS.fixed_offset tza) now 0 + 7 * JS.msPerDay - 1
  /\ In p (Dashboard.weekProducts (JS.fixed_offset tza) db user_id now 0)
  /\ (1 <= Dashboard.products
             (last (Dashboard.weeklyProductsData (JS.fixed_offset tza) db
                      user_id now)
                   (Dashboard.mkWeek "" 0)))%nat.
Proof.
  intros Hin Hc.
  pose proof (fixed_offset_keeps_days tza) as Hk.
  assert (Hnow : Dashboard.weekStart (JS.fixed_offset tza) now 0 <= now
                 <= Dashboard.weekEnd (JS.fixed_offset tza) now 0
                 /\ Dashboard.weekEnd (JS.fixed_offset tza) now 0
                    = Dashboard.weekStart (JS.fixed_offset tza) now 0
                      + 7 * JS.msPerDay - 1).
  { rewrite weekStart_windowStart, weekEnd_windowEnd.
    rewrite windowStart_fixed, windowEnd_fixed.
    unfold JS.Day, JS.msPerDay, JS.msPerHour, JS.msPerMinute, JS.msPerSecond.
    Z.div_mod_to_equations. lia. }
  destruct Hnow as [Hnow Hend].
  assert (Hp : In p (Dashboard.weekProducts (JS.fixed_offset tza) db user_id
                       now 0)).
  { unfold Dashboard.weekProducts. apply filter_In. split; [exact Hin|].
    cbv zeta. apply andb_true_iff. rewrite Z.geb_leb.
    split; apply Z.leb_le; lia. }
  split; [exact Hnow|]. split; [exact Hend|]. split; [exact Hp|].
  change (last (Dashboard.weeklyProductsData (JS.fixed_offset tza) db user_id
                  now)
               (Dashboard.mkWeek "" 0))
    with (Dashboard.weekEntry (JS.fixed_offset tza) db user_id now 0).
  unfold Dashboard.weekEntry. simpl Dashboard.products.
  destruct (Dashboard.weekProducts (JS.fixed_offset tza) db user_id now 0);
    [destruct Hp|simpl; lia].
Qed.

Lemma request_time_in_last_window_witness :
  In (sample 1 None 1710460800000)
     (Dashboard.weekProducts (JS.fixed_offset 0) march_records "u"
        1710498600000 0).
Proof.
  refine (proj1 (proj2 (proj2
            (request_time_in_last_window 0 march_records "u" 1710498600000
               (sample 1 None 1710460800000) _ _)))).
  - left. reflexivity.
  - vm_compute. split; discriminate.
Defined.

(* ===================================================================== *)
(** * More on the product actions                                         *)
(* ===================================================================== *)

(** The object createProduct hands to the schema. *)
Lemma createProduct_unfold (StringToNumber : string -> JS.number)
    (zod4 : bool) (user_id : string) (env : Actions.PrismaEnv)
    (formData : Actions.FormData) (db : Prisma.table) :
  Actions.createProduct StringToNumber zod4 user_id env formData db
  = match Actions.ProductSchema_safeParse StringToNumber zod4
            [ ("name", Actions.formData_get formData "name");
              ("price", Actions.formData_get formData "price");
              ("quantity", Actions.formData_get formData "quantity");
              ("sku", Actions.or_else (Actions.formData_get formData "sku")
                                      Actions.VUndefined) ]%string with
    | Actions.Invalid _ => (Actions.Throw (Actions.Error "Validation failed"), db)
    | Actions.OK data =>
        (Actions.Throw (Actions.Error "Failed to create product"),
         snd (Actions.prisma_create user_id env data db))
    end.
Proof.
  unfold Actions.createProduct.
  destruct (Actions.ProductSchema_safeParse _ _ _) as [data|issue];
    [|reflexivity].
  destruct (Actions.prisma_create user_id env data db) as [[|e] db'];
    reflexivity.
Qed.

(** X12.  createProduct never completes normally and never lets the
    redirect through: it ends by throwing "Validation failed", with the
    product table unchanged, or by throwing "Failed to create product",
    which it also does after the record has been written. *)
Theorem createProduct_always_throws (StringToNumber : string -> JS.number)
    (zod4 : bool) (user_id : string) (env : Actions.PrismaEnv)
    (formData : Actions.FormData) (db : Prisma.table) :
  Actions.createProduct StringToNumber zod4 user_id env formData db
  = (Actions.Throw (Actions.Error "Validation failed"), db)
  \/ fst (Actions.createProduct StringToNumber zod4 user_id env formData db)
     = Actions.Throw (Actions.Error "Failed to create product").
Proof.
  rewrite createProduct_unfold.
  destruct (Actions.ProductSchema_safeParse _ _ _); [right|left]; reflexivity.
Qed.

Lemma of_Z_0 : JS.of_Z 0 = S754_zero false.
Proof. reflexivity. Qed.

(** A Number that denotes a non-negative integer passes the checks
    [>= 0]. *)
Lemma to_Z_nonneg_leb (y : JS.number) (k : Z) :
  JS.to_Z y = Some k -> 0 <= k -> JS.leb (JS.of_Z 0) y = true.
Proof.
  rewrite of_Z_0.
  destruct y as [s|s| |s m e]; unfold JS.to_Z, JS.leb, SFleb, SFcompare;
    cbv beta iota; try discriminate.
  - intros _ _. reflexivity.
  - destruct s; [|intros _ _; reflexivity].
    destruct (0 <=? e) eqn:E; zbool.
    + intros H Hk. assert (Hv : k = Z.neg m * 2 ^ e) by congruence.
      pose proof (pow2_pos e E). exfalso.
      assert (Z.neg m * 2 ^ e < 0) by (apply Z.mul_neg_pos; lia). lia.
    + destruct (Z.pos m mod 2 ^ (- e) =? 0); [|discriminate].
      intros H Hk. assert (Hv : k = Z.neg m / 2 ^ (- e)) by congruence.
      pose proof (pow2_pos (- e) ltac:(lia)) as Hp. exfalso.
      assert (Z.neg m / 2 ^ (- e) < 0)
        by (apply Z.div_lt_upper_bound; lia).
      lia.
Qed.

(** Conversely, a Number that passes [>= 0] denotes no negative integer. *)
Lemma leb_to_Z_nonneg (y : JS.number) (k : Z) :
  JS.leb (JS.of_Z 0) y = true -> JS.to_Z y = Some k -> 0 <= k.
Proof.
  rewrite of_Z_0.
  destruct y as [s|s| |s m e]; unfold JS.to_Z, JS.leb, SFleb, SFcompare;
    cbv beta iota; try discriminate.
  - intros _ H. assert (k = 0) by congruence. lia.
  - destruct s; [discriminate|]. intros _.
    destruct (0 <=? e) eqn:E; zbool.
    + intros H. assert (Hv : k = Z.pos m * 2 ^ e) by congruence.
      pose proof (pow2_pos e E). rewrite Hv.
      apply Z.mul_nonneg_nonneg; lia.
    + destruct (Z.pos m mod 2 ^ (- e) =? 0); [|discriminate].
      intros H. assert (Hv : k = Z.pos m / 2 ^ (- e)) by congruence.
      pose proof (pow2_pos (- e) ltac:(lia)) as Hp. rewrite Hv.
      apply Z.div_pos; lia.
Qed.

Lemma to_Z_finite (y : JS.number) (k : Z) :
  JS.to_Z y = Some k -> JS.isNaN y = false /\ JS.isFinite y = true.
Proof. destruct y; simpl; try discriminate; intros _; split; reflexivity. Qed.

Lemma leb_not_NaN (y : JS.number) :
  JS.leb (JS.of_Z 0) y = true -> JS.isNaN y = false.
Proof. rewrite of_Z_0. destruct y; simpl; try discriminate; reflexivity. Qed.

Lemma schema_name_ok (n : string) :
  n <> EmptyString -> Actions.schema_name (Actions.VString n) = Actions.OK n.
Proof.
  intros H. destruct n as [|c n]; [congruence|reflexivity].
Qed.

Lemma schema_price_ok (StringToNumber : string -> JS.number) (zod4 : bool)
    (v : Actions.jsval) :
  JS.leb (JS.of_Z 0) (Actions.ToNumber StringToNumber v) = true ->
  JS.isFinite (Actions.ToNumber StringToNumber v) = true ->
  Actions.schema_price StringToNumber zod4 v
  = Actions.OK (Actions.ToNumber StringToNumber v).
Proof.
  intros Hp Hf.
  unfold Actions.schema_price, Actions.nonnegative, Actions.refine,
    Actions.z_coerce_number. cbv zeta.
  rewrite (leb_not_NaN _ Hp), Hf. cbn [negb]. rewrite andb_false_r, Hp.
  reflexivity.
Qed.

Lemma integer_checks_ok (StringToNumber : string -> JS.number) (zod4 : bool)
    (v : Actions.jsval) (k : Z) :
  JS.to_Z (Actions.ToNumber StringToNumber v) = Some k ->
  0 <= k <= 2 ^ 53 - 1 ->
  Actions.num_min 0 "Quantity must be non-negative"
    (Actions.int zod4 (Actions.z_coerce_number StringToNumber zod4)) v
  = Actions.OK (Actions.ToNumber StringToNumber v).
Proof.
  intros Hq Hk.
  unfold Actions.num_min, Actions.int, Actions.refine, Actions.z_coerce_number.
  cbv zeta.
  destruct (to_Z_finite _ _ Hq) as [Hqn Hqf].
  rewrite Hqn, Hqf. cbn [negb]. rewrite andb_false_r.
  unfold JS.isInteger, Actions.safe_integer. rewrite Hq.
  replace (Z.abs k <=? 2 ^ 53 - 1) with true
    by (symmetry; apply Z.leb_le; lia).
  rewrite orb_true_r. cbn [andb].
  rewrite (to_Z_nonneg_leb _ _ Hq) by lia. reflexivity.
Qed.

Lemma schema_sku_ok (v : Actions.jsval) :
  v <> Actions.VFile ->
  Actions.schema_sku (Actions.or_else v Actions.VUndefined)
  = Actions.OK match v with
               | Actions.VString s =>
                   if String.eqb s EmptyString then None else Some s
               | _ => None
               end.
Proof.
  intros H. destruct v as [| |s|]; try reflexivity; [|congruence].
  unfold Actions.or_else, Actions.truthy.
  destruct (String.eqb s EmptyString); reflexivity.
Qed.

(** What the schema makes of a form whose fields are all acceptable. *)
Lemma safeParse_valid (StringToNumber : string -> JS.number)
    (zod4 : bool) (formData : Actions.FormData) (n : string) (k : Z) :
  Actions.formData_get formData "name" = Actions.VString n ->
  n <> EmptyString ->
  JS.leb (JS.of_Z 0)
         (Actions.ToNumber StringToNumber (Actions.formData_get formData "price"))
  = true ->
  JS.isFinite
    (Actions.ToNumber StringToNumber (Actions.formData_get formData "price"))
  = true ->
  JS.to_Z
    (Actions.ToNumber StringToNumber (Actions.formData_get formData "quantity"))
  = Some k ->
  0 <= k <= 2 ^ 53 - 1 ->
  Actions.formData_get formData "sku" <> Actions.VFile ->
  Actions.ProductSchema_safeParse StringToNumber zod4
    [ ("name", Actions.formData_get formData "name");
      ("price", Actions.formData_get formData "price");
      ("quantity", Actions.formData_get formData "quantity");
      ("sku", Actions.or_else (Actions.formData_get formData "sku")
                              Actions.VUndefined) ]%string
  = Actions.OK
      (Actions.mkData n
         (Actions.ToNumber StringToNumber (Actions.formData_get formData "price"))
         (Actions.ToNumber StringToNumber
            (Actions.formData_get formData "quantity"))
         (Requests.sku_of formData) None).
Proof.
  intros Hn Hne Hp Hpf Hq Hk Hs.
  unfold Actions.ProductSchema_safeParse.
  cbn [Actions.prop String.eqb Ascii.eqb Bool.eqb].
  rewrite Hn, (schema_name_ok n Hne), (schema_price_ok _ _ _ Hp Hpf).
  unfold Actions.schema_quantity.
  rewrite (integer_checks_ok _ _ _ k Hq Hk), (schema_sku_ok _ Hs).
  reflexivity.
Qed.

(** What createProduct writes for data the schema lets through. *)
Lemma createProduct_writes (StringToNumber : string -> JS.number)
    (zod4 : bool) (user_id : string) (env : Actions.PrismaEnv)
    (formData : Actions.FormData) (db : Prisma.table)
    (data : Actions.ProductData) (k : Z) :
  Actions.ProductSchema_safeParse StringToNumber zod4
    [ ("name", Actions.formData_get formData "name");
      ("price", Actions.formData_get formData "price");
      ("quantity", Actions.formData_get formData "quantity");
      ("sku", Actions.or_else (Actions.formData_get formData "sku")
                              Actions.VUndefined) ]%string
  = Actions.OK data ->
  Actions.data_lowStockAt data = None ->
  JS.to_Z (Actions.data_quantity data) = Some k ->
  Actions.write_succeeds env = true ->
  Actions.createProduct StringToNumber zod4 user_id env formData db
  = (Actions.Throw (Actions.Error "Failed to create product"),
     (db ++ [ {| id := Actions.new_id env;
                 userId := user_id;
                 name := Actions.data_name data;
                 sku := Actions.data_sku data;
                 price := Actions.data_price data;
                 quantity := k;
                 lowStockAt := None;
                 createdAt := Actions.new_createdAt env |} ])%list).
Proof.
  intros Hparse Hl Hq Hw.
  rewrite createProduct_unfold, Hparse.
  unfold Actions.prisma_create. rewrite Hl, Hw, Hq. reflexivity.
Qed.

(** X13.  A form with a non-empty name, a price that is a finite number
    >= 0, a quantity that is an integer between 0 and 2^53 - 1 and a SKU
    that is not a file passes validation under either version of the schema
    library; when the store accepts the write, exactly one record is
    appended for the current user, with the form's name, price and quantity,
    the SKU when it is not empty, the store's id and creation time, and no
    threshold (and the action then throws "Failed to create product"). *)
Theorem createProduct_persists_valid_form (StringToNumber : string -> JS.number)
    (zod4 : bool) (user_id : string) (env : Actions.PrismaEnv)
    (formData : Actions.FormData) (db : Prisma.table)
    (n : string) (k : Z) :
  Actions.formData_get formData "name" = Actions.VString n ->
  n <> EmptyString ->
  JS.leb (JS.of_Z 0)
         (Actions.ToNumber StringToNumber (Actions.formData_get formData "price"))
  = true ->
  JS.isFinite
    (Actions.ToNumber StringToNumber (Actions.formData_get formData "price"))
  = true ->
  JS.to_Z
    (Actions.ToNumber StringToNumber (Actions.formData_get formData "quantity"))
  = Some k ->
  0 <= k <= 2 ^ 53 - 1 ->
  Actions.formData_get formData "sku" <> Actions.VFile ->
  Actions.write_succeeds env = true ->
  Actions.createProduct StringToNumber zod4 user_id env formData db
  = (Actions.Throw (Actions.Error "Failed to create product"),
     (db ++ [ {| id := Actions.new_id env;
                 userId := user_id;
                 name := n;
                 sku := Requests.sku_of formData;
                 price := Actions.ToNumber StringToNumber
                            (Actions.formData_get formData "price");
                 quantity := k;
                 lowStockAt := None;
                 createdAt := Actions.new_createdAt env |} ])%list).
Proof.
  intros Hn Hne Hp Hpf Hq Hk Hs Hw.
  pose proof (safeParse_valid StringToNumber zod4 formData n k
                Hn Hne Hp Hpf Hq Hk Hs) as Hparse.
  rewrite (createProduct_writes _ _ _ _ _ _ _ k Hparse eq_refl Hq Hw).
  reflexivity.
Qed.

Lemma createProduct_persists_valid_form_witness :
  snd (Actions.createProduct Actions.decimal_StringToNumber false "u1"
         (Actions.mkEnv "id1" 1000 true)
         (("sku", Actions.Text "W-1") :: widget_form)%string [])
  = [ {| id := "id1"; userId := "u1"; name := "Widget"; sku := Some "W-1"%string;
         price := JS.of_Z 12; quantity := 3; lowStockAt := None;
         createdAt := 1000 |} ].
Proof.
  rewrite (createProduct_persists_valid_form Actions.decimal_StringToNumber
             false "u1" (Actions.mkEnv "id1" 1000 true)
             (("sku", Actions.Text "W-1") :: widget_form)%string []
             "Widget" 3).
  - reflexivity.
  - reflexivity.
  - discriminate.
  - reflexivity.
  - reflexivity.
  - vm_compute. reflexivity.
  - lia.
  - discriminate.
  - reflexivity.
Defined.

(** X14.  A form without a price field and without a quantity field is not
    rejected: [Number(null)] is 0, so with a non-empty name the record is
    written with price 0 and quantity 0, whatever the runtime's reading of
    strings. *)
Theorem createProduct_missing_numbers_are_zero
    (StringToNumber : string -> JS.number)
    (zod4 : bool) (user_id : string) (env : Actions.PrismaEnv)
    (formData : Actions.FormData) (db : Prisma.table) (n : string) :
  Actions.formData_get formData "name" = Actions.VString n ->
  n <> EmptyString ->
  Actions.formData_get formData "price" = Actions.VNull ->
  Actions.formData_get formData "quantity" = Actions.VNull ->
  Actions.formData_get formData "sku" <> Actions.VFile ->
  Actions.write_succeeds env = true ->
  snd (Actions.createProduct StringToNumber zod4 user_id env formData db)
  = (db ++ [ {| id := Actions.new_id env;
                userId := user_id;
                name := n;
                sku := Requests.sku_of formData;
                price := S754_zero false;
                quantity := 0;
                lowStockAt := None;
                createdAt := Actions.new_createdAt env |} ])%list.
Proof.
  intros Hn Hne Hp Hq Hs Hw.
  assert (Hpl : JS.leb (JS.of_Z 0)
                  (Actions.ToNumber StringToNumber
                     (Actions.formData_get formData "price")) = true)
    by (rewrite Hp; reflexivity).
  assert (Hpf : JS.isFinite
                  (Actions.ToNumber StringToNumber
                     (Actions.formData_get formData "price")) = true)
    by (rewrite Hp; reflexivity).
  assert (Hqz : JS.to_Z
                  (Actions.ToNumber StringToNumber
                     (Actions.formData_get formData "quantity")) = Some 0)
    by (rewrite Hq; reflexivity).
  pose proof (safeParse_valid StringToNumber zod4 formData n 0
                Hn Hne Hpl Hpf Hqz ltac:(lia) Hs) as Hparse.
  rewrite (createProduct_writes _ _ _ _ _ _ _ 0 Hparse eq_refl Hqz Hw).
  cbn [snd Actions.data_name Actions.data_sku Actions.data_price].
  rewrite Hp. reflexivity.
Qed.

Lemma createProduct_missing_numbers_are_zero_witness :
  snd (Actions.createProduct (fun _ => S754_nan) true "u1"
         (Actions.mkEnv "id1" 1000 true) [("name", Actions.Text "Widget")]%string [])
  = [ {| id := "id1"; userId := "u1"; name := "Widget"; sku := None;
         price := S754_zero false; quantity := 0; lowStockAt := None;
         createdAt := 1000 |} ].
Proof.
  apply (createProduct_missing_numbers_are_zero (fun _ => S754_nan) true "u1"
           (Actions.mkEnv "id1" 1000 true)
           [("name", Actions.Text "Widget")]%string [] "Widget");
    try reflexivity; discriminate.
Defined.

Lemma safeParse_invalid (StringToNumber : string -> JS.number) (zod4 : bool)
    (o : Actions.object) :
  (exists i, Actions.schema_name (Actions.prop o "name") = Actions.Invalid i)
  \/ (exists i, Actions.schema_price StringToNumber zod4 (Actions.prop o "price")
                = Actions.Invalid i)
  \/ (exists i, Actions.schema_quantity StringToNumber zod4
                  (Actions.prop o "quantity") = Actions.Invalid i)
  \/ (exists i, Actions.schema_sku (Actions.prop o "sku") = Actions.Invalid i) ->
  exists i, Actions.ProductSchema_safeParse StringToNumber zod4 o
            = Actions.Invalid i.
Proof.
  unfold Actions.ProductSchema_safeParse.
  destruct (Actions.schema_name (Actions.prop o "name")) as [a|ia],
    (Actions.schema_price StringToNumber zod4 (Actions.prop o "price")) as [b|ib],
    (Actions.schema_quantity StringToNumber zod4 (Actions.prop o "quantity"))
      as [c|ic],
    (Actions.schema_sku (Actions.prop o "sku")) as [d|id_],
    (Actions.schema_lowStockAt StringToNumber zod4 (Actions.prop o "lowStockAt"))
      as [e|ie];
    intros [[i H]|[[i H]|[[i H]|[i H]]]]; try discriminate; eauto.
Qed.

Lemma refine_fails {A : Type} (check : A -> bool) (issue : string)
    (s : Actions.schema A) (v : Actions.jsval) :
  (forall a, s v = Actions.OK a -> check a = false) ->
  exists i, Actions.refine check issue s v = Actions.Invalid i.
Proof.
  intros H. unfold Actions.refine. destruct (s v) as [a|i]; [|eauto].
  rewrite (H a eq_refl). eauto.
Qed.

Lemma coerce_number_value (StringToNumber : string -> JS.number) (zod4 : bool)
    (v : Actions.jsval) (a : JS.number) :
  Actions.z_coerce_number StringToNumber zod4 v = Actions.OK a ->
  a = Actions.ToNumber StringToNumber v.
Proof.
  unfold Actions.z_coerce_number. cbv zeta.
  destruct (JS.isNaN _); [discriminate|].
  destruct (zod4 && _); [discriminate|]. congruence.
Qed.

Lemma refine_value {A : Type} (check : A -> bool) (issue : string)
    (s : Actions.schema A) (v : Actions.jsval) (a : A) :
  Actions.refine check issue s v = Actions.OK a ->
  s v = Actions.OK a /\ check a = true.
Proof.
  unfold Actions.refine. destruct (s v) as [b|i]; [|discriminate].
  destruct (check b) eqn:E; [|discriminate]. intros H.
  assert (b = a) by congruence. subst b. split; [reflexivity|exact E].
Qed.

(** X15.  createProduct rejects a form, throwing "Validation failed" and
    leaving the product table as it was, whenever the name is missing, a
    file or empty, or the price is not a number >= 0, or the quantity is not
    an integer or is negative, or the SKU is a file. *)
Theorem createProduct_rejects_invalid_form
    (StringToNumber : string -> JS.number)
    (zod4 : bool) (user_id : string) (env : Actions.PrismaEnv)
    (formData : Actions.FormData) (db : Prisma.table) :
  (forall s, Actions.formData_get formData "name" = Actions.VString s ->
             s = EmptyString)
  \/ JS.leb (JS.of_Z 0)
            (Actions.ToNumber StringToNumber
               (Actions.formData_get formData "price")) = false
  \/ JS.isInteger
       (Actions.ToNumber StringToNumber
          (Actions.formData_get formData "quantity")) = false
  \/ JS.leb (JS.of_Z 0)
            (Actions.ToNumber StringToNumber
               (Actions.formData_get formData "quantity")) = false
  \/ Actions.formData_get formData "sku" = Actions.VFile ->
  Actions.createProduct StringToNumber zod4 user_id env formData db
  = (Actions.Throw (Actions.Error "Validation failed"), db).
Proof.
  intros H. rewrite createProduct_unfold.
  destruct (safeParse_invalid StringToNumber zod4
              [ ("name", Actions.formData_get formData "name");
                ("price", Actions.formData_get formData "price");
                ("quantity", Actions.formData_get formData "quantity");
                ("sku", Actions.or_else (Actions.formData_get formData "sku")
                                        Actions.VUndefined) ]%string)
    as [i Hi]; [|rewrite Hi; reflexivity].
  cbn [Actions.prop String.eqb Ascii.eqb Bool.eqb].
  destruct H as [H|[H|[H|[H|H]]]].
  - left. unfold Actions.schema_name, Actions.str_min.
    apply refine_fails. intros a Ha. unfold Actions.z_string in Ha.
    destruct (Actions.formData_get formData "name") as [| |s|];
      try discriminate.
    rewrite (H s eq_refl) in Ha. assert (a = EmptyString) by congruence.
    subst a. reflexivity.
  - right. left. unfold Actions.schema_price, Actions.nonnegative.
    apply refine_fails. intros a Ha.
    rewrite (coerce_number_value _ _ _ _ Ha). exact H.
  - right. right. left. unfold Actions.schema_quantity, Actions.num_min.
    apply refine_fails. intros a Ha. exfalso.
    unfold Actions.int in Ha. apply refine_value in Ha.
    destruct Ha as [Ha Hc]. rewrite (coerce_number_value _ _ _ _ Ha) in Hc.
    rewrite H in Hc. discriminate.
  - right. right. left. unfold Actions.schema_quantity, Actions.num_min.
    apply refine_fails. intros a Ha.
    unfold Actions.int in Ha. apply refine_value in Ha.
    destruct Ha as [Ha _]. rewrite (coerce_number_value _ _ _ _ Ha). exact H.
  - right. right. right. rewrite H. eexists. reflexivity.
Qed.

Lemma createProduct_rejects_invalid_form_witness :
  Actions.createProduct Actions.decimal_StringToNumber true "u1"
    (Actions.mkEnv "id1" 1000 true)
    [ ("name", Actions.Text "Widget"); ("price", Actions.Text "12");
      ("quantity", Actions.Text "many") ]%string seven_products
  = (Actions.Throw (Actions.Error "Validation failed"), seven_products).
Proof.
  apply createProduct_rejects_invalid_form.
  right. right. left. reflexivity.
Defined.

Lemma deleteProduct_filter (user_id : string) (formData : Actions.FormData)
    (db : Prisma.table) :
  Actions.deleteProduct user_id formData db
  = (Actions.Normal,
     filter (fun p => negb (String.eqb (id p) (Actions.submitted_id formData)
                            && String.eqb (userId p) user_id)) db).
Proof. unfold Actions.deleteProduct. rewrite deleteMany_filter. reflexivity. Qed.

Lemma filter_idempotent {A : Type} (f : A -> bool) (l : list A) :
  filter f (filter f l) = filter f l.
Proof.
  apply filter_all. intros a Ha. apply filter_In in Ha. apply Ha.
Qed.

(** X16.  Submitting the same delete request twice has the effect of
    submitting it once: the second call removes nothing and completes
    normally. *)
Theorem deleteProduct_idempotent (user_id : string)
    (formData : Actions.FormData) (db : Prisma.table) :
  Actions.deleteProduct user_id formData
    (snd (Actions.deleteProduct user_id formData db))
  = Actions.deleteProduct user_id formData db.
Proof.
  rewrite !deleteProduct_filter. simpl snd. rewrite filter_idempotent.
  reflexivity.
Qed.

Lemma submitted_id_text (i : string) :
  Actions.submitted_id [("id"%string, Actions.Text i)] = i.
Proof.
  unfold Actions.submitted_id. simpl.
  destruct i as [|c i]; reflexivity.
Qed.

(** X17.  A delete request whose form has no id field, or an empty one, is
    carried out with the empty string as the id: it completes normally and
    removes nothing as long as no record of the user has an empty id. *)
Theorem deleteProduct_without_id (user_id : string)
    (formData : Actions.FormData) (db : Prisma.table) :
  Actions.formData_get formData "id" = Actions.VNull
  \/ Actions.formData_get formData "id" = Actions.VString EmptyString ->
  (forall p, In p db -> userId p = user_id -> id p <> EmptyString) ->
  Actions.submitted_id formData = EmptyString
  /\ Actions.deleteProduct user_id formData db = (Actions.Normal, db).
Proof.
  intros Hid Hids.
  assert (Hs : Actions.submitted_id formData = EmptyString).
  { unfold Actions.submitted_id. destruct Hid as [-> | ->]; reflexivity. }
  split; [exact Hs|].
  rewrite deleteProduct_filter, Hs. f_equal. apply filter_all.
  intros p Hp. apply negb_true_iff, not_true_is_false. intros H.
  apply andb_true_iff in H. destruct H as [H1 H2].
  apply String.eqb_eq in H1, H2. exact (Hids p Hp H2 H1).
Qed.

Lemma deleteProduct_without_id_witness :
  Actions.deleteProduct "u" [] seven_products = (Actions.Normal, seven_products).
Proof.
  refine (proj2 (deleteProduct_without_id "u" [] seven_products _ _)).
  - left. reflexivity.
  - intros p Hin _. simpl in Hin.
    repeat (destruct Hin as [<-|Hin]; [discriminate|]). destruct Hin.
Defined.

(** What the schema guarantees of the data it lets through. *)
Lemma safeParse_OK_inv (StringToNumber : string -> JS.number) (zod4 : bool)
    (o : Actions.object) (data : Actions.ProductData) :
  Actions.ProductSchema_safeParse StringToNumber zod4 o = Actions.OK data ->
  Actions.data_name data <> EmptyString
  /\ JS.leb (JS.of_Z 0) (Actions.data_price data) = true
  /\ JS.leb (JS.of_Z 0) (Actions.data_quantity data) = true.
Proof.
  unfold Actions.ProductSchema_safeParse.
  destruct (Actions.schema_name (Actions.prop o "name")) as [a|ia] eqn:Ea;
    [|discriminate].
  destruct (Actions.schema_price StringToNumber zod4 (Actions.prop o "price"))
    as [b|ib] eqn:Eb; [|discriminate].
  destruct (Actions.schema_quantity StringToNumber zod4
              (Actions.prop o "quantity")) as [c|ic] eqn:Ec; [|discriminate].
  destruct (Actions.schema_sku (Actions.prop o "sku")) as [d|id_];
    [|discriminate].
  destruct (Actions.schema_lowStockAt StringToNumber zod4
              (Actions.prop o "lowStockAt")) as [e|ie]; [|discriminate].
  intros H. assert (Hd : data = Actions.mkData a b c d e) by congruence.
  subst data. cbn [Actions.data_name Actions.data_price Actions.data_quantity].
  apply refine_value in Ea, Eb, Ec.
  destruct Ea as [_ Ea], Eb as [_ Eb], Ec as [_ Ec].
  split; [|split; assumption].
  intros ->. discriminate Ea.
Qed.

(** The record createProduct appends, when it appends one. *)
Lemma createProduct_new_record (StringToNumber : string -> JS.number)
    (zod4 : bool) (user_id : string) (env : Actions.PrismaEnv)
    (formData : Actions.FormData) (db : Prisma.table) :
  snd (Actions.createProduct StringToNumber zod4 user_id env formData db) = db
  \/ exists p,
       snd (Actions.createProduct StringToNumber zod4 user_id env formData db)
       = (db ++ [p])%list
       /\ id p = Actions.new_id env /\ userId p = user_id
       /\ lowStockAt p = None /\ 0 <= quantity p
       /\ name p <> EmptyString
       /\ JS.leb (JS.of_Z 0) (price p) = true.
Proof.
  rewrite createProduct_unfold.
  destruct (Actions.ProductSchema_safeParse _ _ _) as [data|issue] eqn:Hparse;
    [|left; reflexivity].
  pose proof Hparse as Hlow.
  apply safeParse_without_lowStockAt in Hlow; [|reflexivity].
  destruct (safeParse_OK_inv _ _ _ _ Hparse) as (Hname & Hprice & Hqty).
  unfold Actions.prisma_create. rewrite Hlow.
  destruct (Actions.write_succeeds env); [|left; reflexivity].
  destruct (JS.to_Z (Actions.data_quantity data)) as [k|] eqn:Hk;
    [|left; reflexivity].
  right. eexists. split; [reflexivity|]. simpl.
  repeat split; try assumption.
  exact (leb_to_Z_nonneg _ _ Hqty Hk).
Qed.

(** X18.  Deleting, as the same user, the product a successful
    createProduct has just written undoes the creation, provided the store
    gave the new record an id that no other record of that user has. *)
Theorem delete_after_create_restores (StringToNumber : string -> JS.number)
    (zod4 : bool) (user_id : string) (env : Actions.PrismaEnv)
    (formData : Actions.FormData) (db : Prisma.table) (p : Product) :
  snd (Actions.createProduct StringToNumber zod4 user_id env formData db)
  = (db ++ [p])%list ->
  (forall r, In r db -> userId r = user_id -> id r <> Actions.new_id env) ->
  id p = Actions.new_id env
  /\ Actions.deleteProduct user_id [("id"%string, Actions.Text (id p))]
       (snd (Actions.createProduct StringToNumber zod4 user_id env formData db))
     = (Actions.Normal, db).
Proof.
  intros Hc Hfresh.
  destruct (createProduct_new_record StringToNumber zod4 user_id env formData db)
    as [H|(p' & H & Hid & Hu & _)].
  - rewrite H in Hc. apply (f_equal (@List.length Product)) in Hc.
    rewrite length_app in Hc. simpl in Hc. lia.
  - rewrite H in Hc. apply app_inj_tail in Hc. destruct Hc as [_ <-].
    split; [exact Hid|].
    rewrite H, deleteProduct_filter, submitted_id_text. f_equal.
    rewrite filter_app. simpl.
    rewrite !String.eqb_refl, Hu, String.eqb_refl. simpl.
    rewrite app_nil_r. apply filter_all.
    intros r Hr. apply negb_true_iff, not_true_is_false. intros Hm.
    apply andb_true_iff in Hm. destruct Hm as [H1 H2].
    apply String.eqb_eq in H1, H2.
    apply (Hfresh r Hr H2). congruence.
Qed.

Lemma delete_after_create_restores_witness :
  Actions.deleteProduct "u1" [("id", Actions.Text "id1")]%string
    (snd (Actions.createProduct Actions.decimal_StringToNumber true "u1"
            (Actions.mkEnv "id1" 1000 true) widget_form seven_products))
  = (Actions.Normal, seven_products).
Proof.
  refine (proj2 (delete_after_create_restores Actions.decimal_StringToNumber
                   true "u1" (Actions.mkEnv "id1" 1000 true) widget_form
                   seven_products
                   {| id := "id1"; userId := "u1"; name := "Widget"; sku := None;
                      price := JS.of_Z 12; quantity := 3; lowStockAt := None;
                      createdAt := 1000 |} _ _)).
  - vm_compute. reflexivity.
  - intros r Hin Hu. simpl in Hin.
    repeat (destruct Hin as [<-|Hin]; [discriminate Hu|]). destruct Hin.
Defined.

Lemma handle_keeps (StringToNumber : string -> JS.number) (zod4 : bool)
    (P : Product -> Prop) (db : Prisma.table) (r : Requests.request) :
  (forall p, lowStockAt p = None -> 0 <= quantity p -> name p <> EmptyString ->
             JS.leb (JS.of_Z 0) (price p) = true -> P p) ->
  Forall P db -> Forall P (Requests.handle StringToNumber zod4 db r).
Proof.
  intros HP Hdb. destruct r as [u env fd|u fd]; simpl.
  - destruct (createProduct_new_record StringToNumber zod4 u env fd db)
      as [->|(p & -> & _ & _ & Hl & Hq & Hn & Hpr)]; [exact Hdb|].
    apply Forall_app. split; [exact Hdb|].
    constructor; [apply HP; assumption|constructor].
  - rewrite deleteProduct_filter. simpl.
    apply Forall_forall. intros p Hp. apply filter_In in Hp.
    rewrite Forall_forall in Hdb. apply Hdb, Hp.
Qed.

Lemma run_keeps (StringToNumber : string -> JS.number) (zod4 : bool)
    (P : Product -> Prop) (requests : list Requests.request) :
  (forall p, lowStockAt p = None -> 0 <= quantity p -> name p <> EmptyString ->
             JS.leb (JS.of_Z 0) (price p) = true -> P p) ->
  Forall P (Requests.run StringToNumber zod4 requests).
Proof.
  intros HP. unfold Requests.run.
  assert (H : forall db, Forall P db ->
                Forall P (fold_left (Requests.handle StringToNumber zod4)
                                    requests db)).
  { induction requests as [|r rs IH]; intros db Hdb; [exact Hdb|].
    simpl. apply IH, handle_keeps; assumption. }
  apply H. constructor.
Qed.

(** X19.  In every product table that the two server actions can produce
    from an empty one, each record has a non-empty name, a price >= 0, a
    non-negative quantity and no threshold.  So for every user the Low Stock
    figure of the dashboard is 0, the three stock counts add up to the
    number of the user's records, and the recent list applies the
    threshold 5 to every record. *)
Theorem reachable_tables (StringToNumber : string -> JS.number) (zod4 : bool)
    (requests : list Requests.request) (user_id : string) :
  (forall p, In p (Requests.run StringToNumber zod4 requests) ->
             name p <> EmptyString
             /\ JS.leb (JS.of_Z 0) (price p) = true
             /\ 0 <= quantity p
             /\ lowStockAt p = None
             /\ Dashboard.threshold p = 5)
  /\ Dashboard.lowStock (Requests.run StringToNumber zod4 requests) user_id = 0
  /\ (Dashboard.inStockCount (Requests.run StringToNumber zod4 requests) user_id
      + Dashboard.lowStockCount (Requests.run StringToNumber zod4 requests) user_id
      + Dashboard.outOfStockCount (Requests.run StringToNumber zod4 requests)
          user_id)%nat
     = List.length
         (Dashboard.allProducts (Requests.run StringToNumber zod4 requests)
            user_id).
Proof.
  set (db := Requests.run StringToNumber zod4 requests).
  assert (Hall : forall p, In p db ->
             name p <> EmptyString
             /\ JS.leb (JS.of_Z 0) (price p) = true
             /\ 0 <= quantity p
             /\ lowStockAt p = None
             /\ Dashboard.threshold p = 5).
  { apply Forall_forall. apply run_keeps.
    intros p Hl Hq Hn Hp. repeat split; try assumption.
    unfold Dashboard.threshold. rewrite Hl. reflexivity. }
  assert (Hsub : forall p, In p (Dashboard.allProducts db user_id) -> In p db).
  { intros p Hp. unfold Dashboard.allProducts, Prisma.findMany in Hp.
    apply filter_In in Hp. apply Hp. }
  split; [exact Hall|]. split.
  - rewrite lowStock_as_filter. rewrite filter_none; [reflexivity|].
    intros p Hp. destruct (Hall p (Hsub p Hp)) as (_ & _ & _ & Hl & _).
    rewrite Hl. reflexivity.
  - apply partition_three. intros p Hp.
    destruct (Hall p (Hsub p Hp)) as (_ & _ & Hq & _). exact Hq.
Qed.

(* ===================================================================== *)
(** * The inventory page                                                  *)
(* ===================================================================== *)

Lemma inventory_checks : Inventory.checks_upto 400 2000 = true.
Proof. vm_cast_no_check (@eq_refl bool true). Qed.

Lemma checks_upto_sound (pages counts : nat) :
  Inventory.checks_upto pages counts = true ->
  (forall n, - Z.of_nat pages <= n <= Z.of_nat pages ->
             Inventory.page_check n = true)
  /\ (forall c, 0 <= c <= Z.of_nat counts -> Inventory.count_check c = true).
Proof.
  unfold Inventory.checks_upto. intros H.
  apply andb_true_iff in H. destruct H as [Hp Hc].
  rewrite forallb_forall in Hp, Hc. split.
  - intros n Hn.
    assert (Hin : In (Z.to_nat (Z.abs n)) (seq 0 (S pages)))
      by (apply in_seq; lia).
    specialize (Hp _ Hin). apply andb_true_iff in Hp.
    rewrite Z2Nat.id in Hp by lia.
    destruct (Z.abs_spec n) as [[_ Ha]|[_ Ha]]; rewrite Ha in Hp.
    + apply Hp.
    + rewrite Z.opp_involutive in Hp. apply Hp.
  - intros c Hc'.
    assert (Hin : In (Z.to_nat c) (seq 0 (S counts))) by (apply in_seq; lia).
    specialize (Hc _ Hin). rewrite Z2Nat.id in Hc by lia. exact Hc.
Qed.

(** The page arithmetic on an integer page number between -400 and 400. *)
Lemma page_arithmetic (n : Z) :
  -400 <= n <= 400 ->
  JSMath.Math_max (JS.of_Z 1) (JS.of_Z n) = JS.of_Z (Z.max 1 n)
  /\ JS.to_Z (JS.of_Z (Z.max 1 n)) = Some (Z.max 1 n)
  /\ JS.to_Z (JS.mul (JSMath.sub (JS.of_Z (Z.max 1 n)) (JS.of_Z 1)) (JS.of_Z 5))
     = Some (5 * (Z.max 1 n - 1)).
Proof.
  intros Hn.
  pose proof (proj1 (checks_upto_sound 400 2000 inventory_checks) n) as H.
  assert (Hc : Inventory.page_check n = true).
  { apply H. split; [|apply Hn]. change (- Z.of_nat 400) with (-400). apply Hn. }
  clear H. unfold Inventory.page_check in Hc. cbv zeta in Hc.
  apply andb_true_iff in Hc. destruct Hc as [Hs Hm].
  apply same_eq in Hs. rewrite Hs in Hm. split; [exact Hs|].
  destruct (JS.to_Z (JS.of_Z (Z.max 1 n))) as [p|]; [|discriminate].
  destruct (JS.to_Z (JS.mul (JSMath.sub (JS.of_Z (Z.max 1 n)) (JS.of_Z 1))
                            (JS.of_Z 5))) as [k|]; [|discriminate].
  apply andb_true_iff in Hm. destruct Hm as [Hp Hk].
  apply Z.eqb_eq in Hp, Hk. subst. split; reflexivity.
Qed.

(** The page count for up to 2000 matching products. *)
Lemma count_arithmetic (c : Z) :
  0 <= c <= 2000 ->
  JSMath.Math_max (JS.of_Z 1)
    (JSMath.Math_ceil (JS.div (JS.of_Z c) (JS.of_Z 5)))
  = JS.of_Z (Z.max 1 ((c + 4) / 5))
  /\ JS.to_Z (JS.of_Z (Z.max 1 ((c + 4) / 5))) = Some (Z.max 1 ((c + 4) / 5))
  /\ JS.ltb (JS.of_Z 1) (JS.of_Z (Z.max 1 ((c + 4) / 5))) = (5 <? c).
Proof.
  intros Hc0.
  pose proof (proj2 (checks_upto_sound 400 2000 inventory_checks) c) as H.
  assert (Hc : Inventory.count_check c = true).
  { apply H. split; [apply Hc0|]. change (Z.of_nat 2000) with 2000. apply Hc0. }
  clear H. unfold Inventory.count_check in Hc. cbv zeta in Hc.
  apply andb_true_iff in Hc. destruct Hc as [Hc Hl].
  apply andb_true_iff in Hc. destruct Hc as [Hs Hz].
  apply same_eq in Hs. rewrite Hs in Hz, Hl. split; [exact Hs|].
  destruct (JS.to_Z (JS.of_Z (Z.max 1 ((c + 4) / 5)))) as [p|]; [|discriminate].
  apply Z.eqb_eq in Hz. subst p. split; [reflexivity|].
  apply Bool.eqb_prop in Hl. exact Hl.
Qed.

Lemma listing_length (trim : string -> string)
    (contains_insensitive : string -> string -> bool)
    (user_id : string) (db : Prisma.table) (params_q : option string) :
  Z.of_nat (List.length
              (Inventory.listing trim contains_insensitive user_id db params_q))
  = Inventory.totalCount trim contains_insensitive user_id db params_q.
Proof.
  unfold Inventory.listing, Inventory.totalCount, Prisma.count, Prisma.findMany.
  rewrite (Permutation_length (orderBy_Permutation _)). reflexivity.
Qed.

(** What the page shows on an integer page number. *)
Lemma InventoryPage_on_integer (StringToNumber : string -> JS.number)
    (trim : string -> string)
    (contains_insensitive : string -> string -> bool)
    (user_id : string) (db : Prisma.table) (params_q params_page : option string)
    (n : Z) :
  Inventory.page StringToNumber params_page = JS.of_Z (Z.max 1 n) ->
  -400 <= n <= 400 ->
  Inventory.InventoryPage StringToNumber trim contains_insensitive user_id db
    params_q params_page
  = Some {| Inventory.items :=
              firstn 5
                (skipn (Z.to_nat (5 * (Z.max 1 n - 1)))
                   (Inventory.listing trim contains_insensitive user_id db
                      params_q));
            Inventory.totalPages :=
              Inventory.totalPages_ trim contains_insensitive user_id db params_q;
            Inventory.pagination :=
              if JS.ltb (JS.of_Z 1)
                   (Inventory.totalPages_ trim contains_insensitive user_id db
                      params_q)
              then match JS.to_Z
                           (Inventory.totalPages_ trim contains_insensitive
                              user_id db params_q) with
                   | Some t =>
                       Pagination.Pagination (Z.max 1 n) t "/inventory"
                         [ ("q", Inventory.q trim params_q);
                           ("pageSize", JS.String_of_Z Inventory.pageSize) ]%string
                   | None => None
                   end
              else None |}.
Proof.
  intros Hpage Hn.
  destruct (page_arithmetic n Hn) as (_ & Hz & Hk).
  unfold Inventory.InventoryPage, Inventory.skip.
  rewrite Hpage, Hz. change (JS.of_Z Inventory.pageSize) with (JS.of_Z 5).
  rewrite Hk. reflexivity.
Qed.

Lemma page_of_integer (StringToNumber : string -> JS.number) (s : string)
    (n : Z) :
  StringToNumber s = JS.of_Z n -> -400 <= n <= 400 ->
  Inventory.page StringToNumber (Some s) = JS.of_Z (Z.max 1 n).
Proof.
  intros Hs Hn. unfold Inventory.page. rewrite Hs.
  apply (page_arithmetic n Hn).
Qed.

Lemma page_default (StringToNumber : string -> JS.number) :
  Inventory.page StringToNumber None = JS.of_Z (Z.max 1 1).
Proof. reflexivity. Qed.

Lemma page_asked (StringToNumber : string -> JS.number)
    (params_page : option string) (n : Z) :
  Inventory.asks_for_page StringToNumber params_page n -> -400 <= n <= 400 ->
  Inventory.page StringToNumber params_page = JS.of_Z (Z.max 1 n).
Proof.
  intros H Hn. destruct params_page as [s|]; simpl in H.
  - apply page_of_integer; assumption.
  - subst n. apply page_default.
Qed.

Lemma sorted_firstn {A : Type} (R : A -> A -> Prop) (n : nat) (l : list A) :
  StronglySorted R l -> StronglySorted R (firstn n l).
Proof.
  intros H. rewrite <- (firstn_skipn n l) in H.
  apply sorted_app_inv in H. apply H.
Qed.

Lemma sorted_skipn {A : Type} (R : A -> A -> Prop) (n : nat) (l : list A) :
  StronglySorted R l -> StronglySorted R (skipn n l).
Proof.
  intros H. rewrite <- (firstn_skipn n l) in H.
  apply sorted_app_inv in H. apply H.
Qed.

Lemma listing_In (trim : string -> string)
    (contains_insensitive : string -> string -> bool)
    (user_id : string) (db : Prisma.table) (params_q : option string)
    (p : Product) :
  In p (Inventory.listing trim contains_insensitive user_id db params_q) <->
  In p db
  /\ Inventory.where_ trim contains_insensitive user_id params_q p = true.
Proof.
  unfold Inventory.listing, Prisma.findMany. rewrite <- filter_In. split.
  - apply Permutation_in, orderBy_Permutation.
  - apply Permutation_in, Permutation_sym, orderBy_Permutation.
Qed.

(** X20.  Whenever the inventory page renders, it shows at most five rows;
    each row is a product of the current user whose name matches the search
    text when there is one, and the rows are ordered newest first. *)
Theorem inventory_rows (StringToNumber : string -> JS.number)
    (trim : string -> string)
    (contains_insensitive : string -> string -> bool)
    (user_id : string) (db : Prisma.table)
    (params_q params_page : option string) (v : Inventory.view) :
  Inventory.InventoryPage StringToNumber trim contains_insensitive user_id db
    params_q params_page = Some v ->
  (List.length (Inventory.items v) <= 5)%nat
  /\ StronglySorted Shown.not_older (Inventory.items v)
  /\ forall p, In p (Inventory.items v) ->
       In p db /\ userId p = user_id
       /\ (Inventory.q trim params_q <> EmptyString ->
           contains_insensitive (Inventory.q trim params_q) (name p) = true).
Proof.
  unfold Inventory.InventoryPage.
  destruct (JS.to_Z (Inventory.page StringToNumber params_page)) as [n|];
    [|discriminate].
  destruct (JS.to_Z (Inventory.skip StringToNumber params_page)) as [k|];
    [|discriminate].
  intros H. injection H as <-. cbn [Inventory.items].
  unfold Inventory.findMany_page.
  change (Prisma.orderBy_createdAt_desc
            (Prisma.findMany
               (Inventory.where_ trim contains_insensitive user_id params_q) db))
    with (Inventory.listing trim contains_insensitive user_id db params_q).
  split; [apply firstn_le_length|]. split.
  - apply sorted_firstn, sorted_skipn.
    unfold Inventory.listing. apply orderBy_sorted.
  - intros p Hp. apply In_firstn_In, In_skipn_In, listing_In in Hp.
    destruct Hp as [Hin Hw]. unfold Inventory.where_ in Hw.
    apply andb_true_iff in Hw. destruct Hw as [Hu Hm].
    split; [exact Hin|]. split; [apply String.eqb_eq, Hu|].
    intros Hq. apply String.eqb_neq in Hq. rewrite Hq in Hm. exact Hm.
Qed.

Lemma inventory_rows_witness :
  (List.length
     (Inventory.items_on_page Actions.decimal_StringToNumber (fun s => s)
        (fun q n => String.eqb q n) "u" seven_products None 1) <= 5)%nat.
Proof.
  destruct (Inventory.InventoryPage Actions.decimal_StringToNumber (fun s => s)
              (fun q n => String.eqb q n) "u" seven_products None (Some "1"%string))
    as [v|] eqn:E.
  - unfold Inventory.items_on_page.
    change (JS.String_of_Z 1) with "1"%string. rewrite E.
    exact (proj1 (inventory_rows _ _ _ _ _ _ _ v E)).
  - vm_compute in E. discriminate E.
Defined.

(** X21.  An address without a page number, or with one that reads as an
    integer from -400 to 1, shows the first page: the five newest matching
    products of the user. *)
Theorem inventory_first_page (StringToNumber : string -> JS.number)
    (trim : string -> string)
    (contains_insensitive : string -> string -> bool)
    (user_id : string) (db : Prisma.table)
    (params_q params_page : option string) (n : Z) :
  Inventory.asks_for_page StringToNumber params_page n -> -400 <= n <= 1 ->
  exists v,
    Inventory.InventoryPage StringToNumber trim contains_insensitive user_id db
      params_q params_page = Some v
    /\ Inventory.items v
       = firstn 5 (Inventory.listing trim contains_insensitive user_id db
                     params_q).
Proof.
  intros Ha Hn. eexists. split.
  - apply (InventoryPage_on_integer _ _ _ _ _ _ _ n); [|lia].
    apply page_asked; [exact Ha|lia].
  - cbn [Inventory.items].
    replace (Z.to_nat (5 * (Z.max 1 n - 1))) with 0%nat by lia. reflexivity.
Qed.

Lemma inventory_first_page_witness :
  exists v,
    Inventory.InventoryPage Actions.decimal_StringToNumber (fun s => s)
      (fun q n => String.eqb q n) "u" seven_products None (Some "0"%string)
    = Some v
    /\ Inventory.items v
       = firstn 5 (Inventory.listing (fun s => s) (fun q n => String.eqb q n)
                     "u" seven_products None).
Proof.
  apply (inventory_first_page Actions.decimal_StringToNumber (fun s => s)
           (fun q n => String.eqb q n) "u" seven_products None
           (Some "0"%string) 0).
  - reflexivity.
  - lia.
Defined.

(** X22.  On an integer page number (at most 400 in absolute value) and with
    at most 2000 matching products the page renders, its page count is
    max(1, ceil(count / 5)), and the navigation control is shown exactly
    when more than 5 products match; it is then the Pagination component on
    the page number clamped below at 1, that page count, the base URL
    /inventory and the parameters q (the trimmed search text) and
    pageSize = 5. *)
Theorem inventory_page_count (StringToNumber : string -> JS.number)
    (trim : string -> string)
    (contains_insensitive : string -> string -> bool)
    (user_id : string) (db : Prisma.table)
    (params_q params_page : option string) (n : Z) :
  Inventory.asks_for_page StringToNumber params_page n -> -400 <= n <= 400 ->
  Inventory.totalCount trim contains_insensitive user_id db params_q <= 2000 ->
  exists v,
    Inventory.InventoryPage StringToNumber trim contains_insensitive user_id db
      params_q params_page = Some v
    /\ Inventory.totalPages v
       = JS.of_Z (Z.max 1
                    ((Inventory.totalCount trim contains_insensitive user_id db
                        params_q + 4) / 5))
    /\ (Inventory.pagination v = None
        <-> Inventory.totalCount trim contains_insensitive user_id db params_q
            <= 5)
    /\ (5 < Inventory.totalCount trim contains_insensitive user_id db params_q ->
        Inventory.pagination v
        = Pagination.Pagination (Z.max 1 n)
            ((Inventory.totalCount trim contains_insensitive user_id db
                params_q + 4) / 5)
            "/inventory"
            [ ("q", Inventory.q trim params_q); ("pageSize", "5") ]%string).
Proof.
  intros Ha Hn Hc.
  set (c := Inventory.totalCount trim contains_insensitive user_id db params_q)
    in *.
  assert (Hc0 : 0 <= c) by (unfold c, Inventory.totalCount, Prisma.count; lia).
  destruct (count_arithmetic c (conj Hc0 Hc)) as (Htp & Hz & Hlt).
  eexists. split.
  - apply (InventoryPage_on_integer _ _ _ _ _ _ _ n); [|exact Hn].
    apply page_asked; assumption.
  - cbn [Inventory.totalPages Inventory.pagination].
    unfold Inventory.totalPages_. change Inventory.pageSize with 5. fold c.
    rewrite Htp, Hlt, Hz.
    split; [reflexivity|].
    destruct (5 <? c) eqn:E; zbool.
    + replace (Z.max 1 ((c + 4) / 5)) with ((c + 4) / 5)
        by (Z.div_mod_to_equations; lia).
      assert (Ht : 2 <= (c + 4) / 5) by (Z.div_mod_to_equations; lia).
      split; [split; [|lia]|intros _; reflexivity].
      rewrite (Pagination_shown _ _ _ _ Ht). discriminate.
    + split; [split; [lia|reflexivity]|lia].
Qed.

Lemma inventory_page_count_witness :
  exists v,
    Inventory.InventoryPage Actions.decimal_StringToNumber (fun s => s)
      (fun q n => String.eqb q n) "u" seven_products None (Some "2"%string)
    = Some v
    /\ Inventory.totalPages v = JS.of_Z 2.
Proof.
  destruct (inventory_page_count Actions.decimal_StringToNumber (fun s => s)
              (fun q n => String.eqb q n) "u" seven_products None
              (Some "2"%string) 2) as (v & Hv & Ht & _).
  - reflexivity.
  - lia.
  - vm_compute. discriminate.
  - exists v. split; [exact Hv|]. rewrite Ht. reflexivity.
Defined.

Lemma firstn_add {A : Type} (a b : nat) (l : list A) :
  firstn (a + b) l = (firstn a l ++ firstn b (skipn a l))%list.
Proof.
  revert l. induction a as [|a IH]; intros l; [reflexivity|].
  destruct l as [|x l]; simpl; [rewrite firstn_nil; reflexivity|].
  rewrite IH. reflexivity.
Qed.

(** Cutting a list into consecutive pieces of five and gluing the first [m]
    pieces gives its first [5 m] elements. *)
Lemma chunks_concat {A : Type} (m : nat) (l : list A) :
  List.concat (map (fun i => firstn 5 (skipn (5 * i)%nat l)) (seq 0 m))
  = firstn (5 * m)%nat l.
Proof.
  induction m as [|m IH]; [reflexivity|].
  rewrite seq_S, map_app, concat_app, IH. simpl List.concat.
  rewrite app_nil_r. replace (5 * S m)%nat with (5 * m + 5)%nat by lia.
  rewrite firstn_add. reflexivity.
Qed.

Lemma items_on_page_slice (StringToNumber : string -> JS.number)
    (trim : string -> string)
    (contains_insensitive : string -> string -> bool)
    (user_id : string) (db : Prisma.table) (params_q : option string) (n : Z) :
  StringToNumber (JS.String_of_Z n) = JS.of_Z n -> 1 <= n <= 400 ->
  Inventory.items_on_page StringToNumber trim contains_insensitive user_id db
    params_q n
  = firstn 5
      (skipn (5 * Z.to_nat (n - 1))%nat
         (Inventory.listing trim contains_insensitive user_id db params_q)).
Proof.
  intros Hs Hn. unfold Inventory.items_on_page.
  rewrite (InventoryPage_on_integer _ _ _ _ _ _ _ n);
    [|apply page_of_integer; [exact Hs|lia]|lia].
  cbn [Inventory.items]. f_equal. f_equal. lia.
Qed.

(** X23.  With at most 2000 matching products, the pages 1 to
    max(1, ceil(count / 5)) of the inventory cut the matching products,
    ordered newest first, into consecutive pieces: put one after the other,
    their rows are exactly that list, so every matching product is on one of
    the pages the navigation offers.  (The runtime reads the decimal form of
    each of these page numbers back as that number.) *)
Theorem inventory_pages_cover_listing (StringToNumber : string -> JS.number)
    (trim : string -> string)
    (contains_insensitive : string -> string -> bool)
    (user_id : string) (db : Prisma.table) (params_q : option string) :
  (forall n, 1 <= n <= 400 -> StringToNumber (JS.String_of_Z n) = JS.of_Z n) ->
  Inventory.totalCount trim contains_insensitive user_id db params_q <= 2000 ->
  List.concat
    (map (fun i => Inventory.items_on_page StringToNumber trim
                     contains_insensitive user_id db params_q
                     (Z.of_nat (S i)))
         (seq 0 (Z.to_nat
                   (Z.max 1
                      ((Inventory.totalCount trim contains_insensitive user_id
                          db params_q + 4) / 5)))))
  = Inventory.listing trim contains_insensitive user_id db params_q.
Proof.
  intros HS Hc.
  pose proof (listing_length trim contains_insensitive user_id db params_q)
    as Hlen.
  set (c := Inventory.totalCount trim contains_insensitive user_id db params_q)
    in *.
  set (L := Inventory.listing trim contains_insensitive user_id db params_q)
    in *.
  set (m := Z.to_nat (Z.max 1 ((c + 4) / 5))).
  assert (Hm : (m <= 400)%nat) by (unfold m; Z.div_mod_to_equations; lia).
  rewrite (map_ext_in _ (fun i => firstn 5 (skipn (5 * i)%nat L))).
  - rewrite chunks_concat. apply firstn_all2.
    unfold m. Z.div_mod_to_equations. lia.
  - intros i Hi. apply in_seq in Hi.
    rewrite items_on_page_slice; [|apply HS; lia|lia].
    fold L. f_equal. f_equal. lia.
Qed.

Lemma decimal_reads_small_numbers (n : Z) :
  1 <= n <= 400 ->
  Actions.decimal_StringToNumber (JS.String_of_Z n) = JS.of_Z n.
Proof.
  intros Hn.
  assert (Hall : forallb
            (fun k => JS.same (Actions.decimal_StringToNumber
                                 (JS.String_of_Z (Z.of_nat k)))
                              (JS.of_Z (Z.of_nat k)))
            (seq 1 400) = true) by (vm_compute; reflexivity).
  rewrite forallb_forall in Hall.
  specialize (Hall (Z.to_nat n)). rewrite Z2Nat.id in Hall by lia.
  apply same_eq, Hall, in_seq. lia.
Qed.

Lemma inventory_pages_cover_listing_witness :
  (Inventory.items_on_page Actions.decimal_StringToNumber (fun s => s)
     (fun q n => String.eqb q n) "u" seven_products None 1
   ++ Inventory.items_on_page Actions.decimal_StringToNumber (fun s => s)
        (fun q n => String.eqb q n) "u" seven_products None 2)%list
  = Inventory.listing (fun s => s) (fun q n => String.eqb q n) "u"
      seven_products None.
Proof.
  rewrite <- (inventory_pages_cover_listing Actions.decimal_StringToNumber
                (fun s => s) (fun q n => String.eqb q n) "u" seven_products None).
  - vm_compute. reflexivity.
  - apply decimal_reads_small_numbers.
  - vm_compute. discriminate.
Defined.

(** X24.  A page number past the last page (the address is not clamped to
    the page count) still renders: it shows no rows, and when more than 5
    products match, its navigation has no current page and a disabled
    Next. *)
Theorem inventory_past_last_page (StringToNumber : string -> JS.number)
    (trim : string -> string)
    (contains_insensitive : string -> string -> bool)
    (user_id : string) (db : Prisma.table)
    (params_q params_page : option string) (n : Z) :
  Inventory.asks_for_page StringToNumber params_page n -> n <= 400 ->
  Inventory.totalCount trim contains_insensitive user_id db params_q <= 2000 ->
  Z.max 1 ((Inventory.totalCount trim contains_insensitive user_id db params_q
            + 4) / 5) < n ->
  exists v,
    Inventory.InventoryPage StringToNumber trim contains_insensitive user_id db
      params_q params_page = Some v
    /\ Inventory.items v = []
    /\ (5 < Inventory.totalCount trim contains_insensitive user_id db params_q ->
        exists nav,
          Inventory.pagination v = Some nav
          /\ filter PageWindow.is_current (Pagination.items nav) = []
          /\ Pagination.next_disabled nav = true).
Proof.
  intros Ha Hn Hc Hpast.
  pose proof (listing_length trim contains_insensitive user_id db params_q)
    as Hlen.
  set (c := Inventory.totalCount trim contains_insensitive user_id db params_q)
    in *.
  assert (Hc0 : 0 <= c) by (unfold c, Inventory.totalCount, Prisma.count; lia).
  destruct (count_arithmetic c (conj Hc0 Hc)) as (Htp & Hz & Hlt).
  eexists. split; [|split].
  - apply (InventoryPage_on_integer _ _ _ _ _ _ _ n); [|lia].
    apply page_asked; [exact Ha|lia].
  - cbn [Inventory.items]. rewrite skipn_all2; [reflexivity|].
    Z.div_mod_to_equations. lia.
  - intros H5. cbn [Inventory.pagination].
    unfold Inventory.totalPages_. change Inventory.pageSize with 5. fold c.
    rewrite Htp, Hlt, Hz.
    replace (5 <? c) with true by (symmetry; apply Z.ltb_lt; exact H5).
    assert (Ht : 2 <= Z.max 1 ((c + 4) / 5)) by (Z.div_mod_to_equations; lia).
    rewrite (Pagination_shown _ _ _ _ Ht). eexists. split; [reflexivity|].
    cbn [Pagination.items Pagination.next_disabled]. split.
    + rewrite current_items, no_number_past_last_page by lia. reflexivity.
    + rewrite Z.geb_leb. apply Z.leb_le. lia.
Qed.

Lemma inventory_past_last_page_witness :
  exists v,
    Inventory.InventoryPage Actions.decimal_StringToNumber (fun s => s)
      (fun q n => String.eqb q n) "u" seven_products None (Some "9"%string)
    = Some v
    /\ Inventory.items v = [].
Proof.
  destruct (inventory_past_last_page Actions.decimal_StringToNumber (fun s => s)
              (fun q n => String.eqb q n) "u" seven_products None
              (Some "9"%string) 9) as (v & Hv & Hi & _).
  - reflexivity.
  - lia.
  - vm_compute. discriminate.
  - vm_compute. reflexivity.
  - exists v. split; assumption.
Defined.

Lemma InventoryPage_same_query (StringToNumber : string -> JS.number)
    (trim : string -> string)
    (contains_insensitive : string -> string -> bool)
    (user_id : string) (db : Prisma.table)
    (params_q params_q' params_page : option string) :
  Inventory.q trim params_q' = Inventory.q trim params_q ->
  Inventory.InventoryPage StringToNumber trim contains_insensitive user_id db
    params_q' params_page
  = Inventory.InventoryPage StringToNumber trim contains_insensitive user_id db
      params_q params_page.
Proof.
  intros Hq.
  unfold Inventory.InventoryPage, Inventory.totalPages_, Inventory.totalCount,
    Inventory.where_.
  rewrite Hq. reflexivity.
Qed.

(** X25.  Following a page link of the inventory's navigation shows the same
    search on the page the link names: opening the page on the parameters
    read from the link's address gives what the page gives for the same
    search text and that page number.  (Trimming a trimmed text changes
    nothing.) *)
Theorem inventory_link_keeps_search (StringToNumber : string -> JS.number)
    (trim : string -> string)
    (contains_insensitive : string -> string -> bool)
    (user_id : string) (db : Prisma.table)
    (params_q params_page : option string)
    (v : Inventory.view) (nav : Pagination.nav)
    (href : string) (m : Z) (c : bool) :
  (forall s, trim (trim s) = trim s) ->
  Inventory.InventoryPage StringToNumber trim contains_insensitive user_id db
    params_q params_page = Some v ->
  Inventory.pagination v = Some nav ->
  In (Pagination.PageLink href m c) (Pagination.items nav) ->
  Inventory.InventoryPage StringToNumber trim contains_insensitive user_id db
    (URL.get "q" (URL.searchParams_of href))
    (URL.get "page" (URL.searchParams_of href))
  = Inventory.InventoryPage StringToNumber trim contains_insensitive user_id db
      params_q (Some (JS.String_of_Z m)).
Proof.
  intros Htrim Hv Hnav Hin.
  unfold Inventory.InventoryPage in Hv.
  destruct (JS.to_Z (Inventory.page StringToNumber params_page)) as [cur|];
    [|discriminate].
  destruct (JS.to_Z (Inventory.skip StringToNumber params_page)) as [k|];
    [|discriminate].
  injection Hv as <-. cbn [Inventory.pagination] in Hnav.
  destruct (JS.ltb _ _); [|discriminate].
  destruct (JS.to_Z _) as [t|]; [|discriminate].
  destruct (page_link_reads_back cur t "/inventory" _ nav href m c
              eq_refl eq_refl Hnav Hin) as (Hps & _).
  rewrite Hps. cbn [URL.obj_set URL.get String.eqb Ascii.eqb Bool.eqb].
  apply InventoryPage_same_query.
  unfold Inventory.q. apply Htrim.
Qed.

Lemma inventory_link_keeps_search_witness :
  Inventory.InventoryPage Actions.decimal_StringToNumber (fun s => s)
    (fun q n => String.eqb q n) "u" seven_products
    (URL.get "q" (URL.searchParams_of "/inventory?q=&pageSize=5&page=2"))
    (URL.get "page" (URL.searchParams_of "/inventory?q=&pageSize=5&page=2"))
  = Inventory.InventoryPage Actions.decimal_StringToNumber (fun s => s)
      (fun q n => String.eqb q n) "u" seven_products None (Some "2"%string).
Proof.
  destruct (Inventory.InventoryPage Actions.decimal_StringToNumber (fun s => s)
              (fun q n => String.eqb q n) "u" seven_products None None)
    as [v|] eqn:Ev; [|vm_compute in Ev; discriminate Ev].
  destruct (Inventory.pagination v) as [nav|] eqn:En.
  - apply (inventory_link_keeps_search Actions.decimal_StringToNumber
             (fun s => s) (fun q n => String.eqb q n) "u" seven_products
             None None v nav "/inventory?q=&pageSize=5&page=2" 2 false).
    + reflexivity.
    + exact Ev.
    + exact En.
    + vm_compute in Ev. injection Ev as <-.
      vm_compute in En. injection En as <-.
      right. left. reflexivity.
  - vm_compute in Ev. injection Ev as <-. vm_compute in En. discriminate En.
Defined.

(** X26.  Without a search text (no q parameter, or one that trims to the
    empty string) the inventory lists all the products of the current user:
    the matching products are the user's products, and their number is the
    Total Products figure of the dashboard. *)
Theorem inventory_blank_search_lists_all (trim : string -> string)
    (contains_insensitive : string -> string -> bool)
    (user_id : string) (db : Prisma.table) (params_q : option string) :
  Inventory.q trim params_q = EmptyString ->
  Inventory.totalCount trim contains_insensitive user_id db params_q
  = Dashboard.totalProducts db user_id
  /\ Permutation
       (Inventory.listing trim contains_insensitive user_id db params_q)
       (Dashboard.allProducts db user_id).
Proof.
  intros Hq.
  assert (Hw : forall p,
             Inventory.where_ trim contains_insensitive user_id params_q p
             = Dashboard.owned user_id p).
  { intros p. unfold Inventory.where_, Dashboard.owned. rewrite Hq.
    apply andb_true_r. }
  split.
  - unfold Inventory.totalCount, Dashboard.totalProducts, Prisma.count.
    rewrite (filter_ext _ _ Hw). reflexivity.
  - unfold Inventory.listing, Dashboard.allProducts, Prisma.findMany.
    rewrite (filter_ext _ _ Hw). apply orderBy_Permutation.
Qed.

Lemma inventory_blank_search_lists_all_witness :
  Inventory.totalCount (fun s => s) (fun q n => String.eqb q n) "u"
    seven_products None = 7.
Proof.
  rewrite (proj1 (inventory_blank_search_lists_all (fun s => s)
                    (fun q n => String.eqb q n) "u" seven_products None
                    eq_refl)).
  reflexivity.
Defined.

Lemma reachable_tables_witness :
  Dashboard.threshold
    {| id := "id1"; userId := "u1"; name := "Widget"; sku := None;
       price := JS.of_Z 12; quantity := 3; lowStockAt := None;
       createdAt := 1000 |} = 5
  /\ Dashboard.lowStock
       (Requests.run Actions.decimal_StringToNumber true
          [Requests.Create "u1" (Actions.mkEnv "id1" 1000 true) widget_form])
       "u1" = 0.
Proof.
  destruct (reachable_tables Actions.decimal_StringToNumber true
              [Requests.Create "u1" (Actions.mkEnv "id1" 1000 true) widget_form]
              "u1") as (Hall & Hlow & _).
  split; [|exact Hlow].
  apply Hall. vm_compute. left. reflexivity.
Defined.
